(** * dex-hedger: exchange adapters, signers, state store and the
      auto-balance worker

    A shallow embedding of [core/types.py], [core/workers.py],
    [core/wrappers/pacifica.py], [core/wrappers/lighter.py] and of the
    state-store slots and the order handlers of [main.py], followed by the
    properties of the specification stated over it.

    Conventions.
    - A Python [float] is a binary64 number: [PrimFloat.float], with the
      comparisons and arithmetic of IEEE 754 (NaN compares false with
      everything).
    - A Python [int] is a [Z]; a [str] is a [string].
    - A decoded JSON document or a [dict] literal is a [pyval]; a dict keeps
      its insertion order.
    - Signals emitted, requests sent and sleeps are recorded, in program
      order, in a trace returned next to the result.
    - An f-string that is only logged is kept as the list of its pieces
      ([text]) rather than rendered. *)

From Stdlib Require Import ZArith List String Ascii Bool Lia.
From Stdlib Require Import Floats DecimalString.
From Stdlib Require Import Sorting Permutation OrderedTypeEx.
Import ListNotations.

Set Warnings "-inexact-float,-register-all".
Local Open Scope string_scope.

(** ** core/types.py *)

Inductive ExchangeId := PACIFICA | LIGHTER.
Inductive Direction := LONG | SHORT | NONE.
Inductive OrderType := MKT | LMT.
Inductive SupportedSymbol := BTC | ETH | SOL.
Inductive LogLevel := INFO | SUCCESS | WARN | ERROR.

Definition ExchangeId_eqb (a b : ExchangeId) : bool :=
  match a, b with
  | PACIFICA, PACIFICA | LIGHTER, LIGHTER => true
  | _, _ => false
  end.

Definition Direction_eqb (a b : Direction) : bool :=
  match a, b with
  | LONG, LONG | SHORT, SHORT | NONE, NONE => true
  | _, _ => false
  end.

Definition OrderType_eqb (a b : OrderType) : bool :=
  match a, b with
  | MKT, MKT | LMT, LMT => true
  | _, _ => false
  end.

(** [EXCHANGE_NAMES] *)
Definition EXCHANGE_NAMES (e : ExchangeId) : string :=
  match e with PACIFICA => "Pacifica" | LIGHTER => "Lighter" end.

(** The [.value] of the enum members. *)
Definition symbol_value (s : SupportedSymbol) : string :=
  match s with BTC => "BTC" | ETH => "ETH" | SOL => "SOL" end.

Definition direction_value (d : Direction) : string :=
  match d with LONG => "LONG" | SHORT => "SHORT" | NONE => "NONE" end.

Definition order_type_value (t : OrderType) : string :=
  match t with MKT => "MKT" | LMT => "LMT" end.

Record ApiCredentials := {
  apiKey : string;
  apiSecret : string;
  accountAddress : option string;
  accountId : option Z;
  l1Address : option string
}.

Record Position := {
  direction : Direction;
  quantity : float;
  entryPrice : float
}.

Record ExchangeState := {
  name : string;
  position : Position;
  pnl : float;
  balance : float;
  currency : string;
  leverage : Z
}.

(** ** Python values *)

(** What [json] decoding yields, and what the dict literals of the clients
    hold. *)
Inductive pyval :=
| PNone
| PBool (b : bool)
| PInt (z : Z)
| PFloat (x : float)
| PStr (s : string)
| PList (l : list pyval)
| PDict (d : list (string * pyval)).

(** An f-string before rendering: literal text and the values formatted into
    it. *)
Inductive piece :=
| T (s : string)      (* literal text, or a [str] formatted as it is *)
| D (z : Z)           (* an [int] *)
| F (x : float)       (* a [float], default format *)
| F5 (x : float)      (* a [float] under [:.5f] *)
| V (v : pyval).      (* any other value, through [str()] *)

Definition text := list piece.

(** [Order.id] is [str(o['orderId'])]: the value is kept, its rendering is
    not modelled. *)
Record Order := {
  id : pyval;
  exchangeId : ExchangeId;
  order_type : OrderType;
  order_direction : Direction;
  order_quantity : float;
  filledQuantity : float;
  price : float;
  timestamp : Z
}.

(** ** Exceptions *)

(** The exception classes the code raises or tells apart.  The classes of
    [requests.exceptions] all derive from [RequestException]; its
    [JSONDecodeError] also derives from [json.JSONDecodeError]. *)
Inductive exc_class :=
| Exception_
| ValueError
| KeyError
| TypeError
| IndexError
| AttributeError
| OverflowError
| ConnectionError_       (* requests: no connection, timeout, ... *)
| HTTPError              (* requests: raise_for_status *)
| JSONDecodeError.       (* requests: response.json() *)

Definition is_RequestException (c : exc_class) : bool :=
  match c with
  | ConnectionError_ | HTTPError | JSONDecodeError => true
  | _ => false
  end.

Definition is_ValueError (c : exc_class) : bool :=
  match c with ValueError => true | _ => false end.

Record exn := { exn_class : exc_class; exn_msg : text }.

Definition result (A : Type) : Type := exn + A.

Definition Raise {A} (c : exc_class) (msg : text) : result A :=
  inl {| exn_class := c; exn_msg := msg |}.

Definition rbind {A B} (r : result A) (k : A -> result B) : result B :=
  match r with inl e => inl e | inr a => k a end.

(** ** Builtins of the interpreter and the third-party libraries

    What the code calls and the repository does not define.  Text to number
    and number to text conversions of floats, the digests and the signature
    primitives are taken as given. *)
Record Runtime := {
  py_repr : pyval -> string;                 (* repr() of a float, list or dict *)
  format_5f : float -> string;               (* format(x, ".5f") *)
  float_of_str : string -> option float;     (* float(s); None: ValueError *)
  int_of_str : string -> option Z;           (* int(s); None: ValueError *)
  hmac_sha256_hexdigest : string -> string -> string;
                                             (* hmac.new(key, msg, sha256).hexdigest() *)
  b58decode : string -> string + string;     (* base58.b58decode; inl: it raises *)
  ed25519_sign : string -> string -> string + string;
                     (* ed25519.SigningKey(key).sign(msg); inl: either raises *)
  b58encode : string -> string               (* base58.b58encode(..).decode() *)
}.

Definition str_of_int (z : Z) : string := NilZero.string_of_int (Z.to_int z).

(** [int -> float]: round to nearest even. *)
Definition float_of_Z (z : Z) : float := SF2Prim (binary_normalize prec emax z 0 false).

(** [float -> int]: truncation; [None] on NaN and the infinities. *)
Definition Z_of_float (x : float) : option Z :=
  match Prim2SF x with
  | S754_zero _ => Some 0%Z
  | S754_finite s m e =>
      let a := if (0 <=? e)%Z then (Zpos m * 2 ^ e)%Z else (Zpos m / 2 ^ (- e))%Z in
      Some (if s then (- a)%Z else a)
  | S754_infinity _ | S754_nan => None
  end.

Definition quote : string := String (ascii_of_nat 34) EmptyString.
Definition backslash : string := String (ascii_of_nat 92) EmptyString.

Section Python.
Variable rt : Runtime.

  (** [str(v)] *)
Definition py_str (v : pyval) : string :=
    match v with
    | PStr s => s
    | PInt z => str_of_int z
    | PBool true => "True"
    | PBool false => "False"
    | PNone => "None"
    | PFloat _ | PList _ | PDict _ => py_repr rt v
    end.

Definition render_piece (p : piece) : string :=
    match p with
    | T s => s
    | D z => str_of_int z
    | F x => py_repr rt (PFloat x)
    | F5 x => format_5f rt x
    | V v => py_str v
    end.

  (** The string an f-string evaluates to. *)
Definition render (t : text) : string := String.concat EmptyString (map render_piece t).

  (** [bool(v)] *)
Definition py_truthy (v : pyval) : bool :=
    match v with
    | PNone => false
    | PBool b => b
    | PInt z => negb (z =? 0)%Z
    | PFloat x => negb (x =? 0)%float
    | PStr s => negb (String.eqb s EmptyString)
    | PList l => match l with [] => false | _ => true end
    | PDict d => match d with [] => false | _ => true end
    end.

Definition type_name (v : pyval) : string :=
    match v with
    | PNone => "NoneType" | PBool _ => "bool" | PInt _ => "int" | PFloat _ => "float"
    | PStr _ => "str" | PList _ => "list" | PDict _ => "dict"
    end.

Definition dict_get (d : list (string * pyval)) (k : string) : option pyval :=
    match find (fun kv => String.eqb (fst kv) k) d with
    | Some kv => Some (snd kv)
    | None => None
    end.

Definition is_str (k : string) (v : pyval) : bool :=
    match v with PStr s => String.eqb s k | _ => false end.

Fixpoint has_substring (k s : string) : bool :=
    prefix k s || match s with EmptyString => false | String _ r => has_substring k r end.

  (** [k in v] for a string [k] *)
Definition py_contains (k : string) (v : pyval) : result bool :=
    match v with
    | PDict d => inr (match dict_get d k with Some _ => true | None => false end)
    | PList l => inr (existsb (is_str k) l)
    | PStr s => inr (has_substring k s)
    | _ => Raise TypeError [T "argument of type '"; T (type_name v); T "' is not iterable"]
    end.

  (** [v[k]] for a string [k] *)
Definition py_getitem (v : pyval) (k : string) : result pyval :=
    match v with
    | PDict d =>
        match dict_get d k with
        | Some x => inr x
        | None => Raise KeyError [T "'"; T k; T "'"]
        end
    | PList _ => Raise TypeError [T "list indices must be integers or slices, not str"]
    | PStr _ => Raise TypeError [T "string indices must be integers, not 'str'"]
    | _ => Raise TypeError [T "'"; T (type_name v); T "' object is not subscriptable"]
    end.

  (** [v[0]] *)
Definition py_first (v : pyval) : result pyval :=
    match v with
    | PList (x :: _) => inr x
    | PList [] => Raise IndexError [T "list index out of range"]
    | PStr (String c _) => inr (PStr (String c EmptyString))
    | PStr EmptyString => Raise IndexError [T "string index out of range"]
    | PDict _ => Raise KeyError [T "0"]
    | _ => Raise TypeError [T "'"; T (type_name v); T "' object is not subscriptable"]
    end.

  (** [v.get(k, default)] *)
Definition py_get (v : pyval) (k : string) (default : pyval) : result pyval :=
    match v with
    | PDict d => inr (match dict_get d k with Some x => x | None => default end)
    | _ => Raise AttributeError [T "'"; T (type_name v); T "' object has no attribute 'get'"]
    end.

Fixpoint chars (s : string) : list pyval :=
    match s with
    | EmptyString => []
    | String c r => PStr (String c EmptyString) :: chars r
    end.

  (** The items [for o in v] runs over. *)
Definition py_iter (v : pyval) : result (list pyval) :=
    match v with
    | PList l => inr l
    | PDict d => inr (map (fun kv => PStr (fst kv)) d)
    | PStr s => inr (chars s)
    | _ => Raise TypeError [T "'"; T (type_name v); T "' object is not iterable"]
    end.

  (** [float(v)] *)
Definition py_float (v : pyval) : result float :=
    match v with
    | PFloat x => inr x
    | PInt z =>
        let x := float_of_Z z in
        if (abs x =? infinity)%float
        then Raise OverflowError [T "int too large to convert to float"]
        else inr x
    | PBool b => inr (if b then 1%float else 0%float)
    | PStr s =>
        match float_of_str rt s with
        | Some x => inr x
        | None => Raise ValueError [T "could not convert string to float: "; T s]
        end
    | _ => Raise TypeError [T "float() argument must be a string or a real number, not '";
                            T (type_name v); T "'"]
    end.

  (** [int(x)] for a float [x] *)
Definition int_of_float (x : float) : result Z :=
    match Z_of_float x with
    | Some z => inr z
    | None =>
        if is_nan x then Raise ValueError [T "cannot convert float NaN to integer"]
        else Raise OverflowError [T "cannot convert float infinity to integer"]
    end.

  (** [int(v)] *)
Definition py_int (v : pyval) : result Z :=
    match v with
    | PInt z => inr z
    | PBool b => inr (if b then 1%Z else 0%Z)
    | PFloat x => int_of_float x
    | PStr s =>
        match int_of_str rt s with
        | Some z => inr z
        | None => Raise ValueError [T "invalid literal for int() with base 10: "; T s]
        end
    | _ => Raise TypeError [T "int() argument must be a string, a bytes-like object or a real number, not '";
                            T (type_name v); T "'"]
    end.

  (** *** [json.dumps] *)

Definition hex_digit (n : N) : string :=
    substring (N.to_nat n) 1 "0123456789abcdef".

  (** One character of a JSON string under [ensure_ascii]: everything
      outside the range from the space to the tilde is escaped; a [str] is
      a string of code points below 256. *)
Definition json_char (c : ascii) : string :=
    let n := N_of_ascii c in
    if (n =? 34)%N then backslash ++ quote
    else if (n =? 92)%N then backslash ++ backslash
    else if (n =? 10)%N then backslash ++ "n"
    else if (n =? 13)%N then backslash ++ "r"
    else if (n =? 9)%N then backslash ++ "t"
    else if (n =? 8)%N then backslash ++ "b"
    else if (n =? 12)%N then backslash ++ "f"
    else if (n <? 32)%N || (126 <? n)%N
         then backslash ++ "u00" ++ hex_digit (n / 16) ++ hex_digit (n mod 16)
    else String c EmptyString.

Fixpoint json_escape (s : string) : string :=
    match s with
    | EmptyString => EmptyString
    | String c r => json_char c ++ json_escape r
    end.

Definition json_string (s : string) : string := quote ++ json_escape s ++ quote.

Definition json_float (x : float) : string :=
    if is_nan x then "NaN"
    else if (x =? infinity)%float then "Infinity"
    else if (x =? neg_infinity)%float then "-Infinity"
    else py_repr rt (PFloat x).

  (** [json.dumps(v, separators=(item_sep, key_sep))] *)
Fixpoint json_dumps_with (item_sep key_sep : string) (v : pyval) : string :=
    match v with
    | PNone => "null"
    | PBool true => "true"
    | PBool false => "false"
    | PInt z => str_of_int z
    | PFloat x => json_float x
    | PStr s => json_string s
    | PList l => "[" ++ String.concat item_sep (map (json_dumps_with item_sep key_sep) l) ++ "]"
    | PDict d =>
        "{" ++ String.concat item_sep
                 (map (fun kv => json_string (fst kv) ++ key_sep
                                   ++ json_dumps_with item_sep key_sep (snd kv)) d)
            ++ "}"
    end.

  (** [json.dumps(v)]: the default separators carry a space. *)
Definition json_dumps (v : pyval) : string := json_dumps_with ", " ": " v.

  (** [json.dumps(v, separators=(',', ':'))]: the compact form. *)
Definition json_dumps_compact (v : pyval) : string := json_dumps_with "," ":" v.

Definition upper_char (c : ascii) : ascii :=
    let n := N_of_ascii c in
    if (97 <=? n)%N && (n <=? 122)%N then ascii_of_N (n - 32) else c.

  (** [s.upper()] on ASCII text *)
Fixpoint upper (s : string) : string :=
    match s with
    | EmptyString => EmptyString
    | String c r => String (upper_char c) (upper r)
    end.

  (** [sorted(params.items())]: the keys of a dict are distinct, so the pairs
      are ordered by key. *)
Fixpoint insert_item (kv : string * pyval) (l : list (string * pyval)) :=
    match l with
    | [] => [kv]
    | kv' :: r => if String.leb (fst kv) (fst kv') then kv :: l else kv' :: insert_item kv r
    end.

Definition sorted_items (d : list (string * pyval)) : list (string * pyval) :=
    fold_right insert_item [] d.
End Python.

(** ** Effects: the network, the clock and the signals *)

(** One call of [requests.get], [requests.post] or [requests.delete]. *)
Record request := {
  req_method : string;
  req_url : string;
  req_headers : list (string * string);
  req_params : option pyval;      (* params=... *)
  req_json : option pyval         (* json=... *)
}.

(** A response object as the code reads it: [raise_for_status] raises
    [HTTPError(status_error)] on a 4xx/5xx status, and [json()] returns the
    decoded body or raises [JSONDecodeError]. *)
Record response := {
  status_error : option string;
  body : string + pyval
}.

(** What a call of [requests] does: it raises a connectivity error
    (connection refused, DNS failure, timeout) or returns a response. *)
Inductive transport :=
| Unreachable (detail : string)
| Responded (r : response).

(** The environment of a run: the successive readings of the clock, in
    milliseconds since the epoch, and the network. *)
Record World := {
  clock : nat -> Z;
  net : request -> transport
}.

Inductive event :=
| EmitLog (msg : text) (lvl : LogLevel)              (* log_message.emit *)
| EmitPrice (ex : ExchangeId) (p : float)            (* price_update.emit *)
| EmitState (ex : ExchangeId) (s : ExchangeState)    (* state_update.emit *)
| EmitOrders (ex : ExchangeId) (l : list Order)      (* orders_update.emit *)
| Http (r : request)                                 (* a call of requests *)
| SingleShot (ms : Z).                               (* QTimer.singleShot(ms, self._poll_data) *)

Record mstate := {
  trace : list event;
  clock_reads : nat
}.

(** Computations that read the clock, use the network, emit signals and may
    raise.  The trace survives an exception. *)
Definition M (A : Type) : Type := mstate -> result A * mstate.

Definition ret {A} (a : A) : M A := fun s => (inr a, s).

Definition bind {A B} (m : M A) (k : A -> M B) : M B :=
  fun s => match m s with
           | (inl e, s') => (inl e, s')
           | (inr a, s') => k a s'
           end.

Declare Scope m_scope.
Delimit Scope m_scope with M.
Notation "x <- m ;; k" := (bind m (fun x => k))
  (at level 61, m at next level, right associativity) : m_scope.
Notation "m ;;; k" := (bind m (fun _ => k))
  (at level 61, right associativity) : m_scope.
Local Open Scope m_scope.

Definition lift {A} (r : result A) : M A := fun s => (r, s).

Definition raise {A} (c : exc_class) (msg : text) : M A := lift (Raise c msg).

Definition emit (e : event) : M unit :=
  fun s => (inr tt, {| trace := trace s ++ [e]; clock_reads := clock_reads s |}).

(** [try: m] with the exception, if any, handed to the caller. *)
Definition attempt {A} (m : M A) : M (result A) :=
  fun s => let (r, s') := m s in (inr r, s').

Definition start : mstate := {| trace := []; clock_reads := 0 |}.

(** The result and the trace of a computation run from scratch. *)
Definition run {A} (m : M A) : result A * list event :=
  let (r, s) := m start in (r, trace s).

Section Effects.
Variable W : World.

Definition read_clock : M Z :=
    fun s => (inr (clock W (clock_reads s)),
              {| trace := trace s; clock_reads := S (clock_reads s) |}).

Definition send (r : request) : M transport :=
    emit (Http r) ;;; ret (net W r).
End Effects.

Definition is_http (e : event) : bool :=
  match e with Http _ => true | _ => false end.

(** The network calls of a trace. *)
Definition http_calls (tr : list event) : list event := filter is_http tr.

Definition opt_str (o : option string) : pyval :=
  match o with Some s => PStr s | None => PNone end.

Definition nonempty {A} (l : list A) : bool :=
  match l with [] => false | _ => true end.

Definition is_in (m : string) (l : list string) : bool := existsb (String.eqb m) l.

(** ** core/wrappers/base.py *)

Module Base.
  (** The fields of an adapter: [client], [ex_id] and [name] of the base
      class, and the timer, [symbol] and [market_name] both subclasses add.
      [C] is the class of the SDK client. *)
Record BaseExchangeAPI (C : Type) := {
    client : option C;
    ex_id : ExchangeId;
    name : string;
    poll_timer_active : bool;       (* poll_timer.isActive() *)
    symbol : SupportedSymbol;
    market_name : string
  }.
Arguments client {C}.
Arguments ex_id {C}.
Arguments name {C}.
Arguments poll_timer_active {C}.
Arguments symbol {C}.
Arguments market_name {C}.

Definition set_client {C} (a : BaseExchangeAPI C) (c : option C) : BaseExchangeAPI C :=
    {| client := c; ex_id := ex_id a; name := name a;
       poll_timer_active := poll_timer_active a;
       symbol := symbol a; market_name := market_name a |}.

Definition set_timer {C} (a : BaseExchangeAPI C) (b : bool) : BaseExchangeAPI C :=
    {| client := client a; ex_id := ex_id a; name := name a;
       poll_timer_active := b;
       symbol := symbol a; market_name := market_name a |}.

Definition set_symbol {C} (a : BaseExchangeAPI C) (sym : SupportedSymbol) (m : string)
    : BaseExchangeAPI C :=
    {| client := client a; ex_id := ex_id a; name := name a;
       poll_timer_active := poll_timer_active a;
       symbol := sym; market_name := m |}.

  (** The log prefix every adapter message starts with: "[name] ". *)
Definition tag {C} (a : BaseExchangeAPI C) : text := [T "["; T (name a); T "] "].
End Base.

(** ** core/wrappers/pacifica.py *)

(** The type of [create_signature]: secret, path, method and parameters to
    the signature and the timestamp. *)
Definition signer : Type :=
  string -> string -> string -> list (string * pyval) -> M (string * string).

Module Pacifica.

(** [Network.MAINNET.value] *)
Definition MAINNET : string := "https://api.pacifica.fi/api/v1".

Record Client := {
  api_key : string;
  private_key : string;
  account_address : option string;
  base_url : string
}.

Definition check_api_keys (api_key private_key : string) : result unit :=
  if String.eqb api_key EmptyString then Raise ValueError [T "API key is not set"]
  else if String.eqb private_key EmptyString then Raise ValueError [T "Private key is not set"]
  else inr tt.

Definition error_dict (msg : string) : pyval := PDict [("error", PStr msg)].

Section WithWorld.
Variables (rt : Runtime) (W : World).

  (** The message of lines 86-97, for a timestamp already read. *)
Definition signed_message (timestamp request_str method : string)
      (params : list (string * pyval)) : string :=
    let query_string :=
      if is_in method ["GET"; "DELETE"] && nonempty params
      then String.concat "&"
             (map (fun kv => fst kv ++ "=" ++ py_str rt (snd kv)) (sorted_items params))
      else EmptyString in
    let body_string :=
      if is_in method ["POST"; "PUT"] && nonempty params
      then json_dumps_compact rt (PDict params)
      else EmptyString in
    timestamp ++ method ++ request_str ++ query_string ++ body_string.

  (** [create_signature]: the signature and the timestamp. *)
Definition create_signature (private_key request_str method : string)
      (params : list (string * pyval)) : M (string * string) :=
    lift (check_api_keys EmptyString private_key) ;;;
    now <- read_clock W ;;
    let timestamp := str_of_int now in
    let message := signed_message timestamp request_str method params in
    match b58decode rt private_key with
    | inl e => raise ValueError [T "Error creating signature: "; T e]
    | inr private_key_bytes =>
        match ed25519_sign rt private_key_bytes message with
        | inl e => raise ValueError [T "Error creating signature: "; T e]
        | inr signature_bytes => ret (b58encode rt signature_bytes, timestamp)
        end
    end.

  (** [Client.__init__] *)
Definition new_Client (api_key private_key : string) (account_address : option string)
    : result Client :=
    rbind (check_api_keys api_key private_key) (fun _ =>
    inr {| api_key := api_key; private_key := private_key;
           account_address := account_address; base_url := MAINNET |}).

  (** What [_request] makes of the outcome of the call of [requests]: every
      failure becomes a dict with an "error" entry. *)
Definition decode (t : transport) : pyval :=
    match t with
    | Unreachable detail => error_dict ("Request Error: " ++ detail)
    | Responded r =>
        match status_error r with
        | Some detail => error_dict ("HTTP Error: " ++ detail)
        | None =>
            match body r with
            | inr v => v
            | inl detail => error_dict ("Request Error: " ++ detail)
            end
        end
    end.

  (** [Client._request], for a signer [sign] standing where
      [create_signature] is called. *)
Definition _request_with (sign : signer) (c : Client) (method request_str : string) (params : list (string * pyval))
    : M pyval :=
    r <- attempt (sign (private_key c) request_str method params) ;;
    match r with
    | inl e =>
        if is_ValueError (exn_class e) then ret (error_dict (render rt (exn_msg e)))
        else lift (inl e)
    | inr (signature, timestamp) =>
        let headers :=
          [("Content-Type", "application/json");
           ("X-PACIFICA-API-KEY", api_key c);
           ("X-PACIFICA-SIGNATURE", signature);
           ("X-PACIFICA-TIMESTAMP", timestamp)] in
        let url := base_url c ++ request_str in
        if String.eqb method "GET" then
          t <- send W {| req_method := "GET"; req_url := url; req_headers := headers;
                         req_params := Some (PDict params); req_json := None |} ;;
          ret (decode t)
        else if String.eqb method "POST" then
          t <- send W {| req_method := "POST"; req_url := url; req_headers := headers;
                         req_params := None; req_json := Some (PDict params) |} ;;
          ret (decode t)
        else if String.eqb method "DELETE" then
          t <- send W {| req_method := "DELETE"; req_url := url; req_headers := headers;
                         req_params := Some (PDict params); req_json := None |} ;;
          ret (decode t)
        else ret (error_dict ("Unsupported method: " ++ method))
    end.

Section Adapter.
    (** The signer in use; the code has [create_signature] here. *)
Variable sign : signer.

Definition _request := _request_with sign.

Definition get_server_time (c : Client) : M pyval :=
      _request c "GET" "/utils/server_time" [].

Definition get_market_summary (c : Client) (market_name : string) : M pyval :=
      _request c "GET" ("/markets/" ++ market_name ++ "/summary") [].

Definition get_collateral (c : Client) (token_name : string) : M pyval :=
      _request c "GET" "/collateral"
        [("token_name", PStr token_name); ("account_address", opt_str (account_address c))].

Definition update_collateral (c : Client) (token_name : string) (leverage : Z) : M pyval :=
      _request c "POST" "/collateral"
        [("token_name", PStr token_name); ("account_address", opt_str (account_address c));
         ("leverage", PInt leverage)].

Definition get_positions (c : Client) (market_name : string) : M pyval :=
      _request c "GET" "/positions"
        (("account_address", opt_str (account_address c))
           :: (if String.eqb market_name EmptyString then []
               else [("market_name", PStr market_name)])).

Definition get_orders (c : Client) (market_name status : string) : M pyval :=
      _request c "GET" "/orders"
        ([("market_name", PStr market_name); ("account_address", opt_str (account_address c))]
           ++ (if String.eqb status EmptyString then [] else [("status", PStr status)]))%list.

    (** [post_order] with the defaults the adapter leaves in place:
        [time_in_force] GTC, no client order id, [reduce_only] false. *)
Definition post_order (c : Client) (market_name side order_type : string)
        (order_size : float) (price_str : option string) : M pyval :=
      _request c "POST" "/orders"
        ([("market_name", PStr market_name); ("side", PStr side); ("type", PStr order_type);
          ("size", PFloat order_size); ("account_address", opt_str (account_address c));
          ("time_in_force", PStr "GTC"); ("reduce_only", PBool false)]
           ++ match price_str with
              | Some p => if String.eqb p EmptyString then [] else [("price", PStr p)]
              | None => []
              end)%list.

Definition delete_order (c : Client) (market_name : string) (order_id : Z) : M pyval :=
      _request c "DELETE" "/orders"
        [("market_name", PStr market_name); ("order_id", PInt order_id);
         ("account_address", opt_str (account_address c))].

Definition delete_orders (c : Client) (market_name : string) : M pyval :=
      _request c "DELETE" "/orders/all"
        [("market_name", PStr market_name); ("account_address", opt_str (account_address c))].

    (** *** [PacificaAPI] *)

Definition PacificaAPI := Base.BaseExchangeAPI Client.

    (** [__init__] *)
Definition new (name : string) : PacificaAPI :=
      {| Base.client := None; Base.ex_id := PACIFICA; Base.name := name;
         Base.poll_timer_active := false; Base.symbol := BTC;
         Base.market_name := "BTC-PERP" |}.

Definition log (a : PacificaAPI) (msg : text) (lvl : LogLevel) : M unit :=
      emit (EmitLog (Base.tag a ++ msg)%list lvl).

Definition connect (a : PacificaAPI) (creds : ApiCredentials) : M (PacificaAPI * bool) :=
      log a [T "Connecting with API Key "; T (substring 0 5 (apiKey creds)); T "..."] INFO ;;;
      r <- attempt (
        c <- lift (new_Client (apiKey creds) (apiSecret creds) (accountAddress creds)) ;;
        response <- get_server_time c ;;
        ok <- lift (py_contains "serverTime" response) ;;
        if ok then
          t <- lift (py_getitem response "serverTime") ;;
          log a [T "Connection successful. Server time: "; V t] SUCCESS ;;;
          ret (Base.set_client a (Some c), true)
        else
          error_msg <- lift (py_get response "error" (PStr "Unknown error")) ;;
          log a [T "Connection failed: "; V error_msg] ERROR ;;;
          ret (Base.set_client a None, false)) ;;
      match r with
      | inr x => ret x
      | inl e =>
          log a (T "Connection error: " :: exn_msg e) ERROR ;;;
          ret (Base.set_client a None, false)
      end.

Definition stop_streaming (a : PacificaAPI) : M PacificaAPI :=
      log a [T "Real-data polling stopped."] INFO ;;;
      ret (Base.set_timer a false).

    (** The fallible check [if 'error' in data: raise Exception(...)]. *)
Definition fail_on_error (what : string) (data : pyval) : M unit :=
      bad <- lift (py_contains "error" data) ;;
      if bad then
        e <- lift (py_getitem data "error") ;;
        raise Exception_ [T what; T " poll failed: "; V e]
      else ret tt.

    (** Lines 340-363: the account state out of the two payloads. *)
Definition translate_state (a : PacificaAPI) (collateral_data position_data : pyval)
      : result ExchangeState :=
      rbind (py_getitem collateral_data "data") (fun cd =>
      rbind (py_getitem cd "balance") (fun b =>
      rbind (py_float rt b) (fun balance =>
      rbind (py_getitem collateral_data "data") (fun cd' =>
      rbind (py_getitem cd' "leverage") (fun l =>
      rbind (py_float rt l) (fun lf =>
      rbind (int_of_float lf) (fun leverage =>
      rbind (py_getitem position_data "data") (fun pd =>
      rbind (if py_truthy pd
             then rbind (py_getitem position_data "data") (fun pd' => py_first pd')
             else inr PNone) (fun pos =>
      rbind
        (if py_truthy pos then
           rbind (py_getitem pos "positionSize") (fun q =>
           rbind (py_float rt q) (fun pos_qty =>
           rbind (py_getitem pos "side") (fun sd =>
           let pos_dir := if is_str "LONG" sd then LONG else SHORT in
           rbind (py_getitem pos "entryPrice") (fun ep =>
           rbind (py_float rt ep) (fun pos_entry =>
           rbind (py_getitem pos "unrealisedPnl") (fun up =>
           rbind (py_float rt up) (fun pnl =>
           inr (pos_qty, pos_dir, pos_entry, pnl))))))))
         else inr (0%float, NONE, 0%float, 0%float))
        (fun '(pos_qty, pos_dir, pos_entry, pnl) =>
      inr {| name := Base.name a;
             position := {| direction := pos_dir; quantity := pos_qty;
                            entryPrice := pos_entry |};
             pnl := pnl;
             balance := balance;
             currency := "USDC";
             leverage := leverage |})))))))))).

    (** One iteration of the loop of lines 372-383. *)
Definition translate_order (a : PacificaAPI) (o : pyval) : result Order :=
      rbind (py_getitem o "orderId") (fun oid =>
      rbind (py_getitem o "type") (fun ty =>
      rbind (py_getitem o "side") (fun sd =>
      rbind (py_getitem o "orderSize") (fun q =>
      rbind (py_float rt q) (fun quantity =>
      rbind (py_getitem o "filledSize") (fun fq =>
      rbind (py_float rt fq) (fun filled =>
      rbind (py_getitem o "price") (fun pr =>
      rbind (py_float rt pr) (fun price =>
      rbind (py_getitem o "createdAt") (fun ca =>
      rbind (py_int rt ca) (fun timestamp =>
      inr {| id := oid;
             exchangeId := Base.ex_id a;
             order_type := if is_str "LIMIT" ty then LMT else MKT;
             order_direction := if is_str "LONG" sd then LONG else SHORT;
             order_quantity := quantity;
             filledQuantity := filled;
             price := price;
             timestamp := timestamp |}))))))))))).

Fixpoint translate_orders (a : PacificaAPI) (l : list pyval) : result (list Order) :=
      match l with
      | [] => inr []
      | o :: r =>
          rbind (translate_order a o) (fun py_order =>
          rbind (translate_orders a r) (fun rest => inr (py_order :: rest)))
      end.

    (** The [try] block of [_poll_data]. *)
Definition poll_body (a : PacificaAPI) (c : Client) : M unit :=
      summary_data <- get_market_summary c (Base.market_name a) ;;
      fail_on_error "Price" summary_data ;;;
      price <- lift (rbind (py_getitem summary_data "data") (fun d =>
                     rbind (py_getitem d "markPrice") (fun mp => py_float rt mp))) ;;
      emit (EmitPrice (Base.ex_id a) price) ;;;
      collateral_data <- get_collateral c "USDC" ;;
      fail_on_error "Collateral" collateral_data ;;;
      position_data <- get_positions c (Base.market_name a) ;;
      fail_on_error "Position" position_data ;;;
      state <- lift (translate_state a collateral_data position_data) ;;
      emit (EmitState (Base.ex_id a) state) ;;;
      orders_data <- get_orders c (Base.market_name a) "OPEN" ;;
      fail_on_error "Orders" orders_data ;;;
      py_orders <- lift (rbind (py_getitem orders_data "data") (fun d =>
                         rbind (py_iter d) (fun l => translate_orders a l))) ;;
      emit (EmitOrders (Base.ex_id a) py_orders).

Definition _poll_data (a : PacificaAPI) : M PacificaAPI :=
      match Base.client a with
      | Some c =>
          if Base.poll_timer_active a then
            r <- attempt (poll_body a c) ;;
            match r with
            | inr _ => ret a
            | inl e =>
                if is_RequestException (exn_class e) then
                  log a (T "Network error during poll: " :: exn_msg e) ERROR ;;;
                  stop_streaming a
                else
                  log a (T "Data poll failed: " :: exn_msg e) ERROR ;;;
                  ret a
            end
          else stop_streaming a
      | None => stop_streaming a
      end.

Definition start_streaming (a : PacificaAPI) (symbol : SupportedSymbol) : M PacificaAPI :=
      match Base.client a with
      | None =>
          log a [T "Cannot start streaming: Not connected."] ERROR ;;; ret a
      | Some _ =>
          let a := Base.set_symbol a symbol (symbol_value symbol ++ "-PERP") in
          log a [T "Real-data polling started for "; T (Base.market_name a); T "..."] INFO ;;;
          if Base.poll_timer_active a then ret a
          else a' <- _poll_data a ;; ret (Base.set_timer a' true)
      end.

    (** The shape shared by the four order-side methods once the client is
        known: the request, the check of its answer, the success log and the
        re-poll, under [try ... except Exception]. *)
Definition guarded (a : PacificaAPI) (call : M pyval) (done failed : text) : M unit :=
      r <- attempt (
        response <- call ;;
        bad <- lift (py_contains "error" response) ;;
        (if bad then
           e <- lift (py_getitem response "error") ;;
           raise Exception_ [V e]
         else ret tt) ;;;
        log a done SUCCESS ;;;
        emit (SingleShot 500)) ;;
      match r with
      | inr _ => ret tt
      | inl e => log a (failed ++ exn_msg e)%list ERROR
      end.

Definition set_leverage (a : PacificaAPI) (symbol : SupportedSymbol) (leverage : Z)
      : M unit :=
      match Base.client a with
      | None => ret tt
      | Some c =>
          log a [T "Setting leverage to "; D leverage; T "x..."] INFO ;;;
          guarded a (update_collateral c "USDC" leverage)
            [T "Leverage set to "; D leverage; T "x."] [T "Set leverage failed: "]
      end.

    (** [price if price else 'MKT'] inside the log line. *)
Definition price_or_MKT (price : option float) : piece :=
      match price with
      | Some p => if (p =? 0)%float then T "MKT" else F p
      | None => T "MKT"
      end.

    (** [str(price) if price else None] *)
Definition price_arg (price : option float) : option string :=
      match price with
      | Some p => if (p =? 0)%float then None else Some (py_repr rt (PFloat p))
      | None => None
      end.

Definition create_order (a : PacificaAPI) (symbol : SupportedSymbol)
        (order_type : OrderType) (direction : Direction) (quantity : float)
        (price : option float) : M unit :=
      match Base.client a with
      | None => ret tt
      | Some c =>
          let market := symbol_value symbol ++ "-PERP" in
          let side := if Direction_eqb direction LONG then "LONG" else "SHORT" in
          let sdk_order_type := if OrderType_eqb order_type LMT then "LIMIT" else "MARKET" in
          log a [T "Create "; T (order_type_value order_type); T " ";
                 T (direction_value direction); T " "; F quantity; T " @ ";
                 price_or_MKT price] INFO ;;;
          guarded a (post_order c market side sdk_order_type quantity (price_arg price))
            [T "Order submitted successfully."] [T "Order creation failed: "]
      end.

Definition cancel_order (a : PacificaAPI) (symbol : SupportedSymbol) (order_id : string)
      : M unit :=
      match Base.client a with
      | None => ret tt
      | Some c =>
          log a [T "Cancelling order: "; T order_id] INFO ;;;
          r <- attempt (
            let market := symbol_value symbol ++ "-PERP" in
            oid <- lift (py_int rt (PStr order_id)) ;;
            response <- delete_order c market oid ;;
            bad <- lift (py_contains "error" response) ;;
            (if bad then
               e <- lift (py_getitem response "error") ;;
               raise Exception_ [V e]
             else ret tt) ;;;
            log a [T "Order "; T order_id; T " cancelled."] SUCCESS ;;;
            emit (SingleShot 500)) ;;
          match r with
          | inr _ => ret tt
          | inl e => log a (T "Cancel order failed: " :: exn_msg e) ERROR
          end
      end.

Definition cancel_all_orders (a : PacificaAPI) (symbol : SupportedSymbol) : M unit :=
      match Base.client a with
      | None => ret tt
      | Some c =>
          log a [T "Cancelling ALL orders for "; T (symbol_value symbol); T "..."] WARN ;;;
          guarded a (delete_orders c (symbol_value symbol ++ "-PERP"))
            [T "All orders cancelled."] [T "Cancel all orders failed: "]
      end.
End Adapter.
End WithWorld.

End Pacifica.

(** ** core/wrappers/lighter.py *)

Module Lighter.

Record Client := {
  api_key : string;
  api_secret : string;
  account_id : string;
  l1_address : option string;
  base_url : string
}.

Definition BASE_URL : string := "https://mainnet.zklighter.elliot.ai".

(** [Client._handle_response] *)
Definition _handle_response (r : response) : result pyval :=
  match status_error r with
  | None =>
      match body r with
      | inr v => inr v
      | inl detail => Raise Exception_ [T "Other error occurred: "; T detail]
      end
  | Some http_err =>
      match body r with
      | inr error_data =>
          rbind (py_get error_data "error" (PStr http_err)) (fun error_msg =>
          Raise Exception_ [T "HTTP error occurred: "; V error_msg])
      | inl _ => Raise Exception_ [T "HTTP error occurred: "; T http_err]
      end
  end.

Section WithWorld.
Variables (rt : Runtime) (W : World).

  (** Line 87: the message that is signed, for a timestamp already read. *)
Definition auth_message (timestamp method endpoint : string)
      (data : option (list (string * pyval))) : string :=
    let body :=
      match data with
      | Some d => if nonempty d then json_dumps rt (PDict d) else EmptyString
      | None => EmptyString
      end in
    timestamp ++ upper method ++ endpoint ++ body.

  (** [Client._get_auth_headers] *)
Definition _get_auth_headers (c : Client) (method endpoint : string)
      (data : option (list (string * pyval))) : M (list (string * string)) :=
    if String.eqb (api_key c) EmptyString || String.eqb (api_secret c) EmptyString
    then raise ValueError [T "API key and secret must be set for private endpoints"]
    else
      now <- read_clock W ;;
      let timestamp := str_of_int now in
      let message := auth_message timestamp method endpoint data in
      let signature := hmac_sha256_hexdigest rt (api_secret c) message in
      ret [("Content-Type", "application/json");
           ("X-Api-Key", api_key c);
           ("X-Timestamp", timestamp);
           ("X-Signature", signature)].

  (** A call of [requests] followed by [_handle_response]: a connectivity
      failure is raised by the call itself and is not converted. *)
Definition call (rq : request) : M pyval :=
    t <- send W rq ;;
    match t with
    | Unreachable detail => raise ConnectionError_ [T detail]
    | Responded r => lift (_handle_response r)
    end.

Definition opt_dict (d : option (list (string * pyval))) : option pyval :=
    match d with Some l => Some (PDict l) | None => None end.

Definition _get (c : Client) (endpoint : string) (params : option (list (string * pyval)))
    : M pyval :=
    call {| req_method := "GET"; req_url := base_url c ++ endpoint; req_headers := [];
            req_params := opt_dict params; req_json := None |}.

Definition _post (c : Client) (endpoint : string) (data : option (list (string * pyval)))
    : M pyval :=
    headers <- _get_auth_headers c "POST" endpoint data ;;
    call {| req_method := "POST"; req_url := base_url c ++ endpoint; req_headers := headers;
            req_params := None; req_json := opt_dict data |}.

Definition _delete (c : Client) (endpoint : string) (data : option (list (string * pyval)))
    : M pyval :=
    headers <- _get_auth_headers c "DELETE" endpoint data ;;
    call {| req_method := "DELETE"; req_url := base_url c ++ endpoint; req_headers := headers;
            req_params := None; req_json := opt_dict data |}.

  (** The private GET endpoints: signed headers, then the query. *)
Definition _get_private (c : Client) (endpoint : string) (params : list (string * pyval))
    : M pyval :=
    headers <- _get_auth_headers c "GET" endpoint None ;;
    call {| req_method := "GET"; req_url := base_url c ++ endpoint; req_headers := headers;
            req_params := Some (PDict params); req_json := None |}.

Definition get_market_price (c : Client) (market_name : string) : M pyval :=
    data <- _get c ("/api/v2/market/summary?market=" ++ market_name) None ;;
    found <- lift (if py_truthy data then py_contains "mark_price" data else inr false) ;;
    if found then
      mp <- lift (py_getitem data "mark_price") ;;
      ret (PDict [("price", mp)])
    else raise Exception_ [T "Price not found in response: "; V data].

Definition get_account_collateral (c : Client) (token_name : string) : M pyval :=
    _get_private c "/api/v2/account/collateral"
      [("token", PStr token_name); ("account_id", PStr (account_id c))].

Definition update_collateral (c : Client) (token_name leverage : string) : M pyval :=
    _post c "/api/v2/account/collateral"
      (Some [("account_id", PStr (account_id c)); ("token", PStr token_name);
             ("leverage", PStr leverage)]).

Definition get_positions (c : Client) (market_name : string) : M pyval :=
    _get_private c "/api/v2/account/positions"
      [("market", PStr market_name); ("account_id", PStr (account_id c))].

  (** The comprehension of line 181. *)
Fixpoint open_only (l : list pyval) : result (list pyval) :=
    match l with
    | [] => inr []
    | o :: r =>
        rbind (py_get o "status" PNone) (fun st =>
        rbind (open_only r) (fun rest =>
        inr (if is_str "OPEN" st then o :: rest else rest)))
    end.

Definition get_orders (c : Client) (market_name status : string) : M pyval :=
    all_orders <- _get_private c "/api/v2/account/orders"
                    [("market", PStr market_name); ("account_id", PStr (account_id c))] ;;
    if String.eqb status "OPEN" then
      l <- lift (rbind (py_iter all_orders) open_only) ;;
      ret (PList l)
    else ret all_orders.

Definition post_order (c : Client) (market_name side order_type size : string)
      (price : option string) : M pyval :=
    _post c "/api/v2/account/orders"
      (Some ([("account_id", PStr (account_id c)); ("market", PStr market_name);
              ("side", PStr side); ("type", PStr order_type); ("size", PStr size)]
               ++ match price with
                  | Some p => if String.eqb p EmptyString then [] else [("price", PStr p)]
                  | None => []
                  end)%list).

Definition delete_order (c : Client) (market_name : string) (order_id : Z) : M pyval :=
    _delete c "/api/v2/account/orders"
      (Some [("account_id", PStr (account_id c)); ("market", PStr market_name);
             ("order_id", PInt order_id)]).

Definition delete_orders (c : Client) (market_name : string) : M pyval :=
    _delete c "/api/v2/account/orders/all"
      (Some [("account_id", PStr (account_id c)); ("market", PStr market_name)]).

  (** *** [LighterAPI] *)

Definition LighterAPI := Base.BaseExchangeAPI Client.

  (** [__init__] *)
Definition new (name : string) : LighterAPI :=
    {| Base.client := None; Base.ex_id := LIGHTER; Base.name := name;
       Base.poll_timer_active := false; Base.symbol := BTC;
       Base.market_name := "BTC-PERP" |}.

Definition log (a : LighterAPI) (msg : text) (lvl : LogLevel) : M unit :=
    emit (EmitLog (Base.tag a ++ msg)%list lvl).

  (** [not creds.accountId]: true on [None] and on [0]. *)
Definition no_account_id (creds : ApiCredentials) : bool :=
    match accountId creds with
    | None => true
    | Some z => (z =? 0)%Z
    end.

  (** [not creds.l1Address]: true on [None] and on the empty string. *)
Definition no_l1_address (creds : ApiCredentials) : bool :=
    match l1Address creds with
    | None => true
    | Some s => String.eqb s EmptyString
    end.

Definition connect (a : LighterAPI) (creds : ApiCredentials) : M (LighterAPI * bool) :=
    log a [T "Connecting with API Key "; T (substring 0 5 (apiKey creds)); T "..."] INFO ;;;
    if no_account_id creds || no_l1_address creds then
      log a [T "Connection failed: Lighter requires Account ID and L1 Address."] ERROR ;;;
      ret (a, false)
    else
      r <- attempt (
        let c := {| api_key := apiKey creds; api_secret := apiSecret creds;
                    account_id := py_str rt (match accountId creds with
                                             | Some z => PInt z | None => PNone end);
                    l1_address := l1Address creds; base_url := BASE_URL |} in
        response <- get_account_collateral c "USDT" ;;
        ok <- lift (if py_truthy response then py_contains "balance" response
                    else inr false) ;;
        if ok then
          b <- lift (py_getitem response "balance") ;;
          log a [T "Connection successful. Balance: "; V b] SUCCESS ;;;
          ret (Base.set_client a (Some c), true)
        else
          log a [T "Connection failed: "; V response] ERROR ;;;
          ret (Base.set_client a None, false)) ;;
      match r with
      | inr x => ret x
      | inl e =>
          log a (T "Connection error: " :: exn_msg e) ERROR ;;;
          ret (Base.set_client a None, false)
      end.

Definition stop_streaming (a : LighterAPI) : M LighterAPI :=
    log a [T "Real-data polling stopped."] INFO ;;;
    ret (Base.set_timer a false).

  (** Lines 309-330: the account state out of the two payloads. *)
Definition translate_state (a : LighterAPI) (collateral_data position_data : pyval)
    : result ExchangeState :=
    rbind (py_getitem collateral_data "balance") (fun b =>
    rbind (py_float rt b) (fun balance =>
    rbind (py_getitem collateral_data "leverage") (fun l =>
    rbind (py_float rt l) (fun lf =>
    rbind (int_of_float lf) (fun leverage =>
    rbind (if py_truthy position_data
           then rbind (py_getitem position_data "size") (fun sz =>
                rbind (py_float rt sz) (fun x => inr (0 <? x)%float))
           else inr false) (fun held =>
    rbind
      (if held then
         rbind (py_getitem position_data "size") (fun sz =>
         rbind (py_float rt sz) (fun pos_qty =>
         rbind (py_getitem position_data "side") (fun sd =>
         let pos_dir := if is_str "B" sd then LONG else SHORT in
         rbind (py_getitem position_data "entry_price") (fun ep =>
         rbind (py_float rt ep) (fun pos_entry =>
         rbind (py_getitem position_data "unrealised_pnl") (fun up =>
         rbind (py_float rt up) (fun pnl =>
         inr (pos_qty, pos_dir, pos_entry, pnl))))))))
       else inr (0%float, NONE, 0%float, 0%float))
      (fun '(pos_qty, pos_dir, pos_entry, pnl) =>
    inr {| name := Base.name a;
           position := {| direction := pos_dir; quantity := pos_qty;
                          entryPrice := pos_entry |};
           pnl := pnl;
           balance := balance;
           currency := "USDT";
           leverage := leverage |}))))))).

  (** One iteration of the loop of lines 337-348. *)
Definition translate_order (a : LighterAPI) (o : pyval) : result Order :=
    rbind (py_getitem o "order_id") (fun oid =>
    rbind (py_getitem o "type") (fun ty =>
    rbind (py_getitem o "side") (fun sd =>
    rbind (py_getitem o "size") (fun q =>
    rbind (py_float rt q) (fun quantity =>
    rbind (py_getitem o "filled_size") (fun fq =>
    rbind (py_float rt fq) (fun filled =>
    rbind (py_getitem o "price") (fun pr =>
    rbind (py_float rt pr) (fun price =>
    rbind (py_getitem o "created_at") (fun ca =>
    rbind (py_int rt ca) (fun timestamp =>
    inr {| id := oid;
           exchangeId := Base.ex_id a;
           order_type := if is_str "L" ty then LMT else MKT;
           order_direction := if is_str "B" sd then LONG else SHORT;
           order_quantity := quantity;
           filledQuantity := filled;
           price := price;
           timestamp := timestamp |}))))))))))).

Fixpoint translate_orders (a : LighterAPI) (l : list pyval) : result (list Order) :=
    match l with
    | [] => inr []
    | o :: r =>
        rbind (translate_order a o) (fun py_order =>
        rbind (translate_orders a r) (fun rest => inr (py_order :: rest)))
    end.

  (** The [try] block of [_poll_data]. *)
Definition poll_body (a : LighterAPI) (c : Client) : M unit :=
    price_data <- get_market_price c (Base.market_name a) ;;
    price <- lift (rbind (py_getitem price_data "price") (py_float rt)) ;;
    emit (EmitPrice (Base.ex_id a) price) ;;;
    collateral_data <- get_account_collateral c "USDT" ;;
    position_data <- get_positions c (Base.market_name a) ;;
    state <- lift (translate_state a collateral_data position_data) ;;
    emit (EmitState (Base.ex_id a) state) ;;;
    orders_data <- get_orders c (Base.market_name a) "OPEN" ;;
    py_orders <- lift (rbind (py_iter orders_data) (translate_orders a)) ;;
    emit (EmitOrders (Base.ex_id a) py_orders).

Definition _poll_data (a : LighterAPI) : M LighterAPI :=
    match Base.client a with
    | Some c =>
        if Base.poll_timer_active a then
          r <- attempt (poll_body a c) ;;
          match r with
          | inr _ => ret a
          | inl e =>
              if is_RequestException (exn_class e) then
                log a (T "Network error during poll: " :: exn_msg e) ERROR ;;;
                stop_streaming a
              else
                log a (T "Data poll failed: " :: exn_msg e) ERROR ;;;
                ret a
          end
        else stop_streaming a
    | None => stop_streaming a
    end.

Definition start_streaming (a : LighterAPI) (symbol : SupportedSymbol) : M LighterAPI :=
    match Base.client a with
    | None =>
        log a [T "Cannot start streaming: Not connected."] ERROR ;;; ret a
    | Some _ =>
        let a := Base.set_symbol a symbol (symbol_value symbol ++ "-PERP") in
        log a [T "Real-data polling started for "; T (Base.market_name a); T "..."] INFO ;;;
        if Base.poll_timer_active a then ret a
        else a' <- _poll_data a ;; ret (Base.set_timer a' true)
    end.

  (** The shape shared by the order-side methods once the client is known:
      the request, the success log and the re-poll, under
      [try ... except Exception]. *)
Definition guarded (a : LighterAPI) (request : M pyval) (done failed : text) : M unit :=
    r <- attempt (
      request ;;;
      log a done SUCCESS ;;;
      emit (SingleShot 500)) ;;
    match r with
    | inr _ => ret tt
    | inl e => log a (failed ++ exn_msg e)%list ERROR
    end.

Definition set_leverage (a : LighterAPI) (symbol : SupportedSymbol) (leverage : Z)
    : M unit :=
    match Base.client a with
    | None => ret tt
    | Some c =>
        log a [T "Setting leverage to "; D leverage; T "x..."] INFO ;;;
        guarded a (update_collateral c "USDT" (str_of_int leverage))
          [T "Leverage set to "; D leverage; T "x."] [T "Set leverage failed: "]
    end.

  (** [price if price else 'MKT'] inside the log line. *)
Definition price_or_MKT (price : option float) : piece :=
    match price with
    | Some p => if (p =? 0)%float then T "MKT" else F p
    | None => T "MKT"
    end.

  (** [str(price) if price else None] *)
Definition price_arg (price : option float) : option string :=
    match price with
    | Some p => if (p =? 0)%float then None else Some (py_repr rt (PFloat p))
    | None => None
    end.

Definition create_order (a : LighterAPI) (symbol : SupportedSymbol)
      (order_type : OrderType) (direction : Direction) (quantity : float)
      (price : option float) : M unit :=
    match Base.client a with
    | None => ret tt
    | Some c =>
        let market := symbol_value symbol ++ "-PERP" in
        let side := if Direction_eqb direction LONG then "B" else "S" in
        let sdk_order_type := if OrderType_eqb order_type LMT then "L" else "M" in
        log a [T "Create "; T (order_type_value order_type); T " ";
               T (direction_value direction); T " "; F quantity; T " @ ";
               price_or_MKT price] INFO ;;;
        guarded a (post_order c market side sdk_order_type (py_repr rt (PFloat quantity))
                     (price_arg price))
          [T "Order submitted successfully."] [T "Order creation failed: "]
    end.

Definition cancel_order (a : LighterAPI) (symbol : SupportedSymbol) (order_id : string)
    : M unit :=
    match Base.client a with
    | None => ret tt
    | Some c =>
        log a [T "Cancelling order: "; T order_id] INFO ;;;
        guarded a (oid <- lift (py_int rt (PStr order_id)) ;;
                   delete_order c (symbol_value symbol ++ "-PERP") oid)
          [T "Order "; T order_id; T " cancelled."] [T "Cancel order failed: "]
    end.

Definition cancel_all_orders (a : LighterAPI) (symbol : SupportedSymbol) : M unit :=
    match Base.client a with
    | None => ret tt
    | Some c =>
        log a [T "Cancelling ALL orders for "; T (symbol_value symbol); T "..."] WARN ;;;
        guarded a (delete_orders c (symbol_value symbol ++ "-PERP"))
          [T "All orders cancelled."] [T "Cancel all orders failed: "]
    end.
End WithWorld.

End Lighter.

(** ** core/workers.py *)

Module Workers.

(** The part of a [BaseExchangeAPI] the worker touches: its identity and
    its name; [create_order] on it is an action of the trace. *)
Record ApiHandle := {
  api_ex_id : ExchangeId;
  api_name : string
}.

Record AutoBalanceWorker := {
  api_a : option ApiHandle;
  api_b : option ApiHandle;
  interval : float;
  is_running : bool;
  symbol : SupportedSymbol;
  _state_a : option ExchangeState;
  _state_b : option ExchangeState
}.

Inductive action :=
| Log (msg : text) (lvl : LogLevel)                (* log_message.emit *)
| CreateOrder (api : ApiHandle) (sym : SupportedSymbol) (ty : OrderType)
    (dir : Direction) (qty : float) (px : option float)   (* api.create_order(...) *)
| Sleep (secs : float)                             (* QThread.sleep *)
| MSleep (ms : Z).                                 (* QThread.msleep *)

(** Lines 71-75 and 77-81: the signed quantity of one side. *)
Definition signed_qty (p : Position) : float :=
  match direction p with
  | LONG => quantity p
  | SHORT => (- quantity p)%float
  | NONE => 0%float
  end.

(** Line 85. *)
Definition discrepancy (sa sb : ExchangeState) : float :=
  (signed_qty (position sa) + signed_qty (position sb))%float.

(** The tolerance of line 89. *)
Definition epsilon : float := 0.000001%float.

(** [check_balance].  [order_raises] is what the call of
    [self.api_b.create_order] does: [None] when it returns, [Some e] when it
    raises [e].  The result is the trace and the exception that escapes, if
    any (only the attribute access on a missing [api_b] can). *)
Definition check_balance (w : AutoBalanceWorker) (order_raises : option exn)
  : list action * option exn :=
  match _state_a w, _state_b w with
  | Some sa, Some sb =>
      let signed_qty_a := signed_qty (position sa) in
      let signed_qty_b := signed_qty (position sb) in
      let discrepancy := (signed_qty_a + signed_qty_b)%float in
      if (epsilon <? abs discrepancy)%float then
        let correction_qty := abs discrepancy in
        let correction_dir := if (0 <? discrepancy)%float then SHORT else LONG in
        match api_b w with
        | None =>
            ([], Some {| exn_class := AttributeError;
                         exn_msg := [T "'NoneType' object has no attribute 'name'"] |})
        | Some b =>
            let detected :=
              Log [T "[AutoBalance] Discrepancy detected (A: "; F5 signed_qty_a;
                   T ", B: "; F5 signed_qty_b; T "). "; T "Balancing on ";
                   T (api_name b); T "..."] WARN in
            let order := CreateOrder b (symbol w) MKT correction_dir correction_qty None in
            match order_raises with
            | None =>
                ([detected; order;
                  Log [T "["; T (api_name b); T "] Auto-balance MKT order submitted: ";
                       T (direction_value correction_dir); T " "; F5 correction_qty] SUCCESS;
                  Sleep 3], None)
            | Some e =>
                ([detected; order;
                  Log (T "[" :: T (api_name b) :: T "] Auto-balance order failed: "
                         :: exn_msg e) ERROR], None)
            end
        end
      else ([], None)
  | _, _ => ([], None)
  end.

(** The corrective orders of a trace. *)
Definition is_order (a : action) : bool :=
  match a with CreateOrder _ _ _ _ _ _ => true | _ => false end.

Definition orders_issued (tr : list action) : list action := filter is_order tr.

(** [update_states] *)
Definition update_states (w : AutoBalanceWorker) (state_a state_b : option ExchangeState)
  : AutoBalanceWorker :=
  {| api_a := api_a w; api_b := api_b w; interval := interval w;
     is_running := is_running w; symbol := symbol w;
     _state_a := state_a; _state_b := state_b |}.

(** [stop]: the log and the flag. *)
Definition stop (w : AutoBalanceWorker) : list action * AutoBalanceWorker :=
  ([Log [T "[AutoBalance] Worker stopping..."] INFO],
   {| api_a := api_a w; api_b := api_b w; interval := interval w;
      is_running := false; symbol := symbol w;
      _state_a := _state_a w; _state_b := _state_b w |}).

(** *** The loop of [run]

    The thread is at one of two tests of [self.is_running]: the head of the
    outer [while] or the head of the inner sleeping loop with its
    [slept_time].  A step runs from one test to the next one; the worker
    record it is given is the one the thread reads at that test (other
    threads call [stop], [set_config] and [update_states] in between). *)
Inductive pc :=
| Head
| Napping (slept_time : float)
| Finished.

Definition wait_step (w : AutoBalanceWorker) (what : string) : list action * pc :=
  ([Log [T "[AutoBalance] Waiting for A and B "; T what; T "..."] WARN;
    Sleep (interval w)], Head).

Definition step (w : AutoBalanceWorker) (order_raises : option exn) (c : pc)
  : list action * pc :=
  match c with
  | Head =>
      if is_running w then
        match api_a w, api_b w with
        | Some _, Some _ =>
            match _state_a w, _state_b w with
            | Some _, Some _ =>
                let (tr, escaped) := check_balance w order_raises in
                (match escaped with
                 | Some e => (tr ++ [Log (T "[AutoBalance] Error: " :: exn_msg e) ERROR])%list
                 | None => tr
                 end, Napping 0)
            | _, _ => wait_step w "state data"
            end
        | _, _ => wait_step w "APIs"
        end
      else ([], Finished)
  | Napping slept_time =>
      if (slept_time <? interval w)%float && is_running w
      then ([MSleep 100], Napping (slept_time + 0.1)%float)
      else ([], Head)
  | Finished => ([], Finished)
  end.

Definition is_sleep (a : action) : bool :=
  match a with Sleep _ | MSleep _ => true | _ => false end.

(** The blocking calls of a trace. *)
Definition sleeps (tr : list action) : list action := filter is_sleep tr.

(** How long an action keeps the thread from its next test of the flag, in
    milliseconds. *)
Definition blocks_ms (a : action) : float :=
  match a with
  | Sleep secs => (secs * 1000)%float
  | MSleep ms => float_of_Z ms
  | _ => 0%float
  end.

Definition blocked_ms (tr : list action) : float :=
  fold_right (fun a t => (blocks_ms a + t)%float) 0%float tr.

End Workers.

(** ** main.py: the state store *)

Module Main.

(** The tables of [MainWindow] the adapters' signals write.  A dict keyed
    by [ExchangeId] is a function to [option]. *)
Record MainWindow := {
  exchange_states : ExchangeId -> option ExchangeState;
  open_orders : list Order;
  prices : ExchangeId -> option float;
  selected_A : option ExchangeId;
  selected_B : option ExchangeId
}.

Definition update {A} (f : ExchangeId -> option A) (k : ExchangeId) (v : A)
  : ExchangeId -> option A :=
  fun k' => if ExchangeId_eqb k' k then Some v else f k'.

(** [on_state_update]: the new store and the pair sent to the worker
    through [signal_state_updated_for_worker]. *)
Definition on_state_update (m : MainWindow) (ex_id : ExchangeId) (state : ExchangeState)
  : MainWindow * (option ExchangeState * option ExchangeState) :=
  let states := update (exchange_states m) ex_id state in
  let state_a := match selected_A m with Some a => states a | None => None end in
  let state_b := match selected_B m with Some b => states b | None => None end in
  ({| exchange_states := states; open_orders := open_orders m; prices := prices m;
      selected_A := selected_A m; selected_B := selected_B m |},
   (state_a, state_b)).

(** [on_orders_update] *)
Definition on_orders_update (m : MainWindow) (ex_id : ExchangeId) (orders : list Order)
  : MainWindow :=
  let other_orders :=
    filter (fun o => negb (ExchangeId_eqb (exchangeId o) ex_id)) (open_orders m) in
  {| exchange_states := exchange_states m;
     open_orders := (other_orders ++ orders)%list;
     prices := prices m;
     selected_A := selected_A m; selected_B := selected_B m |}.

(** [on_price_update] *)
Definition on_price_update (m : MainWindow) (ex_id : ExchangeId) (price : float)
  : MainWindow :=
  {| exchange_states := exchange_states m; open_orders := open_orders m;
     prices := update (prices m) ex_id price;
     selected_A := selected_A m; selected_B := selected_B m |}.

(** The three checks of [on_save_api_creds] that precede
    [handle_api_auth], and with it [connect]: [true] when the form is
    accepted. *)
Definition save_accepts (ex_id : ExchangeId) (creds : ApiCredentials) : bool :=
  if String.eqb (apiKey creds) EmptyString || String.eqb (apiSecret creds) EmptyString
  then false
  else if ExchangeId_eqb ex_id PACIFICA
          && match accountAddress creds with
             | None => true
             | Some s => String.eqb s EmptyString
             end
  then false
  else if ExchangeId_eqb ex_id LIGHTER
          && (match accountId creds with None => true | Some _ => false end
              || match l1Address creds with
                 | None => true
                 | Some s => String.eqb s EmptyString
                 end)
  then false
  else true.

(** The orders of the store that belong to one exchange. *)
Definition orders_of (ex_id : ExchangeId) (l : list Order) : list Order :=
  filter (fun o => ExchangeId_eqb (exchangeId o) ex_id) l.

End Main.

(** ** Inputs for running the model

    A runtime whose float texts and digests are placeholders, and a few
    worlds.  They serve to evaluate the definitions on concrete inputs; no
    statement below depends on what the placeholders return. *)

Definition sample_runtime : Runtime :=
  {| py_repr := fun _ => "<repr>";
     format_5f := fun _ => "<.5f>";
     float_of_str := fun _ => None;
     int_of_str := fun _ => None;
     hmac_sha256_hexdigest := fun _ _ => "<hmac>";
     b58decode := fun s => inr s;
     ed25519_sign := fun _ _ => inr "<signature>";
     b58encode := fun s => s |}.

Definition sample_clock (n : nat) : Z := 1700000000000 + Z.of_nat n.

(** No connectivity: every call of [requests] raises. *)
Definition offline : World :=
  {| clock := sample_clock; net := fun _ => Unreachable "Connection refused" |}.

(** Every request is answered 200 with the same JSON document. *)
Definition answering (v : pyval) : World :=
  {| clock := sample_clock;
     net := fun _ => Responded {| status_error := None; body := inr v |} |}.

Definition sample_pacifica_creds : ApiCredentials :=
  {| apiKey := "pk-live-1"; apiSecret := "3xQ9"; accountAddress := Some "7Ywallet";
     accountId := None; l1Address := None |}.

Definition sample_lighter_creds : ApiCredentials :=
  {| apiKey := "lk-live-1"; apiSecret := "s3cret"; accountAddress := None;
     accountId := Some 7%Z; l1Address := Some "0xabc" |}.

(** A Pacifica account with a flat position that the exchange still lists:
    size 0 on the LONG side. *)
Definition sample_collateral : pyval :=
  PDict [("data", PDict [("balance", PInt 100); ("leverage", PInt 5)])].

Definition flat_position : pyval :=
  PDict [("data", PList [PDict [("positionSize", PInt 0); ("side", PStr "LONG");
                                ("entryPrice", PInt 0); ("unrealisedPnl", PInt 0)]])].

(** An exchange that answers every Pacifica request of a poll for that
    account: a mark price, the collateral, the flat position, no open
    order. *)
Definition flat_account : World :=
  {| clock := sample_clock;
     net := fun rq =>
       Responded
         {| status_error := None;
            body := inr (if has_substring "/summary" (req_url rq)
                         then PDict [("data", PDict [("markPrice", PInt 50000)])]
                         else if has_substring "/collateral" (req_url rq)
                         then sample_collateral
                         else if has_substring "/positions" (req_url rq)
                         then flat_position
                         else PDict [("data", PList [])]) |} |}.

(** The position invariant of the specification: the direction is NONE
    exactly when the quantity equals zero (Python's [==] on floats). *)
Definition position_invariant (p : Position) : Prop :=
  direction p = NONE <-> (quantity p =? 0)%float = true.

(** Two workers on a tick: one that has received no account state yet, and
    one whose two sides are both LONG 1.0 (scenario 1 of the
    specification). *)
Definition sample_api_a : Workers.ApiHandle :=
  {| Workers.api_ex_id := PACIFICA; Workers.api_name := "Pacifica" |}.

Definition sample_api_b : Workers.ApiHandle :=
  {| Workers.api_ex_id := LIGHTER; Workers.api_name := "Lighter" |}.

Definition long_one (n : string) : ExchangeState :=
  {| name := n;
     position := {| direction := LONG; quantity := 1; entryPrice := 50000 |};
     pnl := 0; balance := 100; currency := "USDC"; leverage := 5 |}.

Definition waiting_worker : Workers.AutoBalanceWorker :=
  {| Workers.api_a := Some sample_api_a; Workers.api_b := Some sample_api_b;
     Workers.interval := 3; Workers.is_running := true; Workers.symbol := BTC;
     Workers._state_a := None; Workers._state_b := None |}.

Definition drifting_worker : Workers.AutoBalanceWorker :=
  Workers.update_states waiting_worker (Some (long_one "Pacifica")) (Some (long_one "Lighter")).

(** The body of the cancel-all request of the Lighter client. *)
Definition cancel_all_body : list (string * pyval) :=
  [("account_id", PStr "7"); ("market", PStr "BTC-PERP")].

(** The message of the shared-secret scheme as the specification words it:
    timestamp, upper-case method, path and the compact JSON body, the body
    part empty when there is no body. *)
Definition spec_scheme_A_message (rt : Runtime) (timestamp method path : string)
    (data : option (list (string * pyval))) : string :=
  timestamp ++ upper method ++ path
    ++ match data with
       | Some d => if nonempty d then json_dumps_compact rt (PDict d) else EmptyString
       | None => EmptyString
       end.

(** The headers the shared-secret scheme yields for a request issued at
    clock reading [n]: the content type, the key, the timestamp, and the
    digest of timestamp + METHOD + path + body with the body rendered by
    [json.dumps] under its default separators. *)
Definition headers_at (rt : Runtime) (W : World) (c : Lighter.Client) (n : nat)
    (method endpoint : string) (data : option (list (string * pyval)))
  : list (string * string) :=
  let timestamp := str_of_int (clock W n) in
  let body :=
    match data with
    | Some d => if nonempty d then json_dumps rt (PDict d) else EmptyString
    | None => EmptyString
    end in
  [("Content-Type", "application/json");
   ("X-Api-Key", Lighter.api_key c);
   ("X-Timestamp", timestamp);
   ("X-Signature",
    hmac_sha256_hexdigest rt (Lighter.api_secret c)
      (timestamp ++ upper method ++ endpoint ++ body))].

(** What the adapter relies on from its signer: it emits nothing and raises
    nothing but [ValueError]. *)
Definition sound_signer (sign : signer) : Prop :=
  forall pk r m p s,
    trace (snd (sign pk r m p s)) = trace s /\
    (forall e, fst (sign pk r m p s) = inl e -> exn_class e = ValueError).

(** A signer that signs: it reads the clock and returns a signature. *)
Definition working_signer (W : World) : signer :=
  fun _ _ _ _ => now <- read_clock W ;; ret ("<signature>", str_of_int now).

Definition sample_pacifica_client : Pacifica.Client :=
  {| Pacifica.api_key := "pk-live-1"; Pacifica.private_key := "3xQ9";
     Pacifica.account_address := Some "7Ywallet"; Pacifica.base_url := Pacifica.MAINNET |}.

(** A Pacifica adapter with a client and a running poll timer. *)
Definition streaming_pacifica : Pacifica.PacificaAPI :=
  {| Base.client := Some sample_pacifica_client; Base.ex_id := PACIFICA;
     Base.name := "Pacifica"; Base.poll_timer_active := true; Base.symbol := BTC;
     Base.market_name := "BTC-PERP" |}.

Definition sample_lighter_client : Lighter.Client :=
  {| Lighter.api_key := "lk-live-1"; Lighter.api_secret := "s3cret";
     Lighter.account_id := "7"; Lighter.l1_address := Some "0xabc";
     Lighter.base_url := Lighter.BASE_URL |}.

(** A Lighter adapter with a client and a running poll timer. *)
Definition streaming_lighter : Lighter.LighterAPI :=
  {| Base.client := Some sample_lighter_client; Base.ex_id := LIGHTER;
     Base.name := "Lighter"; Base.poll_timer_active := true; Base.symbol := BTC;
     Base.market_name := "BTC-PERP" |}.

(** An exception the poll handlers treat as a network error or not. *)
Definition benign {A} (r : result A) : Prop :=
  match r with
  | inl e => is_RequestException (exn_class e) = false
  | inr _ => True
  end.

(** A computation that never raises a [RequestException]. *)
Definition harmless {A} (m : M A) : Prop := forall s, benign (fst (m s)).

(** Credentials with another wallet address. *)
Definition with_address (creds : ApiCredentials) (addr : option string) : ApiCredentials :=
  {| apiKey := apiKey creds; apiSecret := apiSecret creds; accountAddress := addr;
     accountId := accountId creds; l1Address := l1Address creds |}.

(** What [connect] returned: [Some true], [Some false], or [None] when it
    raised. *)
Definition verdict {A} (r : result (A * bool)) : option bool :=
  match r with
  | inr (_, b) => Some b
  | inl _ => None
  end.

(** The answer of the server-time endpoint. *)
Definition server_time_reply : pyval := PDict [("serverTime", PInt 1700000000123)].

(** A world where the exchange is reachable and answers the server-time
    request. *)
Definition reachable : World := answering server_time_reply.

Definition sample_order (i : Z) (ex : ExchangeId) : Order :=
  {| id := PInt i; exchangeId := ex; order_type := LMT; order_direction := LONG;
     order_quantity := 1; filledQuantity := 0; price := 50000;
     timestamp := 1700000000000 |}.

(** A store holding two Pacifica orders around one Lighter order. *)
Definition sample_store : Main.MainWindow :=
  {| Main.exchange_states := fun _ => None;
     Main.open_orders := [sample_order 1 PACIFICA; sample_order 2 LIGHTER;
                          sample_order 3 PACIFICA];
     Main.prices := fun _ => None;
     Main.selected_A := Some PACIFICA;
     Main.selected_B := Some LIGHTER |}.

(** *** What a poll leaves in its trace

    A request went well when it was answered with a success status and a
    JSON body; an emitted account state is sound when its position keeps
    the invariant; an emitted order list is sound when every order carries
    the exchange identity of the signal. *)
Definition went_well (W : World) (rq : request) : Prop :=
  exists v, net W rq = Responded {| status_error := None; body := inr v |}.

Definition sound_signal (e : event) : Prop :=
  match e with
  | EmitState _ st => position_invariant (position st)
  | EmitOrders ex l => Forall (fun o => exchangeId o = ex) l
  | _ => True
  end.

Definition fine (W : World) (e : event) : Prop :=
  match e with
  | Http rq => went_well W rq
  | _ => sound_signal e
  end.

(** The trace at the point where an exception [e] surfaces: either every
    request so far went well and [e] is not a [RequestException] (a payload
    could not be read), or the last event is the request that failed, and
    [e] is a [RequestException] exactly when that request found no
    connectivity. *)
Definition failure_shape (W : World) (e : exn) (tr : list event) : Prop :=
  (Forall (fine W) tr /\ is_RequestException (exn_class e) = false)
  \/ exists tr0 rq,
       tr = (tr0 ++ [Http rq])%list /\ Forall (fine W) tr0
       /\ ((exists detail, net W rq = Unreachable detail)
             /\ is_RequestException (exn_class e) = true
           \/ (exists r, net W rq = Responded r)
                /\ is_RequestException (exn_class e) = false).

(** A computation that, run on a fine trace, either returns a value in [R]
    leaving a fine trace, or raises with the trace in [failure_shape]. *)
Definition fetches {A} (W : World) (R : A -> Prop) (m : M A) : Prop :=
  forall s, Forall (fine W) (trace s) ->
    match fst (m s) with
    | inr a => Forall (fine W) (trace (snd (m s))) /\ R a
    | inl e => failure_shape W e (trace (snd (m s)))
    end.

Definition anything {A} (_ : A) : Prop := True.

(** The first request of a Lighter poll: the public market summary. *)
Definition price_request (c : Lighter.Client) (market_name : string) : request :=
  {| req_method := "GET";
     req_url := Lighter.base_url c ++ "/api/v2/market/summary?market=" ++ market_name;
     req_headers := []; req_params := None; req_json := None |}.

(** The two ways a Lighter poll that ran can end.  It kept streaming: the
    adapter is unchanged, and the trace is a fine prefix followed by
    nothing (the poll went through), by an error log (a payload could not
    be read), or by a request that was answered but failed and its error
    log.  It stopped streaming: the timer is off, and the trace is a fine
    prefix followed by the request that found no connectivity, the error
    log and the stop log. *)
Definition kept_streaming (W : World) (a : Lighter.LighterAPI)
    (out : result Lighter.LighterAPI * list event) : Prop :=
  fst out = inr a
  /\ exists tr0 tail,
       snd out = (tr0 ++ tail)%list
       /\ Forall (fine W) tr0
       /\ (tail = []
           \/ (exists msg, tail = [EmitLog msg ERROR])
           \/ (exists rq r msg,
                 tail = [Http rq; EmitLog msg ERROR] /\ net W rq = Responded r)).

Definition stopped_streaming (W : World) (a : Lighter.LighterAPI)
    (out : result Lighter.LighterAPI * list event) : Prop :=
  fst out = inr (Base.set_timer a false)
  /\ exists tr0 rq detail msg,
       snd out
       = (tr0 ++ [Http rq; EmitLog msg ERROR;
                  EmitLog (Base.tag a ++ [T "Real-data polling stopped."])%list INFO])%list
       /\ Forall (fine W) tr0
       /\ net W rq = Unreachable detail.

(** ** More inputs *)

(** The worker of scenario 1 after [stop]. *)
Definition stopped_worker : Workers.AutoBalanceWorker := snd (Workers.stop drifting_worker).

(** A Lighter adapter that is connected and not streaming yet. *)
Definition idle_lighter : Lighter.LighterAPI := Base.set_timer streaming_lighter false.

(** A Pacifica adapter that is connected and not streaming yet. *)
Definition idle_pacifica : Pacifica.PacificaAPI := Base.set_timer streaming_pacifica false.

Definition is_dict (v : pyval) : bool :=
  match v with PDict _ => true | _ => false end.

(** An entry of the orders endpoint whose "status" is the string OPEN. *)
Definition has_open_status (o : pyval) : bool :=
  match o with
  | PDict d =>
      match dict_get d "status" with
      | Some v => is_str "OPEN" v
      | None => false
      end
  | _ => false
  end.

(** An exchange that answers every request with the same list of three
    orders, one of them filled. *)
Definition three_orders : pyval :=
  PList [PDict [("order_id", PInt 11); ("status", PStr "OPEN")];
         PDict [("order_id", PInt 12); ("status", PStr "FILLED")];
         PDict [("order_id", PInt 13); ("status", PStr "OPEN")]].

(** An entry of the JSON body of a request. *)
Definition json_field (rq : request) (k : string) : option pyval :=
  match req_json rq with
  | Some (PDict d) => dict_get d k
  | _ => None
  end.

(** The trace of an order-side call of the Lighter adapter that sent the
    request [rq]: an opening log, the request, and then either the success
    log [done] with the poll scheduled 500 ms later, when the request went
    well, or a single error log and no scheduled poll. *)
Definition order_call_trace (W : World) (a : Lighter.LighterAPI) (done : text)
    (rq : request) (tr : list event) : Prop :=
  exists opening lvl,
    (went_well W rq
     /\ tr = [EmitLog opening lvl; Http rq;
              EmitLog (Base.tag a ++ done)%list SUCCESS; SingleShot 500])
    \/ (~ went_well W rq
        /\ exists msg, tr = [EmitLog opening lvl; Http rq; EmitLog msg ERROR]).


(** The state of an account that holds nothing. *)
Definition flat_state (n cur : string) (bal : float) (lev : Z) : ExchangeState :=
  {| name := n;
     position := {| direction := NONE; quantity := 0; entryPrice := 0 |};
     pnl := 0; balance := bal; currency := cur; leverage := lev |}.

(** A Lighter collateral payload, and a position payload of size 0.5 on
    the sell side. *)
Definition lighter_collateral : pyval :=
  PDict [("balance", PFloat 250); ("leverage", PFloat 3)].

Definition short_half : pyval :=
  PDict [("size", PFloat 0.5); ("side", PStr "S"); ("entry_price", PFloat 64000);
         ("unrealised_pnl", PFloat (-12))].

Definition short_half_state : ExchangeState :=
  {| name := "Lighter";
     position := {| direction := SHORT; quantity := 0.5; entryPrice := 64000 |};
     pnl := (-12)%float; balance := 250; currency := "USDT"; leverage := 3 |}.

(** The clients [connect] builds out of the credentials. *)
Definition lighter_client_of (rt : Runtime) (creds : ApiCredentials) : Lighter.Client :=
  {| Lighter.api_key := apiKey creds; Lighter.api_secret := apiSecret creds;
     Lighter.account_id := py_str rt (match accountId creds with
                                      | Some z => PInt z | None => PNone end);
     Lighter.l1_address := l1Address creds; Lighter.base_url := Lighter.BASE_URL |}.

Definition pacifica_client_of (creds : ApiCredentials) : Pacifica.Client :=
  {| Pacifica.api_key := apiKey creds; Pacifica.private_key := apiSecret creds;
     Pacifica.account_address := accountAddress creds;
     Pacifica.base_url := Pacifica.MAINNET |}.

(** What [Client._request] of the Pacifica client does for the arguments
    [method], [request_str] and [params], as the pair of its value and of
    the events it adds: either it sends nothing and returns an "error"
    dict, or it sends one request of that method to that path, with
    [params] as the JSON body of a POST and as the query otherwise, and
    returns the decoded answer. *)
Definition request_outcome (W : World) (c : Pacifica.Client)
    (method request_str : string) (params : list (string * pyval))
    (v : pyval) (added : list event) : Prop :=
  (added = [] /\ py_contains "error" v = inr true)
  \/ exists rq,
       added = [Http rq]
       /\ v = Pacifica.decode (net W rq)
       /\ req_method rq = method
       /\ req_url rq = Pacifica.base_url c ++ request_str
       /\ (if String.eqb method "POST"
           then req_json rq = Some (PDict params) /\ req_params rq = None
           else req_params rq = Some (PDict params) /\ req_json rq = None).

(** The trace of an order-side call of the Pacifica adapter: an opening
    log; then either an error log alone, when no request was sent, or one
    request followed by the success log [done] and the poll scheduled
    500 ms later, when the decoded answer holds no "error", and by a single
    error log when it does. *)
Definition pacifica_call_trace (W : World) (a : Pacifica.PacificaAPI) (done : text)
    (c : Pacifica.Client) (method request_str : string) (params : list (string * pyval))
    (tr : list event) : Prop :=
  exists opening lvl,
    (exists msg, tr = [EmitLog opening lvl; EmitLog msg ERROR])
    \/ exists rq v,
         request_outcome W c method request_str params v [Http rq]
         /\ ((py_contains "error" v = inr false
              /\ tr = [EmitLog opening lvl; Http rq;
                       EmitLog (Base.tag a ++ done)%list SUCCESS; SingleShot 500])
             \/ (py_contains "error" v <> inr false
                 /\ exists msg, tr = [EmitLog opening lvl; Http rq; EmitLog msg ERROR])).

(** ** The data signals of a trace *)

Inductive signal_kind := PriceSignal | StateSignal | OrdersSignal.

Definition signal_of (e : event) : list (signal_kind * ExchangeId) :=
  match e with
  | EmitPrice ex _ => [(PriceSignal, ex)]
  | EmitState ex _ => [(StateSignal, ex)]
  | EmitOrders ex _ => [(OrdersSignal, ex)]
  | _ => []
  end.

(** Which data signals a trace holds, for which exchange, oldest first. *)
Definition signals (tr : list event) : list (signal_kind * ExchangeId) :=
  flat_map signal_of tr.

(** The signals of a poll that goes through. *)
Definition whole_poll (ex : ExchangeId) : list (signal_kind * ExchangeId) :=
  [(PriceSignal, ex); (StateSignal, ex); (OrdersSignal, ex)].

Definition is_error_log (e : event) : bool :=
  match e with EmitLog _ ERROR => true | _ => false end.

(** A computation that emits the data signals [ks], in that order, as far
    as it gets: all of them when it returns, a prefix when it raises. *)
Definition adds {A} (m : M A) (ks : list (signal_kind * ExchangeId)) : Prop :=
  forall s, exists done rest,
    ks = (done ++ rest)%list
    /\ signals (trace (snd (m s))) = (signals (trace s) ++ done)%list
    /\ (forall x, fst (m s) = inr x -> rest = []).

(** An exchange that answers every Lighter request of a poll: a mark
    price, an account with no position, no order. *)
Definition quiet_lighter_account : World :=
  {| clock := sample_clock;
     net := fun rq =>
       Responded
         {| status_error := None;
            body := inr (if has_substring "/market/summary" (req_url rq)
                         then PDict [("mark_price", PFloat 50000)]
                         else if has_substring "/collateral" (req_url rq)
                         then lighter_collateral
                         else if has_substring "/positions" (req_url rq)
                         then PDict []
                         else PList []) |} |}.

(** ** main.py: the order handlers *)

Module Handlers.

(** What a handler of the main window does besides reading the store: it
    writes a line to the log of the window, or it calls a method of the
    adapter kept for an exchange.  The log lines of the window are Korean
    f-strings; a line is named here by the line of main.py that writes it
    and carries its level. *)
Inductive act :=
| AddLog (line : nat) (lvl : LogLevel)               (* self.add_log(..., lvl) *)
| CreateOrder (ex : ExchangeId) (sym : SupportedSymbol) (ty : OrderType)
    (dir : Direction) (qty : float) (px : option float)   (* client.create_order(...) *)
| CancelAllOrders (ex : ExchangeId) (sym : SupportedSymbol).  (* client.cancel_all_orders(...) *)

Definition is_create (a : act) : bool :=
  match a with CreateOrder _ _ _ _ _ _ => true | _ => false end.

Definition is_cancel_all (ex : ExchangeId) (a : act) : bool :=
  match a with CancelAllOrders ex' _ => ExchangeId_eqb ex' ex | _ => false end.

(** What the widgets of the individual order panel of an exchange hold. *)
Record IndividualForm := {
  is_mkt : bool;          (* btn_ind_<ex>_mkt.isChecked() *)
  is_long : bool;         (* btn_ind_<ex>_long.isChecked() *)
  ind_quantity : float;   (* spin_ind_<ex>_qty.value() *)
  ind_offset : float      (* spin_ind_<ex>_offset.value() *)
}.

(** What the widgets of the strategy panel hold. *)
Record StrategyForm := {
  strategy_qty : float;       (* input_strategy_qty.input.value() *)
  strategy_offset : float;    (* spin_strategy_offset.value() *)
  A_Long_checked : bool;      (* btn_strategy_A_Long.isChecked() *)
  A_Short_checked : bool      (* btn_strategy_A_Short.isChecked() *)
}.

(** The [except Exception] that follows a call of an adapter. *)
Definition caught (line : nat) (raises : option exn) : list act :=
  match raises with
  | Some _ => [AddLog line ERROR]
  | None => []
  end.

Section Window.
(** The store, the exchanges that have an adapter in [self.api_clients],
    and [self.order_symbol]. *)
Variable m : Main.MainWindow.
Variable api_clients : ExchangeId -> bool.
Variable order_symbol : SupportedSymbol.

(** [on_execute_strategy_order] *)
Definition on_execute_strategy_order (f : StrategyForm) (raises : option exn) : list act :=
  match Main.selected_A m, Main.selected_B m with
  | Some sa, Some _ =>
      match api_clients sa, Main.prices m sa with
      | true, Some price_a =>
          let quantity := strategy_qty f in
          let offset := strategy_offset f in
          if (quantity <=? 0)%float then [AddLog 1296 WARN]
          else
            match (if A_Long_checked f then Some LONG
                   else if A_Short_checked f then Some SHORT else None) with
            | None => [AddLog 1305 WARN]
            | Some direction_a =>
                let signed_offset :=
                  if Direction_eqb direction_a LONG then (- offset)%float else offset in
                let price := (price_a + signed_offset)%float in
                (AddLog 1314 INFO
                   :: CreateOrder sa order_symbol LMT direction_a quantity (Some price)
                   :: caught 1326 raises)
            end
      | _, _ => [AddLog 1288 ERROR]
      end
  | _, _ => [AddLog 1281 WARN]
  end.

(** [_execute_individual_order], for the widgets [form] of each panel. *)
Definition _execute_individual_order (form : ExchangeId -> IndividualForm)
    (ex_id : option ExchangeId) (raises : option exn) : list act :=
  match ex_id with
  | None => [AddLog 1355 WARN]
  | Some ex =>
      let current_price := Main.prices m ex in
      if negb (api_clients ex) then [AddLog 1363 ERROR]
      else
        let quantity := ind_quantity (form ex) in
        let offset := ind_offset (form ex) in
        let order_type := if is_mkt (form ex) then MKT else LMT in
        let direction := if is_long (form ex) then LONG else SHORT in
        if (quantity <=? 0)%float then [AddLog 1377 WARN]
        else
          let submit (price : option float) :=
            AddLog 1392 INFO
              :: CreateOrder ex order_symbol order_type direction quantity price
              :: caught 1404 raises in
          if OrderType_eqb order_type LMT then
            match current_price with
            | None => [AddLog 1384 ERROR]
            | Some cp =>
                let signed_offset :=
                  if Direction_eqb direction LONG then (- offset)%float else offset in
                submit (Some (cp + signed_offset)%float)
            end
          else submit None
  end.

(** The loop of [on_cancel_all_orders] over the exchanges in [ids]: the
    calls made, and the exception that ends the loop, if any. *)
Fixpoint cancel_each (ids : list ExchangeId) (raises : ExchangeId -> option exn)
  : list act * option exn :=
  match ids with
  | [] => ([], None)
  | ex :: rest =>
      if api_clients ex then
        match raises ex with
        | Some e => ([CancelAllOrders ex order_symbol], Some e)
        | None =>
            let (acts, e) := cancel_each rest raises in
            (CancelAllOrders ex order_symbol :: acts, e)
        end
      else cancel_each rest raises
  end.

(** [on_cancel_all_orders].  [clients_to_cancel] is the set of the
    exchanges of the stored orders as the loop runs over it; Python fixes no
    order for a set. *)
Definition on_cancel_all_orders (clients_to_cancel : list ExchangeId)
    (raises : ExchangeId -> option exn) : list act :=
  match clients_to_cancel with
  | [] => [AddLog 1479 INFO]
  | _ =>
      AddLog 1482 WARN ::
      let (acts, e) := cancel_each clients_to_cancel raises in
      (acts ++ [match e with
                | None => AddLog 1488 SUCCESS
                | Some _ => AddLog 1491 ERROR
                end])%list
  end.
End Window.

(** [set(o.exchangeId for o in self.open_orders)] run over in the order
    [ids]: every exchange of a stored order, once. *)
Definition enumerates (ids : list ExchangeId) (open_orders : list Order) : Prop :=
  NoDup ids
  /\ forall ex, In ex ids <-> exists o, In o open_orders /\ exchangeId o = ex.

End Handlers.

(** A store with a price for Lighter only, and both strategy slots set. *)
Definition priced_store : Main.MainWindow :=
  {| Main.exchange_states := fun ex =>
       match ex with LIGHTER => Some short_half_state | PACIFICA => None end;
     Main.open_orders := [sample_order 1 PACIFICA; sample_order 2 LIGHTER;
                          sample_order 3 PACIFICA];
     Main.prices := fun ex => match ex with LIGHTER => Some 64000%float | PACIFICA => None end;
     Main.selected_A := Some LIGHTER;
     Main.selected_B := Some PACIFICA |}.

Definition limit_long (q : float) : Handlers.IndividualForm :=
  {| Handlers.is_mkt := false; Handlers.is_long := true;
     Handlers.ind_quantity := q; Handlers.ind_offset := 0.5 |}.

Definition strategy_short (q : float) : Handlers.StrategyForm :=
  {| Handlers.strategy_qty := q; Handlers.strategy_offset := 0.5;
     Handlers.A_Long_checked := false; Handlers.A_Short_checked := true |}.

Definition all_connected (ex : ExchangeId) : bool := true.

(** ** From the signals to the store *)

(** The slots of the main window that [handle_api_auth] connects the data
    signals of an adapter to; a log line, a request and a scheduled poll
    leave the store alone. *)
Definition deliver (m : Main.MainWindow) (e : event) : Main.MainWindow :=
  match e with
  | EmitPrice ex p => Main.on_price_update m ex p
  | EmitState ex st => fst (Main.on_state_update m ex st)
  | EmitOrders ex l => Main.on_orders_update m ex l
  | _ => m
  end.

(** The store after the signals of a trace, delivered in their order. *)
Definition deliver_all (m : Main.MainWindow) (tr : list event) : Main.MainWindow :=
  fold_left deliver tr m.

(** An event that concerns the exchange [ex] alone. *)
Definition own (ex : ExchangeId) (e : event) : Prop :=
  match e with
  | EmitPrice ex' _ => ex' = ex
  | EmitState ex' _ => ex' = ex
  | EmitOrders ex' l => ex' = ex /\ Forall (fun o => exchangeId o = ex) l
  | _ => True
  end.

(** A computation whose events concern the exchange [ex] alone. *)
Definition keeps {A} (ex : ExchangeId) (m : M A) : Prop :=
  forall s, Forall (own ex) (trace s) -> Forall (own ex) (trace (snd (m s))).

(** The order [sorted] puts the items of a dict in: by key. *)
Definition key_le (x y : string * pyval) : Prop := String.leb (fst x) (fst y) = true.

(** The parameters of a positions query, in two insertion orders. *)
Definition positions_query : list (string * pyval) :=
  [("market_name", PStr "BTC-PERP"); ("account_address", PStr "7Ywallet")].

Definition positions_query' : list (string * pyval) :=
  [("account_address", PStr "7Ywallet"); ("market_name", PStr "BTC-PERP")].

(** ** main.py: a change of the trading symbol *)

Definition SupportedSymbol_eqb (a b : SupportedSymbol) : bool :=
  match a, b with
  | BTC, BTC | ETH, ETH | SOL, SOL => true
  | _, _ => false
  end.

Definition is_log (e : event) : bool :=
  match e with EmitLog _ _ => true | _ => false end.

Module Window.

(** An entry of [self.api_clients]: the adapter of the class that
    [EXCHANGE_MAP] gives for its exchange. *)
Inductive adapter :=
| OfPacifica (a : Pacifica.PacificaAPI)
| OfLighter (a : Lighter.LighterAPI).

Section SymbolChange.
Variables (rt : Runtime) (W : World) (sign : signer).

(** The body of the loop of [on_symbol_changed]: [stop_streaming], then
    [start_streaming] with the new symbol. *)
Definition restart (c : adapter) (sym : SupportedSymbol) : M adapter :=
  match c with
  | OfPacifica a =>
      a1 <- Pacifica.stop_streaming a ;;
      a2 <- Pacifica.start_streaming rt W sign a1 sym ;;
      ret (OfPacifica a2)
  | OfLighter a =>
      a1 <- Lighter.stop_streaming a ;;
      a2 <- Lighter.start_streaming rt W a1 sym ;;
      ret (OfLighter a2)
  end.

(** The loop over [self.api_clients.items()], a dict in insertion order. *)
Fixpoint restart_all (l : list adapter) (sym : SupportedSymbol) : M (list adapter) :=
  match l with
  | [] => ret []
  | c :: r =>
      c' <- restart c sym ;;
      r' <- restart_all r sym ;;
      ret (c' :: r')
  end.

(** [on_symbol_changed], for the data [new_symbol] of the combo box: the
    store, the order symbol and the adapters it leaves, the line the
    window logs, and the events of the adapters.  The signals among these
    reach the store through their slots while the loop runs, before the
    orders and the states are reset. *)
Definition on_symbol_changed (m : Main.MainWindow) (order_symbol : SupportedSymbol)
    (api_clients : list adapter) (new_symbol : SupportedSymbol)
  : result (Main.MainWindow * SupportedSymbol * list adapter)
    * list Handlers.act * list event :=
  if SupportedSymbol_eqb new_symbol order_symbol
  then (inr (m, order_symbol, api_clients), [], [])
  else
    let (r, tr) := run (restart_all api_clients new_symbol) in
    let m1 := deliver_all m tr in
    (match r with
     | inr clients =>
         inr ({| Main.exchange_states := fun _ => None;
                 Main.open_orders := [];
                 Main.prices := Main.prices m1;
                 Main.selected_A := Main.selected_A m1;
                 Main.selected_B := Main.selected_B m1 |},
              new_symbol, clients)
     | inl e => inl e
     end,
     [Handlers.AddLog 1143 INFO], tr).
End SymbolChange.

(** An adapter after a restart for [sym]: with a client it streams the
    market of [sym]; without one it does not stream and is otherwise as it
    was. *)
Definition restarted_as {C} (sym : SupportedSymbol) (a a' : Base.BaseExchangeAPI C) : Prop :=
  a' = match Base.client a with
       | Some _ => Base.set_timer (Base.set_symbol a sym (symbol_value sym ++ "-PERP")) true
       | None => Base.set_timer a false
       end.

Definition restarted (sym : SupportedSymbol) (c c' : adapter) : Prop :=
  match c, c' with
  | OfPacifica a, OfPacifica a' => restarted_as sym a a'
  | OfLighter a, OfLighter a' => restarted_as sym a a'
  | _, _ => False
  end.

End Window.

(** A Lighter client whose secret was left empty. *)
Definition keyless_lighter_client : Lighter.Client :=
  {| Lighter.api_key := "lk-live-1"; Lighter.api_secret := EmptyString;
     Lighter.account_id := "7"; Lighter.l1_address := Some "0xabc";
     Lighter.base_url := Lighter.BASE_URL |}.

(** A private call that raised [ValueError] at [s] and did nothing else. *)
Definition refused {A} (m : M A) (s : mstate) : Prop :=
  exists e, m s = (inl e, s) /\ exn_class e = ValueError.

(** ** core/wrappers/lighter.py: the order book *)

(** [v[1]] *)
Definition py_second (v : pyval) : result pyval :=
  match v with
  | PList (_ :: x :: _) => inr x
  | PList _ => Raise IndexError [T "list index out of range"]
  | PStr (String _ (String c _)) => inr (PStr (String c EmptyString))
  | PStr _ => Raise IndexError [T "string index out of range"]
  | PDict _ => Raise KeyError [T "1"]
  | _ => Raise TypeError [T "'"; T (type_name v); T "' object is not subscriptable"]
  end.

Module OrderBook.

Record LighterPriceLevel := {
  level_price : float;
  level_size : float
}.

Record LighterOrderBook := {
  bids : list LighterPriceLevel;
  asks : list LighterPriceLevel
}.

Section WithWorld.
Variables (rt : Runtime) (W : World).

(** [LighterPriceLevel.__init__] *)
Definition new_LighterPriceLevel (data : pyval) : result LighterPriceLevel :=
  rbind (py_first data) (fun p =>
  rbind (py_float rt p) (fun price =>
  rbind (py_second data) (fun q =>
  rbind (py_float rt q) (fun size =>
  inr {| level_price := price; level_size := size |})))).

(** The comprehensions of [LighterOrderBook.__init__]. *)
Fixpoint levels (l : list pyval) : result (list LighterPriceLevel) :=
  match l with
  | [] => inr []
  | e :: r =>
      rbind (new_LighterPriceLevel e) (fun level =>
      rbind (levels r) (fun rest => inr (level :: rest)))
  end.

(** [LighterOrderBook.__init__] *)
Definition new_LighterOrderBook (data : pyval) : result LighterOrderBook :=
  rbind (py_getitem data "bids") (fun b =>
  rbind (py_iter b) (fun bl =>
  rbind (levels bl) (fun bids =>
  rbind (py_getitem data "asks") (fun a =>
  rbind (py_iter a) (fun al =>
  rbind (levels al) (fun asks =>
  inr {| bids := bids; asks := asks |})))))).

(** [Client.get_orderbook] *)
Definition get_orderbook (c : Lighter.Client) (market_name : string) : M LighterOrderBook :=
  data <- Lighter._get W c ("/api/v2/market/orderbook?market=" ++ market_name) None ;;
  lift (new_LighterOrderBook data).
End WithWorld.

End OrderBook.

(** The request of [get_orderbook]. *)
Definition orderbook_request (c : Lighter.Client) (market_name : string) : request :=
  {| req_method := "GET";
     req_url := Lighter.base_url c ++ "/api/v2/market/orderbook?market=" ++ market_name;
     req_headers := []; req_params := None; req_json := None |}.

(** An order book with two bids and one ask; the second bid carries a
    third entry. *)
Definition sample_book : pyval :=
  PDict [("bids", PList [PList [PFloat 63999.5; PFloat 0.25];
                         PList [PFloat 63999; PFloat 1; PInt 3]]);
         ("asks", PList [PList [PFloat 64000.5; PFloat 0.5]])].

(** ** Workers whose two sides differ *)

Definition holding (n : string) (d : Direction) (q : float) : ExchangeState :=
  {| name := n;
     position := {| direction := d; quantity := q; entryPrice := 50000 |};
     pnl := 0; balance := 100; currency := "USDC"; leverage := 5 |}.

(** A LONG 1 against B SHORT 1: hedged. *)
Definition hedged_worker : Workers.AutoBalanceWorker :=
  Workers.update_states waiting_worker
    (Some (holding "Pacifica" LONG 1)) (Some (holding "Lighter" SHORT 1)).

(** A SHORT 1 against B LONG 0.25. *)
Definition short_leader_worker : Workers.AutoBalanceWorker :=
  Workers.update_states waiting_worker
    (Some (holding "Pacifica" SHORT 1)) (Some (holding "Lighter" LONG 0.25)).

(** A with direction NONE, whatever its quantity field holds, against B
    LONG 0.5. *)
Definition flat_leader_worker : Workers.AutoBalanceWorker :=
  Workers.update_states waiting_worker
    (Some (holding "Pacifica" NONE 3)) (Some (holding "Lighter" LONG 0.5)).



(** The request [Client._request] sends once the signature and the
    timestamp are made: the method, the base address followed by the path,
    the four headers, and the parameters as the JSON body of a POST and as
    the query otherwise. *)
Definition signed_request (c : Pacifica.Client) (method request_str : string)
    (params : list (string * pyval)) (signature timestamp : string) : request :=
  {| req_method := method;
     req_url := Pacifica.base_url c ++ request_str;
     req_headers :=
       [("Content-Type", "application/json");
        ("X-PACIFICA-API-KEY", Pacifica.api_key c);
        ("X-PACIFICA-SIGNATURE", signature);
        ("X-PACIFICA-TIMESTAMP", timestamp)];
     req_params := if String.eqb method "POST" then None else Some (PDict params);
     req_json := if String.eqb method "POST" then Some (PDict params) else None |}.

(** * Properties *)

(** ** Facts about binary64 comparison *)

Lemma SFcompare_antisym (x y : spec_float) :
  SFcompare y x = option_map CompOpp (SFcompare x y).
Proof.
  destruct x as [sx | sx | | sx mx ex], y as [sy | sy | | sy my ey]; simpl;
    try reflexivity;
    try (destruct sx; reflexivity);
    try (destruct sy; reflexivity);
    try (destruct sx, sy; reflexivity).
  destruct sx, sy; simpl; try reflexivity;
    rewrite (Z.compare_antisym ex ey);
    destruct (ex ?= ey)%Z; simpl; try reflexivity;
    rewrite (Pos.compare_cont_antisym mx my Eq); reflexivity.
Qed.

Lemma float_leb_not_gt (x y : float) :
  (x <=? y)%float = true -> (y <? x)%float = false.
Proof.
  rewrite leb_spec, ltb_spec. unfold SFleb, SFltb.
  rewrite (SFcompare_antisym (Prim2SF x) (Prim2SF y)).
  destruct (SFcompare (Prim2SF x) (Prim2SF y)) as [[ | | ] | ]; simpl;
    intros H; try reflexivity; discriminate H.
Qed.

Section CheckBalance.
Import Workers.

Variables (w : AutoBalanceWorker) (sa sb : ExchangeState) (b : ApiHandle).
Hypothesis state_a_known : _state_a w = Some sa.
Hypothesis state_b_known : _state_b w = Some sb.
Hypothesis follower_set : api_b w = Some b.

Lemma check_balance_quiet (r : option exn) :
  (epsilon <? abs (discrepancy sa sb))%float = false ->
  check_balance w r = ([], None).
Proof.
  intros H. unfold check_balance.
  rewrite state_a_known, state_b_known.
  fold (discrepancy sa sb). rewrite H. reflexivity.
Qed.

Lemma check_balance_corrects (r : option exn) :
  (epsilon <? abs (discrepancy sa sb))%float = true ->
  orders_issued (fst (check_balance w r)) =
    [CreateOrder b (symbol w) MKT
       (if (0 <? discrepancy sa sb)%float then SHORT else LONG)
       (abs (discrepancy sa sb)) None].
Proof.
  intros H. unfold check_balance.
  rewrite state_a_known, state_b_known.
  fold (discrepancy sa sb). rewrite H, follower_set.
  destruct r; reflexivity.
Qed.
End CheckBalance.

(** C1.  On a tick where both account states are known and the follower
    adapter is set, take the signed quantity of a position to be its
    quantity for LONG, minus its quantity for SHORT and 0 for NONE, and
    [d] the sum of the signed quantities of A and B.  When [abs d <= 1e-6]
    the worker issues no order; when [abs d > 1e-6] it issues exactly one
    order, on the follower adapter, of type MKT, of quantity [abs d], SHORT
    when [d > 0] and LONG otherwise.  This holds whether the adapter's
    [create_order] returns or raises. *)
Theorem C1_corrective_order
  (w : Workers.AutoBalanceWorker) (sa sb : ExchangeState)
  (b : Workers.ApiHandle) (r : option exn) :
  Workers._state_a w = Some sa ->
  Workers._state_b w = Some sb ->
  Workers.api_b w = Some b ->
  let signed (p : Position) :=
    match direction p with
    | LONG => quantity p
    | SHORT => (- quantity p)%float
    | NONE => 0%float
    end in
  let d := (signed (position sa) + signed (position sb))%float in
  ((abs d <=? 1e-6)%float = true ->
     Workers.orders_issued (fst (Workers.check_balance w r)) = []) /\
  ((1e-6 <? abs d)%float = true ->
     Workers.orders_issued (fst (Workers.check_balance w r)) =
       [Workers.CreateOrder b (Workers.symbol w) MKT
          (if (0 <? d)%float then SHORT else LONG) (abs d) None]).
Proof.
  intros Ha Hb Hapi signed d. split; intros H.
  - apply float_leb_not_gt in H.
    rewrite (check_balance_quiet w sa sb Ha Hb r H). reflexivity.
  - exact (check_balance_corrects w sa sb b Ha Hb Hapi r H).
Qed.

(** ** The state store *)

Section OrdersUpdate.
Import Main.

Lemma orders_of_others_same (X : ExchangeId) (l : list Order) :
  orders_of X (filter (fun o => negb (ExchangeId_eqb (exchangeId o) X)) l) = [].
Proof.
  unfold orders_of. induction l as [| o l IH]; simpl; [reflexivity |].
  destruct (ExchangeId_eqb (exchangeId o) X) eqn:E; simpl; [exact IH |].
  rewrite E. exact IH.
Qed.

Lemma orders_of_others_kept (X Y : ExchangeId) (l : list Order) :
  Y <> X ->
  orders_of Y (filter (fun o => negb (ExchangeId_eqb (exchangeId o) X)) l) = orders_of Y l.
Proof.
  intros HYX. unfold orders_of. induction l as [| o l IH]; simpl; [reflexivity |].
  destruct (ExchangeId_eqb (exchangeId o) X) eqn:EX; simpl.
  - destruct (ExchangeId_eqb (exchangeId o) Y) eqn:EY; [| exact IH].
    exfalso. apply HYX.
    destruct (exchangeId o), X, Y; simpl in *; congruence.
  - destruct (ExchangeId_eqb (exchangeId o) Y); [rewrite IH |]; auto.
Qed.

Lemma orders_of_own (X : ExchangeId) (l : list Order) :
  Forall (fun o => exchangeId o = X) l -> orders_of X l = l.
Proof.
  unfold orders_of. induction 1 as [| o l Ho _ IH]; simpl; [reflexivity |].
  rewrite Ho, IH. destruct X; reflexivity.
Qed.

Lemma orders_of_foreign (X Y : ExchangeId) (l : list Order) :
  Y <> X -> Forall (fun o => exchangeId o = X) l -> orders_of Y l = [].
Proof.
  intros HYX. unfold orders_of. induction 1 as [| o l Ho _ IH]; simpl; [reflexivity |].
  rewrite Ho, IH. destruct X, Y; simpl; congruence.
Qed.
End OrdersUpdate.

(** C7.  An open-orders update for exchange [X], whose list holds orders of
    [X], leaves the store with exactly that list as the orders of [X], and
    with the orders of every other exchange as they were: the same orders,
    in the same order, each as many times as before.  Nothing else of the
    store changes. *)
Theorem C7_orders_replaced_per_exchange
  (m : Main.MainWindow) (X : ExchangeId) (orders : list Order) :
  Forall (fun o => exchangeId o = X) orders ->
  let m' := Main.on_orders_update m X orders in
  Main.orders_of X (Main.open_orders m') = orders /\
  (forall Y, Y <> X ->
     Main.orders_of Y (Main.open_orders m') = Main.orders_of Y (Main.open_orders m)) /\
  Main.exchange_states m' = Main.exchange_states m /\
  Main.prices m' = Main.prices m.
Proof.
  intros Hown m'. subst m'. unfold Main.on_orders_update; simpl.
  repeat split.
  - unfold Main.orders_of at 1. rewrite filter_app.
    fold (Main.orders_of X orders).
    change (filter (fun o => ExchangeId_eqb (exchangeId o) X)
              (filter (fun o => negb (ExchangeId_eqb (exchangeId o) X)) (Main.open_orders m)))
      with (Main.orders_of X
              (filter (fun o => negb (ExchangeId_eqb (exchangeId o) X)) (Main.open_orders m))).
    rewrite orders_of_others_same, (orders_of_own X orders Hown). reflexivity.
  - intros Y HYX. unfold Main.orders_of at 1. rewrite filter_app.
    fold (Main.orders_of Y orders).
    change (filter (fun o => ExchangeId_eqb (exchangeId o) Y)
              (filter (fun o => negb (ExchangeId_eqb (exchangeId o) X)) (Main.open_orders m)))
      with (Main.orders_of Y
              (filter (fun o => negb (ExchangeId_eqb (exchangeId o) X)) (Main.open_orders m))).
    rewrite (orders_of_others_kept X Y _ HYX), (orders_of_foreign X Y orders HYX Hown).
    apply app_nil_r.
Qed.

(** ** The signer of the asymmetric scheme *)

Lemma create_signature_raises
  (rt : Runtime) (W : World) (private_key request_str method : string)
  (params : list (string * pyval)) (s : mstate) :
  Pacifica.create_signature rt W private_key request_str method params s
  = (Raise ValueError [T "API key is not set"], s).
Proof. reflexivity. Qed.

(** C6.  [create_signature] raises "API key is not set" on every input,
    before it reads the clock or touches the secret: its first statement
    calls [check_api_keys] with an empty API key.  No message is ever
    signed, whatever the secret, the method, the path and the parameters,
    and every request of the client comes back as that error without a
    network call. *)
Theorem C6_create_signature_always_raises
  (rt : Runtime) (W : World) (c : Pacifica.Client)
  (private_key request_str method : string)
  (params : list (string * pyval)) (s : mstate) :
  Pacifica.create_signature rt W private_key request_str method params s
  = (Raise ValueError [T "API key is not set"], s)
  /\ Pacifica._request rt W (Pacifica.create_signature rt W) c method request_str params s
     = (inr (Pacifica.error_dict "API key is not set"), s).
Proof.
  split; [apply create_signature_raises |].
  unfold Pacifica._request, Pacifica._request_with, bind, attempt.
  rewrite create_signature_raises. reflexivity.
Qed.

(** ** Connecting *)

(** C9.  [LighterAPI.connect] with [accountId = 0] logs the missing-field
    error and returns [False] with the adapter untouched and no network
    call, exactly as it does with [accountId = None]; the form of the main
    window, which tests the account id against [None], lets such credentials
    through to [connect]. *)
Theorem C9_account_id_zero_is_missing
  (rt : Runtime) (W : World) (a : Lighter.LighterAPI)
  (k sec : string) (addr l1 : option string) :
  let creds (i : option Z) :=
    {| apiKey := k; apiSecret := sec; accountAddress := addr;
       accountId := i; l1Address := l1 |} in
  run (Lighter.connect rt W a (creds (Some 0%Z)))
  = (inr (a, false),
     [EmitLog (Base.tag a ++ [T "Connecting with API Key "; T (substring 0 5 k); T "..."])%list
        INFO;
      EmitLog (Base.tag a
                 ++ [T "Connection failed: Lighter requires Account ID and L1 Address."])%list
        ERROR]) /\
  http_calls (snd (run (Lighter.connect rt W a (creds (Some 0%Z))))) = [] /\
  run (Lighter.connect rt W a (creds (Some 0%Z))) = run (Lighter.connect rt W a (creds None)) /\
  Main.save_accepts LIGHTER
    {| apiKey := "lk-live-1"; apiSecret := "s3cret"; accountAddress := None;
       accountId := Some 0%Z; l1Address := Some "0xabc" |} = true.
Proof. intros creds. repeat split. Qed.

(** ** Calls on an adapter that is not connected *)

(** A [try] whose handler only logs returns [None] whatever its body
    does. *)
Lemma caught_returns {A} (m : M A) (h : exn -> text) (lvl : LogLevel) (s : mstate) :
  fst (bind (attempt m)
         (fun r => match r with
                   | inr _ => ret tt
                   | inl e => emit (EmitLog (h e) lvl)
                   end) s) = inr tt.
Proof.
  unfold bind at 1. unfold attempt.
  destruct (m s) as [[e | x] s']; reflexivity.
Qed.

Section OrderSideCalls.
Variables (rt : Runtime) (W : World) (sign : signer).

(** Connected or not, the four methods return [None] and never raise. *)
Lemma order_side_calls_return (p : Pacifica.PacificaAPI) (l : Lighter.LighterAPI)
    (sym : SupportedSymbol) (lev : Z) (ty : OrderType) (dir : Direction)
    (qty : float) (px : option float) (oid : string) :
  fst (run (Pacifica.set_leverage rt W sign p sym lev)) = inr tt /\
  fst (run (Pacifica.create_order rt W sign p sym ty dir qty px)) = inr tt /\
  fst (run (Pacifica.cancel_order rt W sign p sym oid)) = inr tt /\
  fst (run (Pacifica.cancel_all_orders rt W sign p sym)) = inr tt /\
  fst (run (Lighter.set_leverage rt W l sym lev)) = inr tt /\
  fst (run (Lighter.create_order rt W l sym ty dir qty px)) = inr tt /\
  fst (run (Lighter.cancel_order rt W l sym oid)) = inr tt /\
  fst (run (Lighter.cancel_all_orders rt W l sym)) = inr tt.
Proof.
  assert (Hrun : forall (m : M unit) s0, fst (m s0) = inr tt ->
                 forall r, r = m s0 -> fst (let (x, s1) := r in (x, trace s1)) = inr tt).
  { intros m s0 H r ->. destruct (m s0); exact H. }
  unfold run, Pacifica.set_leverage, Pacifica.create_order, Pacifica.cancel_order,
    Pacifica.cancel_all_orders, Lighter.set_leverage, Lighter.create_order,
    Lighter.cancel_order, Lighter.cancel_all_orders.
  destruct (Base.client p) as [c |], (Base.client l) as [c' |];
    repeat split; try reflexivity;
    (eapply Hrun; [| reflexivity]);
    unfold bind at 1; unfold Pacifica.log, Lighter.log, emit;
    unfold Pacifica.guarded, Lighter.guarded;
    apply caught_returns.
Qed.
End OrderSideCalls.

(** C10.  On either adapter, with [client] at [None], each of
    [set_leverage], [create_order], [cancel_order] and [cancel_all_orders]
    returns normally with an empty trace: no request, no log, no signal, no
    scheduled poll.  The value returned is the one a submitted call
    returns, so the caller cannot tell the two apart. *)
Theorem C10_unconnected_calls_are_silent
  (rt : Runtime) (W : World) (sign : signer)
  (p : Pacifica.PacificaAPI) (l : Lighter.LighterAPI)
  (sym : SupportedSymbol) (lev : Z) (ty : OrderType) (dir : Direction)
  (qty : float) (px : option float) (oid : string) :
  Base.client p = None ->
  Base.client l = None ->
  (run (Pacifica.set_leverage rt W sign p sym lev) = (inr tt, []) /\
   run (Pacifica.create_order rt W sign p sym ty dir qty px) = (inr tt, []) /\
   run (Pacifica.cancel_order rt W sign p sym oid) = (inr tt, []) /\
   run (Pacifica.cancel_all_orders rt W sign p sym) = (inr tt, []) /\
   run (Lighter.set_leverage rt W l sym lev) = (inr tt, []) /\
   run (Lighter.create_order rt W l sym ty dir qty px) = (inr tt, []) /\
   run (Lighter.cancel_order rt W l sym oid) = (inr tt, []) /\
   run (Lighter.cancel_all_orders rt W l sym) = (inr tt, []))
  /\ (forall (p' : Pacifica.PacificaAPI) (l' : Lighter.LighterAPI),
        fst (run (Pacifica.set_leverage rt W sign p' sym lev)) = inr tt /\
        fst (run (Pacifica.create_order rt W sign p' sym ty dir qty px)) = inr tt /\
        fst (run (Pacifica.cancel_order rt W sign p' sym oid)) = inr tt /\
        fst (run (Pacifica.cancel_all_orders rt W sign p' sym)) = inr tt /\
        fst (run (Lighter.set_leverage rt W l' sym lev)) = inr tt /\
        fst (run (Lighter.create_order rt W l' sym ty dir qty px)) = inr tt /\
        fst (run (Lighter.cancel_order rt W l' sym oid)) = inr tt /\
        fst (run (Lighter.cancel_all_orders rt W l' sym)) = inr tt).
Proof.
  intros Hp Hl. split.
  - unfold Pacifica.set_leverage, Pacifica.create_order, Pacifica.cancel_order,
      Pacifica.cancel_all_orders, Lighter.set_leverage, Lighter.create_order,
      Lighter.cancel_order, Lighter.cancel_all_orders.
    rewrite Hp, Hl. repeat split.
  - intros p' l'. apply order_side_calls_return.
Qed.

(** ** The position of a polled account state *)

Lemma float_gt_zero_not_zero (x : float) :
  (0 <? x)%float = true -> (x =? 0)%float = false.
Proof.
  rewrite ltb_spec, eqb_spec. unfold SFltb, SFeqb.
  rewrite (SFcompare_antisym (Prim2SF 0) (Prim2SF x)).
  destruct (SFcompare (Prim2SF 0) (Prim2SF x)) as [[ | | ] | ]; simpl;
    intros H; try reflexivity; discriminate H.
Qed.

(** Peel one [rbind] off a successful result. *)
Ltac peel H :=
  match type of H with
  | rbind ?r _ = inr _ =>
      let E := fresh "E" in
      destruct r eqn:E; simpl in H; [discriminate H |]
  end.

(** The account state [LighterAPI._poll_data] builds satisfies the position
    invariant, whatever the two payloads are. *)
Lemma lighter_translate_state_invariant
  (rt : Runtime) (a : Lighter.LighterAPI) (collateral_data position_data : pyval)
  (st : ExchangeState) :
  Lighter.translate_state rt a collateral_data position_data = inr st ->
  position_invariant (position st).
Proof.
  unfold Lighter.translate_state, position_invariant. intros H.
  do 5 peel H.
  match type of H with
  | rbind ?r _ = _ => destruct r as [e | held] eqn:Eheld; simpl in H; [discriminate H |]
  end.
  destruct held.
  - destruct (py_truthy position_data); [| discriminate Eheld].
    destruct (py_getitem position_data "size") as [e | sz]; simpl in *; [discriminate |].
    destruct (py_float rt sz) as [e | x]; simpl in *; [discriminate |].
    injection Eheld as Hx.
    destruct (py_getitem position_data "side") as [e | sd]; simpl in H; [discriminate |].
    destruct (py_getitem position_data "entry_price") as [e | ep]; simpl in H; [discriminate |].
    destruct (py_float rt ep); simpl in H; [discriminate |].
    destruct (py_getitem position_data "unrealised_pnl") as [e | up]; simpl in H;
      [discriminate |].
    destruct (py_float rt up); simpl in H; [discriminate |].
    injection H as <-. simpl.
    rewrite (float_gt_zero_not_zero x Hx).
    split; [| discriminate].
    destruct (is_str "B" sd); discriminate.
  - simpl in H. injection H as <-. simpl. split; reflexivity.
Qed.

(** The translation of [PacificaAPI._poll_data], taken alone, takes the
    side of the first listed position whatever its size: a listed position
    of size 0 on the LONG side yields direction LONG with quantity 0.  The
    program as shipped never reaches this translation (see
    [pacifica_poll_as_shipped_run] below). *)
Example pacifica_translation_keeps_the_side_of_a_flat_position
  (rt : Runtime) (a : Pacifica.PacificaAPI) :
  Pacifica.translate_state rt a sample_collateral flat_position
  = inr {| name := Base.name a;
           position := {| direction := LONG; quantity := 0; entryPrice := 0 |};
           pnl := 0; balance := 100; currency := "USDC"; leverage := 5 |}
  /\ ~ position_invariant {| direction := LONG; quantity := 0; entryPrice := 0 |}.
Proof.
  split.
  - reflexivity.
  - unfold position_invariant; simpl. intros [_ H].
    discriminate (H eq_refl).
Qed.

(** Under a signer that signs, a whole poll of the Pacifica adapter against
    that account emits the state with direction LONG and quantity 0. *)
Example pacifica_poll_emits_flat_long :
  In (EmitState PACIFICA
        {| name := "Pacifica";
           position := {| direction := LONG; quantity := 0; entryPrice := 0 |};
           pnl := 0; balance := 100; currency := "USDC"; leverage := 5 |})
     (snd (run (Pacifica._poll_data sample_runtime flat_account
                  (working_signer flat_account) streaming_pacifica))).
Proof. vm_compute. tauto. Qed.

(** ** The worker's loop and the stop flag *)

(** C8, as stated, fails: a worker that has just submitted a correction
    sleeps 3 s in one call before it reads the stop flag again. *)
Lemma C8_cooldown_blocks_three_seconds :
  Workers.sleeps (fst (Workers.step drifting_worker None Workers.Head)) = [Workers.Sleep 3]
  /\ Workers.blocked_ms (fst (Workers.step drifting_worker None Workers.Head)) = 3000%float
  /\ (Workers.blocked_ms (fst (Workers.step drifting_worker None Workers.Head)) <? 1000)%float
     = false
  /\ snd (Workers.step drifting_worker None Workers.Head) = Workers.Napping 0.
Proof. repeat split. Qed.

(** A worker that has no account state yet sleeps a whole interval in one
    call. *)
Example waiting_blocks_a_whole_interval :
  Workers.step waiting_worker None Workers.Head
  = ([Workers.Log [T "[AutoBalance] Waiting for A and B "; T "state data"; T "..."] WARN;
      Workers.Sleep 3], Workers.Head)
  /\ Workers.blocked_ms (fst (Workers.step waiting_worker None Workers.Head)) = 3000%float.
Proof. repeat split. Qed.

(** C8, amended.  Between ticks the thread naps 100 ms at a time and tests
    the flag before each nap: while the flag is up and the interval has
    not elapsed, it blocks for one nap of 100 ms and tests again; when it
    finds the flag down it naps no more, and the test at the head of the
    loop that follows ends the thread, with no log, no order and no sleep.
    A tick that submitted a correction and whose [create_order] returned
    blocks in the cooldown, one sleep of 3 s, before the next test of the
    flag; a tick that submitted none, or whose [create_order] raised, does
    not block.  A stop requested during the cooldown is honoured at the
    first test after it: the thread naps no more and ends. *)
Theorem C8_flag_polled_between_ticks_not_in_cooldown
  (w : Workers.AutoBalanceWorker) (r : option exn) (t : float)
  (a b : Workers.ApiHandle) (sa sb : ExchangeState) :
  Workers.api_a w = Some a ->
  Workers.api_b w = Some b ->
  Workers._state_a w = Some sa ->
  Workers._state_b w = Some sb ->
  let stopped := snd (Workers.stop w) in
  let tick := Workers.step w r Workers.Head in
  (Workers.is_running w = true -> (t <? Workers.interval w)%float = true ->
     Workers.step w r (Workers.Napping t)
     = ([Workers.MSleep 100], Workers.Napping (t + 0.1)%float)
     /\ Workers.blocked_ms (fst (Workers.step w r (Workers.Napping t))) = 100%float)
  /\ (Workers.step stopped r (Workers.Napping t) = ([], Workers.Head)
      /\ Workers.step stopped r Workers.Head = ([], Workers.Finished))
  /\ (Workers.is_running w = true ->
      snd tick = Workers.Napping 0
      /\ (Workers.orders_issued (fst tick) <> [] -> r = None ->
          Workers.sleeps (fst tick) = [Workers.Sleep 3]
          /\ Workers.blocked_ms (fst tick) = 3000%float)
      /\ (Workers.orders_issued (fst tick) = [] \/ r <> None ->
          Workers.sleeps (fst tick) = [])
      /\ Workers.step stopped r (snd tick) = ([], Workers.Head)).
Proof.
  intros Ha Hb Hsa Hsb stopped tick. subst stopped tick.
  split; [| split].
  - intros Hrun Ht. simpl. rewrite Ht, Hrun. simpl. split; reflexivity.
  - simpl. rewrite andb_false_r. split; reflexivity.
  - intros Hrun.
    assert (Hstep : Workers.step w r Workers.Head
                    = (fst (Workers.check_balance w r), Workers.Napping 0)).
    { unfold Workers.step. rewrite Hrun, Ha, Hb, Hsa, Hsb.
      unfold Workers.check_balance. rewrite Hsa, Hsb, Hb.
      destruct (Workers.epsilon <? abs _)%float; [destruct r |]; reflexivity. }
    rewrite Hstep. cbn [fst snd].
    split; [reflexivity |].
    assert (Hlast : Workers.step (snd (Workers.stop w)) r (Workers.Napping 0)
                    = ([], Workers.Head)).
    { simpl. rewrite andb_false_r. reflexivity. }
    unfold Workers.check_balance. rewrite Hsa, Hsb, Hb.
    destruct (Workers.epsilon <? abs _)%float.
    + destruct r as [e |]; cbn [fst].
      * split; [intros _ H; discriminate H |].
        split; [intros _; reflexivity | exact Hlast].
      * split; [intros _ _; split; reflexivity |].
        split; [| exact Hlast].
        intros [H | H]; [discriminate H | exfalso; apply H; reflexivity].
    + cbn [fst].
      split; [intros H; exfalso; apply H; reflexivity |].
      split; [intros _; reflexivity | exact Hlast].
Qed.

(** ** The signer of the shared-secret scheme *)

(** C5, as stated, fails: the body that is signed is [json.dumps(data)]
    with the default separators, not the compact rendering.  On the
    cancel-all body the two messages differ. *)
Lemma C5_signed_body_is_not_compact :
  Lighter.auth_message sample_runtime "1700000000000" "DELETE"
    "/api/v2/account/orders/all" (Some cancel_all_body)
  <> spec_scheme_A_message sample_runtime "1700000000000" "DELETE"
       "/api/v2/account/orders/all" (Some cancel_all_body).
Proof. vm_compute. intros H. discriminate H. Qed.

Lemma eqb_empty_false (x : string) : x <> EmptyString -> String.eqb x EmptyString = false.
Proof. intros H. apply String.eqb_neq. exact H. Qed.

Section AuthHeaders.
Variables (rt : Runtime) (W : World) (c : Lighter.Client).
Hypothesis key_set : Lighter.api_key c <> EmptyString.
Hypothesis secret_set : Lighter.api_secret c <> EmptyString.

Lemma get_auth_headers_run (method endpoint : string)
    (data : option (list (string * pyval))) (s : mstate) :
  Lighter._get_auth_headers rt W c method endpoint data s
  = (inr (headers_at rt W c (clock_reads s) method endpoint data),
     {| trace := trace s; clock_reads := S (clock_reads s) |}).
Proof.
  unfold Lighter._get_auth_headers.
  rewrite (eqb_empty_false _ key_set), (eqb_empty_false _ secret_set).
  reflexivity.
Qed.

Lemma call_trace (rq : request) (s : mstate) :
  trace (snd (Lighter.call W rq s)) = (trace s ++ [Http rq])%list.
Proof.
  unfold Lighter.call, send, bind, emit, ret; simpl.
  destruct (net W rq); reflexivity.
Qed.

Lemma signed_request_trace (method endpoint : string)
    (data : option (list (string * pyval))) (s : mstate) :
  trace (snd (Lighter._post rt W c endpoint data s))
  = (trace s ++ [Http {| req_method := "POST";
                         req_url := Lighter.base_url c ++ endpoint;
                         req_headers := headers_at rt W c (clock_reads s) "POST" endpoint data;
                         req_params := None;
                         req_json := Lighter.opt_dict data |}])%list
  /\ trace (snd (Lighter._delete rt W c endpoint data s))
  = (trace s ++ [Http {| req_method := "DELETE";
                         req_url := Lighter.base_url c ++ endpoint;
                         req_headers := headers_at rt W c (clock_reads s) "DELETE" endpoint data;
                         req_params := None;
                         req_json := Lighter.opt_dict data |}])%list.
Proof.
  unfold Lighter._post, Lighter._delete, bind.
  rewrite !get_auth_headers_run. split; rewrite call_trace; reflexivity.
Qed.

Lemma private_get_trace (endpoint : string) (params : list (string * pyval)) (s : mstate) :
  trace (snd (Lighter._get_private rt W c endpoint params s))
  = (trace s ++ [Http {| req_method := "GET";
                         req_url := Lighter.base_url c ++ endpoint;
                         req_headers := headers_at rt W c (clock_reads s) "GET" endpoint None;
                         req_params := Some (PDict params);
                         req_json := None |}])%list.
Proof.
  unfold Lighter._get_private, bind.
  rewrite get_auth_headers_run. rewrite call_trace. reflexivity.
Qed.
End AuthHeaders.

(** C5, amended.  With the key and the secret set, [_get_auth_headers]
    reads the clock once and returns the content type and three headers:
    the API key, the timestamp, and the hex HMAC-SHA256, under the secret,
    of timestamp + METHOD + path + body, where the body is [json.dumps] of
    the data with its default separators (", " and ": "), and is empty when
    there is no data.  Every POST and DELETE of the client sends exactly
    these headers for its own body, and every private GET sends them for an
    empty body. *)
Theorem C5_auth_headers
  (rt : Runtime) (W : World) (c : Lighter.Client) (method endpoint : string)
  (data : option (list (string * pyval))) (params : list (string * pyval)) (s : mstate) :
  Lighter.api_key c <> EmptyString ->
  Lighter.api_secret c <> EmptyString ->
  let timestamp := str_of_int (clock W (clock_reads s)) in
  let body (d : option (list (string * pyval))) :=
    match d with
    | Some d => if nonempty d then json_dumps rt (PDict d) else EmptyString
    | None => EmptyString
    end in
  let headers (m : string) (d : option (list (string * pyval))) :=
    [("Content-Type", "application/json");
     ("X-Api-Key", Lighter.api_key c);
     ("X-Timestamp", timestamp);
     ("X-Signature",
      hmac_sha256_hexdigest rt (Lighter.api_secret c)
        (timestamp ++ upper m ++ endpoint ++ body d))] in
  fst (Lighter._get_auth_headers rt W c method endpoint data s) = inr (headers method data)
  /\ trace (snd (Lighter._get_auth_headers rt W c method endpoint data s)) = trace s
  /\ trace (snd (Lighter._post rt W c endpoint data s))
     = (trace s ++ [Http {| req_method := "POST"; req_url := Lighter.base_url c ++ endpoint;
                            req_headers := headers "POST" data;
                            req_params := None; req_json := Lighter.opt_dict data |}])%list
  /\ trace (snd (Lighter._delete rt W c endpoint data s))
     = (trace s ++ [Http {| req_method := "DELETE"; req_url := Lighter.base_url c ++ endpoint;
                            req_headers := headers "DELETE" data;
                            req_params := None; req_json := Lighter.opt_dict data |}])%list
  /\ trace (snd (Lighter._get_private rt W c endpoint params s))
     = (trace s ++ [Http {| req_method := "GET"; req_url := Lighter.base_url c ++ endpoint;
                            req_headers := headers "GET" None;
                            req_params := Some (PDict params); req_json := None |}])%list.
Proof.
  intros Hk Hs timestamp body headers.
  rewrite (get_auth_headers_run rt W c Hk Hs).
  destruct (signed_request_trace rt W c Hk Hs method endpoint data s) as [Hp Hd].
  repeat split; try assumption.
  apply (private_get_trace rt W c Hk Hs).
Qed.
(** ** Exceptions of the Pacifica poll *)

Create HintDb benign.

Lemma benign_rbind {A B} (r : result A) (k : A -> result B) :
  benign r -> (forall a, benign (k a)) -> benign (rbind r k).
Proof. destruct r; simpl; auto. Qed.

Lemma benign_contains (k : string) (v : pyval) : benign (py_contains k v).
Proof. destruct v; simpl; auto. Qed.

Lemma benign_getitem (v : pyval) (k : string) : benign (py_getitem v k).
Proof. destruct v; simpl; auto. destruct (dict_get d k); simpl; auto. Qed.

Lemma benign_first (v : pyval) : benign (py_first v).
Proof. destruct v as [ | | | | [ | ? ?] | [ | ? ?] | ]; simpl; auto. Qed.

Lemma benign_get (v : pyval) (k : string) (d : pyval) : benign (py_get v k d).
Proof. destruct v; simpl; auto. Qed.

Lemma benign_iter (v : pyval) : benign (py_iter v).
Proof. destruct v; simpl; auto. Qed.

Lemma benign_float (rt : Runtime) (v : pyval) : benign (py_float rt v).
Proof.
  destruct v; simpl; auto.
  - destruct (abs (float_of_Z z) =? infinity)%float; simpl; auto.
  - destruct (float_of_str rt s); simpl; auto.
Qed.

Lemma benign_int_of_float (x : float) : benign (int_of_float x).
Proof.
  unfold int_of_float. destruct (Z_of_float x); simpl; auto.
  destruct (is_nan x); simpl; auto.
Qed.

Lemma benign_int (rt : Runtime) (v : pyval) : benign (py_int rt v).
Proof.
  destruct v; simpl; auto using benign_int_of_float.
  destruct (int_of_str rt s); simpl; auto.
Qed.

#[local] Hint Resolve benign_contains benign_getitem benign_first benign_get benign_iter
  benign_float benign_int_of_float benign_int : benign.

Ltac benign_chain :=
  repeat first
    [ exact I
    | apply benign_rbind; [auto with benign | intros]
    | match goal with
      | |- benign (if ?b then _ else _) => destruct b
      | |- benign (match ?p with (_, _) => _ end) => destruct p
      end
    | solve [auto with benign] ].

Lemma benign_pacifica_state (rt : Runtime) (a : Pacifica.PacificaAPI) (cd pd : pyval) :
  benign (Pacifica.translate_state rt a cd pd).
Proof. unfold Pacifica.translate_state. benign_chain. Qed.

Lemma benign_pacifica_order (rt : Runtime) (a : Pacifica.PacificaAPI) (o : pyval) :
  benign (Pacifica.translate_order rt a o).
Proof. unfold Pacifica.translate_order. benign_chain. Qed.

Lemma benign_pacifica_orders (rt : Runtime) (a : Pacifica.PacificaAPI) (l : list pyval) :
  benign (Pacifica.translate_orders rt a l).
Proof.
  induction l as [| o l IH]; simpl; [exact I |].
  apply benign_rbind; [apply benign_pacifica_order | intros].
  apply benign_rbind; [exact IH | intros; exact I].
Qed.

Lemma harmless_ret {A} (a : A) : harmless (ret a).
Proof. intros s. exact Logic.I. Qed.

Lemma harmless_lift {A} (r : result A) : benign r -> harmless (lift r).
Proof. intros H s. exact H. Qed.

Lemma harmless_emit (e : event) : harmless (emit e).
Proof. intros s. exact Logic.I. Qed.

Lemma harmless_bind {A B} (m : M A) (k : A -> M B) :
  harmless m -> (forall a, harmless (k a)) -> harmless (bind m k).
Proof.
  intros Hm Hk s. unfold bind. specialize (Hm s).
  destruct (m s) as [[e | a] s']; simpl in *; [exact Hm | apply Hk].
Qed.

Lemma create_signature_sound (rt : Runtime) (W : World) :
  sound_signer (Pacifica.create_signature rt W).
Proof.
  intros pk r m p s. rewrite create_signature_raises. simpl.
  split; [reflexivity |]. intros e H. injection H as <-. reflexivity.
Qed.

Lemma working_signer_sound (W : World) : sound_signer (working_signer W).
Proof.
  intros pk r m p s. simpl. split; [reflexivity | intros e H; discriminate H].
Qed.

Section PacificaPoll.
Variables (rt : Runtime) (W : World) (sign : signer).
Hypothesis sign_sound : sound_signer sign.

(** [_request] returns a value on every path: each failure of the signer
    or of the transport has become an "error" dict. *)
Lemma request_returns (c : Pacifica.Client) (method request_str : string)
    (params : list (string * pyval)) (s : mstate) :
  exists v, fst (Pacifica._request rt W sign c method request_str params s) = inr v.
Proof.
  unfold Pacifica._request, Pacifica._request_with, bind, attempt.
  destruct (sign_sound (Pacifica.private_key c) request_str method params s) as [_ Hv].
  destruct (sign (Pacifica.private_key c) request_str method params s) as [[e | [sg ts]] s'];
    simpl in *.
  - rewrite (Hv e eq_refl). simpl. eexists; reflexivity.
  - destruct (String.eqb method "GET"); [eexists; reflexivity |].
    destruct (String.eqb method "POST"); [eexists; reflexivity |].
    destruct (String.eqb method "DELETE"); eexists; reflexivity.
Qed.

Lemma harmless_request (c : Pacifica.Client) (method request_str : string)
    (params : list (string * pyval)) :
  harmless (Pacifica._request rt W sign c method request_str params).
Proof.
  intros s. destruct (request_returns c method request_str params s) as [v Hv].
  rewrite Hv. exact Logic.I.
Qed.

Lemma harmless_fail_on_error (what : string) (data : pyval) :
  harmless (Pacifica.fail_on_error what data).
Proof.
  unfold Pacifica.fail_on_error.
  apply harmless_bind; [apply harmless_lift, benign_contains | intros b].
  destruct b; [| apply harmless_ret].
  apply harmless_bind; [apply harmless_lift, benign_getitem | intros e].
  intros s. reflexivity.
Qed.

Lemma harmless_poll_body (a : Pacifica.PacificaAPI) (c : Pacifica.Client) :
  harmless (Pacifica.poll_body rt W sign a c).
Proof.
  unfold Pacifica.poll_body, Pacifica.get_market_summary, Pacifica.get_collateral,
    Pacifica.get_positions, Pacifica.get_orders.
  repeat match goal with
         | |- harmless (bind _ _) => apply harmless_bind; [| intros ?]
         | |- harmless (emit _) => apply harmless_emit
         | |- harmless (lift _) => apply harmless_lift
         | |- harmless (Pacifica._request _ _ _ _ _ _ _) => apply harmless_request
         | |- harmless (Pacifica.fail_on_error _ _) => apply harmless_fail_on_error
         end.
  - benign_chain.
  - apply benign_pacifica_state.
  - apply benign_rbind; [auto with benign | intros].
    apply benign_rbind; [auto with benign | intros].
    apply benign_pacifica_orders.
Qed.

Lemma pacifica_poll_keeps_adapter (a : Pacifica.PacificaAPI) (c : Pacifica.Client)
    (s : mstate) :
  Base.client a = Some c ->
  Base.poll_timer_active a = true ->
  fst (Pacifica._poll_data rt W sign a s) = inr a.
Proof.
  intros Hc Ht. unfold Pacifica._poll_data. rewrite Hc, Ht.
  unfold bind, attempt.
  pose proof (harmless_poll_body a c s) as Hb.
  destruct (Pacifica.poll_body rt W sign a c s) as [[e | u] s']; simpl in *.
  - rewrite Hb. reflexivity.
  - reflexivity.
Qed.
End PacificaPoll.

(** When a poll of the Pacifica adapter runs (client set, timer active),
    the adapter it leaves is the one it found, timer still active, under
    every signer that emits nothing and raises only [ValueError]:
    [_request] turns each failure into an "error" dict, the poll raises a
    plain [Exception] for it, and the handler that stops streaming is never
    entered. *)
Lemma pacifica_poll_never_stops_streaming
  (rt : Runtime) (W : World) (sign : signer)
  (a : Pacifica.PacificaAPI) (c : Pacifica.Client) (s : mstate) :
  sound_signer sign ->
  Base.client a = Some c ->
  Base.poll_timer_active a = true ->
  fst (Pacifica._poll_data rt W sign a s) = inr a.
Proof.
  intros Hs Hc Ht.
  apply (pacifica_poll_keeps_adapter rt W sign Hs a c s Hc Ht).
Qed.

(** The Pacifica poll with no connectivity, under a signer that signs: one
    request, one error log, and the timer left running. *)
Example pacifica_poll_offline :
  run (Pacifica._poll_data sample_runtime offline (working_signer offline) streaming_pacifica)
  = (inr streaming_pacifica,
     [Http {| req_method := "GET";
              req_url := "https://api.pacifica.fi/api/v1/markets/BTC-PERP/summary";
              req_headers := [("Content-Type", "application/json");
                              ("X-PACIFICA-API-KEY", "pk-live-1");
                              ("X-PACIFICA-SIGNATURE", "<signature>");
                              ("X-PACIFICA-TIMESTAMP", "1700000000000")];
              req_params := Some (PDict []); req_json := None |};
      EmitLog [T "["; T "Pacifica"; T "] "; T "Data poll failed: "; T "Price";
               T " poll failed: "; V (PStr "Request Error: Connection refused")] ERROR]).
Proof. vm_compute. reflexivity. Qed.

(** The same poll under [create_signature]: no request at all. *)
Example pacifica_poll_as_shipped :
  run (Pacifica._poll_data sample_runtime offline
         (Pacifica.create_signature sample_runtime offline) streaming_pacifica)
  = (inr streaming_pacifica,
     [EmitLog [T "["; T "Pacifica"; T "] "; T "Data poll failed: "; T "Price";
               T " poll failed: "; V (PStr "API key is not set")] ERROR]).
Proof. vm_compute. reflexivity. Qed.

(** The Lighter poll with no connectivity: the first request fails, the
    error is logged as a network error and streaming stops. *)
Example lighter_poll_offline :
  run (Lighter._poll_data sample_runtime offline streaming_lighter)
  = (inr (Base.set_timer streaming_lighter false),
     [Http {| req_method := "GET";
              req_url := "https://mainnet.zklighter.elliot.ai/api/v2/market/summary?market=BTC-PERP";
              req_headers := []; req_params := None; req_json := None |};
      EmitLog [T "["; T "Lighter"; T "] "; T "Network error during poll: ";
               T "Connection refused"] ERROR;
      EmitLog [T "["; T "Lighter"; T "] "; T "Real-data polling stopped."] INFO]).
Proof. vm_compute. reflexivity. Qed.

(** ** Validation and network calls of [connect] *)

Section LighterConnect.
Variables (rt : Runtime) (W : World) (a : Lighter.LighterAPI) (creds : ApiCredentials).

Lemma lighter_connect_rejects :
  Lighter.no_account_id creds || Lighter.no_l1_address creds = true ->
  fst (run (Lighter.connect rt W a creds)) = inr (a, false)
  /\ http_calls (snd (run (Lighter.connect rt W a creds))) = [].
Proof.
  intros H. unfold run, Lighter.connect, bind, Lighter.log, emit; simpl.
  rewrite H. split; reflexivity.
Qed.

Lemma lighter_connect_calls_once :
  Lighter.no_account_id creds = false ->
  Lighter.no_l1_address creds = false ->
  apiKey creds <> EmptyString ->
  apiSecret creds <> EmptyString ->
  exists rq msg lvl,
    snd (run (Lighter.connect rt W a creds))
    = [EmitLog (Base.tag a ++ [T "Connecting with API Key ";
                               T (substring 0 5 (apiKey creds)); T "..."])%list INFO;
       Http rq; EmitLog msg lvl]
    /\ req_method rq = "GET"
    /\ req_url rq = Lighter.BASE_URL ++ "/api/v2/account/collateral".
Proof.
  intros Hid Hl1 Hk Hs.
  unfold run, Lighter.connect, bind, Lighter.log, emit; simpl.
  rewrite Hid, Hl1; simpl.
  unfold attempt, bind, Lighter.get_account_collateral, Lighter._get_private, bind.
  rewrite get_auth_headers_run by (simpl; assumption).
  unfold Lighter.call, send, bind, emit, ret, raise, lift; simpl.
  match goal with
  | |- context [Http ?r] => exists r
  end.
  destruct (net W _) as [detail | r]; simpl.
  - do 2 eexists. repeat split.
  - destruct (Lighter._handle_response r) as [e | response]; simpl.
    + do 2 eexists. repeat split.
    + destruct (py_truthy response); simpl.
      * destruct (py_contains "balance" response) as [e | [ | ]]; simpl;
          try solve [do 2 eexists; repeat split].
        destruct (py_getitem response "balance"); simpl; do 2 eexists; repeat split.
      * do 2 eexists; repeat split.
Qed.

Lemma lighter_connect_at_most_one_call :
  List.length (http_calls (snd (run (Lighter.connect rt W a creds)))) <= 1.
Proof.
  destruct (Lighter.no_account_id creds || Lighter.no_l1_address creds) eqn:Hv.
  - destruct (lighter_connect_rejects Hv) as [_ H]. rewrite H. simpl. lia.
  - apply orb_false_iff in Hv. destruct Hv as [Hid Hl1].
    destruct (String.eqb (apiKey creds) EmptyString
              || String.eqb (apiSecret creds) EmptyString) eqn:Hks.
    + unfold run, Lighter.connect, bind, Lighter.log, emit; simpl.
      rewrite Hid, Hl1; simpl.
      unfold attempt, bind, Lighter.get_account_collateral, Lighter._get_private, bind,
        Lighter._get_auth_headers; simpl.
      rewrite Hks. simpl. lia.
    + apply orb_false_iff in Hks. destruct Hks as [Hk Hs].
      apply String.eqb_neq in Hk. apply String.eqb_neq in Hs.
      destruct (lighter_connect_calls_once Hid Hl1 Hk Hs) as (rq & msg & lvl & H & _).
      rewrite H. simpl. lia.
Qed.
End LighterConnect.

Section PacificaConnect.
Variables (rt : Runtime) (W : World) (sign : signer).
Hypothesis sign_sound : sound_signer sign.
Variables (a : Pacifica.PacificaAPI) (creds : ApiCredentials).

Lemma pacifica_connect_rejects :
  apiKey creds = EmptyString \/ apiSecret creds = EmptyString ->
  fst (run (Pacifica.connect rt W sign a creds)) = inr (Base.set_client a None, false)
  /\ http_calls (snd (run (Pacifica.connect rt W sign a creds))) = [].
Proof.
  intros H. unfold run, Pacifica.connect, bind, Pacifica.log, emit; simpl.
  unfold attempt, bind, lift, Pacifica.new_Client, Pacifica.check_api_keys.
  destruct (String.eqb (apiKey creds) EmptyString) eqn:Hk; simpl.
  - split; reflexivity.
  - destruct (String.eqb (apiSecret creds) EmptyString) eqn:Hs; simpl.
    + split; reflexivity.
    + apply String.eqb_neq in Hk. apply String.eqb_neq in Hs. tauto.
Qed.

(** The trace of [connect]: the opening log, at most one request, and one
    closing log. *)
Lemma pacifica_connect_trace :
  exists tr msg lvl,
    snd (run (Pacifica.connect rt W sign a creds))
    = (EmitLog (Base.tag a ++ [T "Connecting with API Key ";
                               T (substring 0 5 (apiKey creds)); T "..."])%list INFO
         :: tr ++ [EmitLog msg lvl])%list
    /\ (tr = [] \/ exists rq, tr = [Http rq]).
Proof.
  unfold run, Pacifica.connect, bind, Pacifica.log, emit; simpl.
  unfold attempt, bind, lift, Pacifica.new_Client, Pacifica.check_api_keys.
  destruct (String.eqb (apiKey creds) EmptyString); simpl;
    [exists []; do 2 eexists; split; [reflexivity | left; reflexivity] |].
  destruct (String.eqb (apiSecret creds) EmptyString); simpl;
    [exists []; do 2 eexists; split; [reflexivity | left; reflexivity] |].
  unfold Pacifica.get_server_time, Pacifica._request, Pacifica._request_with, bind, attempt.
  match goal with
  | |- context [sign ?pk ?r ?m ?p ?s] =>
      destruct (sign_sound pk r m p s) as [Htr Hv];
      destruct (sign pk r m p s) as [[e | [sg ts]] s'] eqn:Esign
  end; simpl in *.
  - rewrite (Hv e eq_refl); simpl. rewrite Htr.
    exists []; do 2 eexists; split; [reflexivity | left; reflexivity].
  - unfold send, bind, emit, ret; simpl. rewrite Htr.
    match goal with
    | |- context [Http ?r] => exists [Http r]
    end.
    destruct (py_contains "serverTime" (Pacifica.decode (net W _))) as [e | [ | ]]; simpl.
    + do 2 eexists; split; [reflexivity | right; eexists; reflexivity].
    + destruct (py_getitem (Pacifica.decode (net W _)) "serverTime"); simpl;
        do 2 eexists; (split; [reflexivity | right; eexists; reflexivity]).
    + destruct (py_get (Pacifica.decode (net W _)) "error" (PStr "Unknown error")); simpl;
        do 2 eexists; (split; [reflexivity | right; eexists; reflexivity]).
Qed.

Lemma pacifica_connect_at_most_one_call :
  List.length (http_calls (snd (run (Pacifica.connect rt W sign a creds)))) <= 1.
Proof.
  destruct pacifica_connect_trace as (tr & msg & lvl & H & [-> | [rq ->]]);
    rewrite H; simpl; lia.
Qed.

(** [connect] never reads the wallet address: another address gives the
    same trace and the same verdict. *)
Lemma pacifica_connect_ignores_address (addr : option string) :
  snd (run (Pacifica.connect rt W sign a (with_address creds addr)))
  = snd (run (Pacifica.connect rt W sign a creds))
  /\ verdict (fst (run (Pacifica.connect rt W sign a (with_address creds addr))))
     = verdict (fst (run (Pacifica.connect rt W sign a creds))).
Proof.
  unfold run, Pacifica.connect, bind, Pacifica.log, emit; simpl.
  unfold attempt, bind, lift, Pacifica.new_Client, Pacifica.check_api_keys.
  destruct (String.eqb (apiKey creds) EmptyString); simpl; [split; reflexivity |].
  destruct (String.eqb (apiSecret creds) EmptyString); simpl; [split; reflexivity |].
  unfold Pacifica.get_server_time, Pacifica._request, Pacifica._request_with, bind, attempt;
    simpl.
  match goal with
  | |- context [sign ?pk ?r ?m ?p ?s] =>
      destruct (sign pk r m p s) as [[e | [sg ts]] s']
  end; simpl.
  - destruct (is_ValueError (exn_class e)); simpl; split; reflexivity.
  - unfold send, bind, emit, ret; simpl.
    destruct (py_contains "serverTime" (Pacifica.decode (net W _))) as [e | [ | ]]; simpl.
    + split; reflexivity.
    + destruct (py_getitem (Pacifica.decode (net W _)) "serverTime"); simpl;
        split; reflexivity.
    + destruct (py_get (Pacifica.decode (net W _)) "error" (PStr "Unknown error")); simpl;
        split; reflexivity.
Qed.
End PacificaConnect.

(** As shipped, [PacificaAPI.connect] never reaches the network and never
    succeeds, whatever the credentials and whatever the exchange would
    answer: the signature of its server-time request fails first. *)
Lemma pacifica_connect_as_shipped
  (rt : Runtime) (W : World) (a : Pacifica.PacificaAPI) (creds : ApiCredentials) :
  fst (run (Pacifica.connect rt W (Pacifica.create_signature rt W) a creds))
  = inr (Base.set_client a None, false)
  /\ http_calls (snd (run (Pacifica.connect rt W (Pacifica.create_signature rt W) a creds)))
     = [].
Proof.
  unfold run, Pacifica.connect, bind, Pacifica.log, emit; simpl.
  unfold attempt, bind, lift, Pacifica.new_Client, Pacifica.check_api_keys.
  destruct (String.eqb (apiKey creds) EmptyString); simpl; [split; reflexivity |].
  destruct (String.eqb (apiSecret creds) EmptyString); simpl; split; reflexivity.
Qed.

(** C4.  With the key, the secret and the wallet address all present (the
    form of the main window accepts them) and an exchange that would
    answer, [PacificaAPI.connect] makes no network call and returns
    [False]: it builds the client and asks for the server time, and the
    request is lost at [create_signature]. *)
Lemma C4_pacifica_connect_makes_no_call :
  fst (run (Pacifica.connect sample_runtime reachable
              (Pacifica.create_signature sample_runtime reachable)
              (Pacifica.new "Pacifica") sample_pacifica_creds))
  = inr (Pacifica.new "Pacifica", false)
  /\ http_calls (snd (run (Pacifica.connect sample_runtime reachable
                             (Pacifica.create_signature sample_runtime reachable)
                             (Pacifica.new "Pacifica") sample_pacifica_creds)))
     = []
  /\ Main.save_accepts PACIFICA sample_pacifica_creds = true.
Proof. repeat split. Qed.

(** Under a signer that signs, [PacificaAPI.connect] succeeds without any
    wallet address: the address is not among the fields it checks. *)
Example pacifica_connect_without_address :
  verdict (fst (run (Pacifica.connect sample_runtime reachable (working_signer reachable)
                       (Pacifica.new "Pacifica")
                       (with_address sample_pacifica_creds None))))
  = Some true.
Proof. reflexivity. Qed.

(** [LighterAPI.connect] checks the account id and the L1 address first:
    when either is missing it returns [False] without a network call, and
    when both are present and the key and the secret are set it makes
    exactly one call; it never makes more than one.
    [PacificaAPI.connect], for any signer that emits nothing and raises only
    [ValueError], checks that the key and the secret are not empty before
    anything else, returning [False] without a call when one is; it never
    makes more than one call; and it does not read the wallet address,
    which changes neither its trace nor its verdict. *)
Lemma connect_checks_fields_and_never_retries
  (rt : Runtime) (W : World) (sign : signer) :
  sound_signer sign ->
  (forall (a : Lighter.LighterAPI) (creds : ApiCredentials),
     Lighter.no_account_id creds || Lighter.no_l1_address creds = true ->
     fst (run (Lighter.connect rt W a creds)) = inr (a, false)
     /\ http_calls (snd (run (Lighter.connect rt W a creds))) = [])
  /\ (forall (a : Lighter.LighterAPI) (creds : ApiCredentials),
        Lighter.no_account_id creds = false ->
        Lighter.no_l1_address creds = false ->
        apiKey creds <> EmptyString ->
        apiSecret creds <> EmptyString ->
        List.length (http_calls (snd (run (Lighter.connect rt W a creds)))) = 1)
  /\ (forall (a : Lighter.LighterAPI) (creds : ApiCredentials),
        List.length (http_calls (snd (run (Lighter.connect rt W a creds)))) <= 1)
  /\ (forall (a : Pacifica.PacificaAPI) (creds : ApiCredentials),
        apiKey creds = EmptyString \/ apiSecret creds = EmptyString ->
        fst (run (Pacifica.connect rt W sign a creds)) = inr (Base.set_client a None, false)
        /\ http_calls (snd (run (Pacifica.connect rt W sign a creds))) = [])
  /\ (forall (a : Pacifica.PacificaAPI) (creds : ApiCredentials),
        List.length (http_calls (snd (run (Pacifica.connect rt W sign a creds)))) <= 1)
  /\ (forall (a : Pacifica.PacificaAPI) (creds : ApiCredentials) (addr : option string),
        snd (run (Pacifica.connect rt W sign a (with_address creds addr)))
        = snd (run (Pacifica.connect rt W sign a creds))
        /\ verdict (fst (run (Pacifica.connect rt W sign a (with_address creds addr))))
           = verdict (fst (run (Pacifica.connect rt W sign a creds)))).
Proof.
  intros Hs. repeat apply conj.
  - intros a creds. apply lighter_connect_rejects.
  - intros a creds Hid Hl1 Hk Hsec.
    destruct (lighter_connect_calls_once rt W a creds Hid Hl1 Hk Hsec)
      as (rq & msg & lvl & H & _).
    rewrite H. reflexivity.
  - intros a creds. apply lighter_connect_at_most_one_call.
  - intros a creds. apply pacifica_connect_rejects.
  - intros a creds. apply (pacifica_connect_at_most_one_call rt W sign Hs).
  - intros a creds addr. apply pacifica_connect_ignores_address.
Qed.

(** One call for the sample Lighter credentials, at most one for the sample
    Pacifica credentials. *)
Lemma connect_checks_fields_and_never_retries_on_samples :
  List.length
    (http_calls (snd (run (Lighter.connect sample_runtime reachable (Lighter.new "Lighter")
                             sample_lighter_creds)))) = 1
  /\ List.length
       (http_calls (snd (run (Pacifica.connect sample_runtime reachable
                                (Pacifica.create_signature sample_runtime reachable)
                                (Pacifica.new "Pacifica") sample_pacifica_creds)))) <= 1.
Proof.
  destruct (connect_checks_fields_and_never_retries sample_runtime reachable
              (Pacifica.create_signature sample_runtime reachable)
              (create_signature_sound sample_runtime reachable))
    as (_ & Hone & _ & _ & Hmost & _).
  split.
  - apply Hone; [reflexivity | reflexivity | discriminate | discriminate].
  - apply Hmost.
Defined.

(** ** The statements above on concrete inputs *)

(** Three ticks with sides that differ.  A LONG 1 against B SHORT 1: no
    order.  A SHORT 1 against B LONG 0.25: [d = -0.75], one LONG order of
    0.75 on the follower.  A with direction NONE against B LONG 0.5:
    [d = 0.5], one SHORT order of 0.5, the call of the adapter raising. *)
Lemma C1_witness :
  Workers.orders_issued (fst (Workers.check_balance hedged_worker None)) = []
  /\ Workers.orders_issued (fst (Workers.check_balance short_leader_worker None))
     = [Workers.CreateOrder sample_api_b BTC MKT LONG 0.75 None]
  /\ Workers.orders_issued
       (fst (Workers.check_balance flat_leader_worker
               (Some {| exn_class := Exception_; exn_msg := [T "rejected"] |})))
     = [Workers.CreateOrder sample_api_b BTC MKT SHORT 0.5 None].
Proof.
  split; [| split].
  - exact (proj1 (C1_corrective_order hedged_worker
                    (holding "Pacifica" LONG 1) (holding "Lighter" SHORT 1)
                    sample_api_b None eq_refl eq_refl eq_refl) eq_refl).
  - exact (proj2 (C1_corrective_order short_leader_worker
                    (holding "Pacifica" SHORT 1) (holding "Lighter" LONG 0.25)
                    sample_api_b None eq_refl eq_refl eq_refl) eq_refl).
  - exact (proj2 (C1_corrective_order flat_leader_worker
                    (holding "Pacifica" NONE 3) (holding "Lighter" LONG 0.5)
                    sample_api_b (Some {| exn_class := Exception_; exn_msg := [T "rejected"] |})
                    eq_refl eq_refl eq_refl) eq_refl).
Defined.

(** The headers of the cancel-all request of a sample client. *)
Lemma C5_witness :
  fst (Lighter._get_auth_headers sample_runtime offline sample_lighter_client "delete"
         "/api/v2/account/orders/all" (Some cancel_all_body) start)
  = inr [("Content-Type", "application/json");
         ("X-Api-Key", "lk-live-1");
         ("X-Timestamp", "1700000000000");
         ("X-Signature",
          hmac_sha256_hexdigest sample_runtime "s3cret"
            ("1700000000000" ++ "DELETE" ++ "/api/v2/account/orders/all"
               ++ json_dumps sample_runtime (PDict cancel_all_body)))].
Proof.
  refine (proj1 (C5_auth_headers sample_runtime offline sample_lighter_client "delete"
                   "/api/v2/account/orders/all" (Some cancel_all_body) [] start _ _));
    discriminate.
Defined.

(** Two new Lighter orders replace the stored one; the Pacifica orders stay. *)
Lemma C7_witness :
  Main.orders_of LIGHTER
    (Main.open_orders (Main.on_orders_update sample_store LIGHTER
                         [sample_order 4 LIGHTER; sample_order 5 LIGHTER]))
  = [sample_order 4 LIGHTER; sample_order 5 LIGHTER]
  /\ Main.orders_of PACIFICA
       (Main.open_orders (Main.on_orders_update sample_store LIGHTER
                            [sample_order 4 LIGHTER; sample_order 5 LIGHTER]))
     = [sample_order 1 PACIFICA; sample_order 3 PACIFICA].
Proof.
  destruct (C7_orders_replaced_per_exchange sample_store LIGHTER
              [sample_order 4 LIGHTER; sample_order 5 LIGHTER])
    as (Hown & Hother & _).
  - repeat constructor.
  - split; [exact Hown |].
    rewrite (Hother PACIFICA); [reflexivity | discriminate].
Defined.

(** A corrective order on adapters that never connected. *)
Lemma C10_witness :
  run (Pacifica.create_order sample_runtime offline
         (Pacifica.create_signature sample_runtime offline)
         (Pacifica.new "Pacifica") BTC MKT SHORT 2 None) = (inr tt, [])
  /\ run (Lighter.create_order sample_runtime offline (Lighter.new "Lighter")
            BTC MKT SHORT 2 None) = (inr tt, []).
Proof.
  destruct (C10_unconnected_calls_are_silent sample_runtime offline
              (Pacifica.create_signature sample_runtime offline)
              (Pacifica.new "Pacifica") (Lighter.new "Lighter")
              BTC 5%Z MKT SHORT 2%float None "17" eq_refl eq_refl)
    as ((_ & Hp & _ & _ & _ & Hl & _) & _).
  split; [exact Hp | exact Hl].
Defined.

(** The other scenarios of the specification. *)
Example scenario_2 :
  Workers.orders_issued
    (fst (Workers.check_balance
            (Workers.update_states waiting_worker
               (Some {| name := "Pacifica";
                        position := {| direction := SHORT; quantity := 0.5;
                                       entryPrice := 50000 |};
                        pnl := 0; balance := 100; currency := "USDC"; leverage := 5 |})
               (Some {| name := "Lighter";
                        position := {| direction := NONE; quantity := 0; entryPrice := 0 |};
                        pnl := 0; balance := 100; currency := "USDT"; leverage := 5 |}))
            None))
  = [Workers.CreateOrder sample_api_b BTC MKT LONG 0.5 None].
Proof. reflexivity. Qed.

Example scenario_3 :
  Workers.check_balance
    (Workers.update_states waiting_worker
       (Some {| name := "Pacifica";
                position := {| direction := LONG; quantity := 2; entryPrice := 50000 |};
                pnl := 0; balance := 100; currency := "USDC"; leverage := 5 |})
       (Some {| name := "Lighter";
                position := {| direction := SHORT; quantity := 2; entryPrice := 50000 |};
                pnl := 0; balance := 100; currency := "USDT"; leverage := 5 |}))
    None
  = ([], None).
Proof. reflexivity. Qed.

Example scenario_4 :
  Workers.check_balance
    (Workers.update_states waiting_worker
       (Some {| name := "Pacifica";
                position := {| direction := LONG; quantity := 0.0000005;
                               entryPrice := 50000 |};
                pnl := 0; balance := 100; currency := "USDC"; leverage := 5 |})
       (Some {| name := "Lighter";
                position := {| direction := NONE; quantity := 0; entryPrice := 0 |};
                pnl := 0; balance := 100; currency := "USDT"; leverage := 5 |}))
    None
  = ([], None).
Proof. reflexivity. Qed.

(** The worker of scenario 1: a nap of 100 ms between ticks, the cooldown
    of 3 s after its correction, and a stop requested meanwhile honoured
    at the next test. *)
Lemma C8_witness :
  Workers.step drifting_worker None (Workers.Napping 0)
  = ([Workers.MSleep 100], Workers.Napping (0 + 0.1)%float)
  /\ Workers.sleeps (fst (Workers.step drifting_worker None Workers.Head)) = [Workers.Sleep 3]
  /\ Workers.blocked_ms (fst (Workers.step drifting_worker None Workers.Head)) = 3000%float
  /\ Workers.step stopped_worker None (snd (Workers.step drifting_worker None Workers.Head))
     = ([], Workers.Head)
  /\ Workers.step stopped_worker None Workers.Head = ([], Workers.Finished).
Proof.
  destruct (C8_flag_polled_between_ticks_not_in_cooldown drifting_worker None 0%float
              sample_api_a sample_api_b (long_one "Pacifica") (long_one "Lighter")
              eq_refl eq_refl eq_refl eq_refl)
    as (Hnap & (_ & Hend) & Htick).
  destruct (Htick eq_refl) as (_ & Hcool & _ & Hstop).
  destruct (Hcool ltac:(discriminate) eq_refl) as (Hsleep & Hblock).
  split; [exact (proj1 (Hnap eq_refl eq_refl)) |].
  split; [exact Hsleep |].
  split; [exact Hblock |].
  split; [exact Hstop | exact Hend].
Defined.

(** ** The orders an adapter reports *)

(** Every order an adapter translates carries the adapter's own exchange
    identity. *)
Lemma pacifica_orders_tagged (rt : Runtime) (a : Pacifica.PacificaAPI)
    (l : list pyval) (os : list Order) :
  Pacifica.translate_orders rt a l = inr os ->
  Forall (fun o => exchangeId o = Base.ex_id a) os.
Proof.
  revert os. induction l as [| o l IH]; simpl; intros os H.
  - injection H as <-. constructor.
  - destruct (Pacifica.translate_order rt a o) as [e | py_order] eqn:Eo; simpl in H;
      [discriminate H |].
    destruct (Pacifica.translate_orders rt a l) as [e | rest]; simpl in H;
      [discriminate H |].
    injection H as <-. constructor; [| apply IH; reflexivity].
    unfold Pacifica.translate_order in Eo.
    repeat peel Eo. injection Eo as <-. reflexivity.
Qed.

Lemma lighter_orders_tagged (rt : Runtime) (a : Lighter.LighterAPI)
    (l : list pyval) (os : list Order) :
  Lighter.translate_orders rt a l = inr os ->
  Forall (fun o => exchangeId o = Base.ex_id a) os.
Proof.
  revert os. induction l as [| o l IH]; simpl; intros os H.
  - injection H as <-. constructor.
  - destruct (Lighter.translate_order rt a o) as [e | py_order] eqn:Eo; simpl in H;
      [discriminate H |].
    destruct (Lighter.translate_orders rt a l) as [e | rest]; simpl in H;
      [discriminate H |].
    injection H as <-. constructor; [| apply IH; reflexivity].
    unfold Lighter.translate_order in Eo.
    repeat peel Eo. injection Eo as <-. reflexivity.
Qed.

(** ** Failure handling of the Lighter poll *)

Section LighterPoll.
Variables (rt : Runtime) (W : World).

Lemma fetches_ret {A} (R : A -> Prop) (a : A) : R a -> fetches W R (ret a).
Proof. intros Ha s Hs. simpl. split; assumption. Qed.

Lemma fetches_lift {A} (R : A -> Prop) (r : result A) :
  benign r -> (forall a, r = inr a -> R a) -> fetches W R (lift r).
Proof.
  intros Hb HR s Hs. unfold lift; simpl. destruct r as [e | a]; simpl in *.
  - left. split; assumption.
  - split; [assumption | apply HR; reflexivity].
Qed.

Lemma fetches_raise {A} (R : A -> Prop) (c : exc_class) (msg : text) :
  is_RequestException c = false -> fetches W R (raise c msg).
Proof. intros Hc s Hs. simpl. left. split; assumption. Qed.

Lemma fetches_emit (e : event) : fine W e -> fetches W anything (emit e).
Proof.
  intros He s Hs. simpl. split; [| exact Logic.I].
  apply Forall_app. split; [assumption | repeat constructor; assumption].
Qed.

Lemma fetches_bind {A B} (R : A -> Prop) (Q : B -> Prop) (m : M A) (k : A -> M B) :
  fetches W R m -> (forall a, R a -> fetches W Q (k a)) -> fetches W Q (bind m k).
Proof.
  intros Hm Hk s Hs. unfold bind. specialize (Hm s Hs).
  destruct (m s) as [[e | a] s']; simpl in *.
  - exact Hm.
  - destruct Hm as [Hs' Ha]. apply (Hk a Ha s' Hs').
Qed.

Lemma fetches_weaken {A} (R R' : A -> Prop) (m : M A) :
  fetches W R m -> (forall a, R a -> R' a) -> fetches W R' m.
Proof.
  intros Hm HR s Hs. specialize (Hm s Hs).
  destruct (fst (m s)); [exact Hm |]. destruct Hm; split; auto.
Qed.

Lemma benign_handle_response (r : response) : benign (Lighter._handle_response r).
Proof.
  unfold Lighter._handle_response.
  destruct (status_error r); destruct (body r) as [d | v]; simpl; auto.
  destruct (py_get v "error" (PStr s)) eqn:E; simpl; auto.
  pose proof (benign_get v "error" (PStr s)) as H. rewrite E in H. exact H.
Qed.

Lemma handle_response_ok (r : response) (v : pyval) :
  Lighter._handle_response r = inr v ->
  r = {| status_error := None; body := inr v |}.
Proof.
  unfold Lighter._handle_response. destruct r as [[e |] [d | v']]; simpl.
  - discriminate.
  - destruct (py_get v' "error" (PStr e)); discriminate.
  - discriminate.
  - intros H. injection H as <-. reflexivity.
Qed.

(** A call of [requests]: it returns when the request went well; every
    other outcome raises with the request as the last event. *)
Lemma fetches_call (rq : request) : fetches W anything (Lighter.call W rq).
Proof.
  intros s Hs. unfold Lighter.call, send, bind, emit, ret, raise, lift; simpl.
  destruct (net W rq) as [detail | r] eqn:Hnet; simpl.
  - right. exists (trace s), rq. repeat split; try assumption.
    left. split; [exists detail; assumption | reflexivity].
  - destruct (Lighter._handle_response r) as [e | v] eqn:Hr; simpl.
    + right. exists (trace s), rq. repeat split; try assumption.
      right. split; [exists r; assumption |].
      pose proof (benign_handle_response r) as Hb. rewrite Hr in Hb. exact Hb.
    + split; [| exact Logic.I].
      apply Forall_app. split; [assumption |].
      repeat constructor. simpl. exists v.
      rewrite Hnet. rewrite (handle_response_ok r v Hr). reflexivity.
Qed.

Lemma fetches_headers (c : Lighter.Client) (method endpoint : string)
    (data : option (list (string * pyval))) :
  fetches W anything (Lighter._get_auth_headers rt W c method endpoint data).
Proof.
  intros s Hs. unfold Lighter._get_auth_headers.
  destruct (String.eqb (Lighter.api_key c) EmptyString
            || String.eqb (Lighter.api_secret c) EmptyString); simpl.
  - left. split; [assumption | reflexivity].
  - split; [assumption | exact Logic.I].
Qed.

Lemma fetches_get_private (c : Lighter.Client) (endpoint : string)
    (params : list (string * pyval)) :
  fetches W anything (Lighter._get_private rt W c endpoint params).
Proof.
  unfold Lighter._get_private.
  apply (fetches_bind anything); [apply fetches_headers | intros headers _].
  apply fetches_call.
Qed.

Lemma fetches_market_price (c : Lighter.Client) (market_name : string) :
  fetches W anything (Lighter.get_market_price W c market_name).
Proof.
  unfold Lighter.get_market_price, Lighter._get.
  apply (fetches_bind anything); [apply fetches_call | intros data _].
  apply (fetches_bind anything).
  - apply fetches_lift; [| intros; exact Logic.I].
    destruct (py_truthy data); [apply benign_contains | exact Logic.I].
  - intros found _. destruct found.
    + apply (fetches_bind anything).
      * apply fetches_lift; [apply benign_getitem | intros; exact Logic.I].
      * intros mp _. apply fetches_ret. exact Logic.I.
    + apply fetches_raise. reflexivity.
Qed.

Lemma benign_open_only (l : list pyval) : benign (Lighter.open_only l).
Proof.
  induction l as [| o l IH]; simpl; [exact Logic.I |].
  apply benign_rbind; [apply benign_get | intros st].
  apply benign_rbind; [exact IH | intros; exact Logic.I].
Qed.

Lemma fetches_get_orders (c : Lighter.Client) (market_name status : string) :
  fetches W anything (Lighter.get_orders rt W c market_name status).
Proof.
  unfold Lighter.get_orders.
  apply (fetches_bind anything); [apply fetches_get_private | intros all_orders _].
  destruct (String.eqb status "OPEN").
  - apply (fetches_bind anything).
    + apply fetches_lift; [| intros; exact Logic.I].
      apply benign_rbind; [apply benign_iter | intros; apply benign_open_only].
    + intros l _. apply fetches_ret. exact Logic.I.
  - apply fetches_ret. exact Logic.I.
Qed.

Lemma benign_lighter_state (a : Lighter.LighterAPI) (cd pd : pyval) :
  benign (Lighter.translate_state rt a cd pd).
Proof. unfold Lighter.translate_state. benign_chain. Qed.

Lemma benign_lighter_order (a : Lighter.LighterAPI) (o : pyval) :
  benign (Lighter.translate_order rt a o).
Proof. unfold Lighter.translate_order. benign_chain. Qed.

Lemma benign_lighter_orders (a : Lighter.LighterAPI) (l : list pyval) :
  benign (Lighter.translate_orders rt a l).
Proof.
  induction l as [| o l IH]; simpl; [exact Logic.I |].
  apply benign_rbind; [apply benign_lighter_order | intros].
  apply benign_rbind; [exact IH | intros; exact Logic.I].
Qed.

Lemma fetches_poll_body (a : Lighter.LighterAPI) (c : Lighter.Client) :
  fetches W anything (Lighter.poll_body rt W a c).
Proof.
  unfold Lighter.poll_body.
  apply (fetches_bind anything); [apply fetches_market_price | intros price_data _].
  apply (fetches_bind anything).
  { apply fetches_lift; [| intros; exact Logic.I].
    apply benign_rbind; [apply benign_getitem | intros; apply benign_float]. }
  intros price _.
  apply (fetches_bind anything); [apply fetches_emit; exact Logic.I | intros _ _].
  apply (fetches_bind anything); [apply fetches_get_private | intros collateral_data _].
  apply (fetches_bind anything); [apply fetches_get_private | intros position_data _].
  apply (fetches_bind (fun st => position_invariant (position st))).
  { apply fetches_lift; [apply benign_lighter_state |].
    intros st Hst. apply (lighter_translate_state_invariant rt a _ _ st Hst). }
  intros state Hstate.
  apply (fetches_bind anything); [apply fetches_emit; exact Hstate | intros _ _].
  apply (fetches_bind anything); [apply fetches_get_orders | intros orders_data _].
  apply (fetches_bind (Forall (fun o => exchangeId o = Base.ex_id a))).
  { apply fetches_lift.
    - apply benign_rbind; [apply benign_iter | intros; apply benign_lighter_orders].
    - intros os Hos. destruct (py_iter orders_data) as [e | l]; simpl in Hos;
        [discriminate Hos |].
      apply (lighter_orders_tagged rt a l os Hos). }
  intros py_orders Htag. apply fetches_emit. exact Htag.
Qed.

Lemma fine_is_sound (tr : list event) : Forall (fine W) tr -> Forall sound_signal tr.
Proof.
  apply Forall_impl. intros [ | | | | rq | ]; simpl; auto.
Qed.

Lemma lighter_poll_ends (a : Lighter.LighterAPI) (c : Lighter.Client) :
  Base.client a = Some c ->
  Base.poll_timer_active a = true ->
  kept_streaming W a (run (Lighter._poll_data rt W a))
  \/ stopped_streaming W a (run (Lighter._poll_data rt W a)).
Proof.
  intros Hc Ht. unfold kept_streaming, stopped_streaming, run, Lighter._poll_data.
  rewrite Hc, Ht. unfold bind, attempt.
  pose proof (fetches_poll_body a c start (Forall_nil _)) as Hb.
  destruct (Lighter.poll_body rt W a c start) as [[e | u] s'] eqn:Ebody; simpl in *.
  - destruct Hb as [[Hfine Hcls] | (tr0 & rq & Htr & Hfine & [[[d Hd] Hcls] | [[r Hr] Hcls]])];
      rewrite Hcls; simpl.
    + left. split; [reflexivity |].
      exists (trace s'), [EmitLog (Base.tag a ++ T "Data poll failed: " :: exn_msg e)%list ERROR].
      repeat split; try assumption. right; left. eexists; reflexivity.
    + right. split; [reflexivity |].
      exists tr0, rq, d. eexists. rewrite Htr. rewrite <- !app_assoc. simpl.
      repeat split; try assumption; reflexivity.
    + left. split; [reflexivity |].
      exists tr0, [Http rq; EmitLog (Base.tag a ++ T "Data poll failed: " :: exn_msg e)%list ERROR].
      rewrite Htr. rewrite <- !app_assoc. simpl.
      repeat split; try assumption. right; right. exists rq, r. eexists.
      split; [reflexivity | assumption].
  - left. split; [reflexivity |]. destruct Hb as [Hfine _].
    exists (trace s'), []. rewrite app_nil_r. repeat split; try assumption.
    left; reflexivity.
Qed.

Lemma lighter_poll_sound (a : Lighter.LighterAPI) :
  Forall sound_signal (snd (run (Lighter._poll_data rt W a))).
Proof.
  destruct (Base.client a) as [c |] eqn:Hc.
  - destruct (Base.poll_timer_active a) eqn:Ht.
    + destruct (lighter_poll_ends a c Hc Ht)
        as [[_ (tr0 & tail & Htr & Hfine & Htail)] | [_ (tr0 & rq & d & msg & Htr & Hfine & _)]];
        rewrite Htr; apply Forall_app; split; try (apply fine_is_sound; assumption).
      * destruct Htail as [-> | [[msg ->] | (rq & r & msg & -> & _)]];
          repeat constructor.
      * repeat constructor.
    + unfold run, Lighter._poll_data. rewrite Hc, Ht. repeat constructor.
  - unfold run, Lighter._poll_data. rewrite Hc. repeat constructor.
Qed.
End LighterPoll.

Lemma lighter_poll_unreachable (rt : Runtime) (W : World) (a : Lighter.LighterAPI)
    (c : Lighter.Client) (detail : string) :
  Base.client a = Some c ->
  Base.poll_timer_active a = true ->
  net W (price_request c (Base.market_name a)) = Unreachable detail ->
  run (Lighter._poll_data rt W a)
  = (inr (Base.set_timer a false),
     [Http (price_request c (Base.market_name a));
      EmitLog (Base.tag a ++ [T "Network error during poll: "; T detail])%list ERROR;
      EmitLog (Base.tag a ++ [T "Real-data polling stopped."])%list INFO]).
Proof.
  intros Hc Ht Hnet. unfold run, Lighter._poll_data. rewrite Hc, Ht.
  unfold price_request in *.
  unfold bind, attempt, Lighter.poll_body, Lighter.get_market_price, Lighter._get,
    Lighter.call, send, bind, emit, ret, Lighter.opt_dict.
  cbv beta iota. rewrite Hnet. reflexivity.
Qed.

(** For [LighterAPI._poll_data] with a client and an active timer: every
    request before the first failure went well, the first failing fetch is
    the last request of the cycle, a connectivity failure logs the error
    and stops streaming, and every other failure (an error status, a body
    that is not JSON, a payload that cannot be read) is logged and leaves
    the adapter, timer included, as it was.  In particular the adapter
    keeps streaming when every request is answered, and a price request
    that finds no connectivity ends the cycle at once with streaming
    stopped. *)
Theorem lighter_poll_failure_handling
  (rt : Runtime) (W : World) (a : Lighter.LighterAPI) (c : Lighter.Client) :
  Base.client a = Some c ->
  Base.poll_timer_active a = true ->
  (kept_streaming W a (run (Lighter._poll_data rt W a))
   \/ stopped_streaming W a (run (Lighter._poll_data rt W a)))
  /\ ((forall rq, exists r, net W rq = Responded r) ->
      fst (run (Lighter._poll_data rt W a)) = inr a)
  /\ (forall detail,
        net W (price_request c (Base.market_name a)) = Unreachable detail ->
        run (Lighter._poll_data rt W a)
        = (inr (Base.set_timer a false),
           [Http (price_request c (Base.market_name a));
            EmitLog (Base.tag a ++ [T "Network error during poll: "; T detail])%list ERROR;
            EmitLog (Base.tag a ++ [T "Real-data polling stopped."])%list INFO])).
Proof.
  intros Hc Ht. repeat apply conj.
  - apply (lighter_poll_ends rt W a c Hc Ht).
  - intros Hall.
    destruct (lighter_poll_ends rt W a c Hc Ht)
      as [[H _] | [_ (tr0 & rq & detail & msg & _ & _ & Hnet)]]; [exact H |].
    destruct (Hall rq) as [r Hr]. rewrite Hr in Hnet. discriminate Hnet.
  - intros detail. apply (lighter_poll_unreachable rt W a c detail Hc Ht).
Qed.

(** The offline world: the poll stops streaming after its first request. *)
Lemma lighter_poll_failure_handling_witness :
  run (Lighter._poll_data sample_runtime offline streaming_lighter)
  = (inr (Base.set_timer streaming_lighter false),
     [Http (price_request sample_lighter_client "BTC-PERP");
      EmitLog [T "["; T "Lighter"; T "] "; T "Network error during poll: ";
               T "Connection refused"] ERROR;
      EmitLog [T "["; T "Lighter"; T "] "; T "Real-data polling stopped."] INFO]).
Proof.
  exact (proj2 (proj2 (lighter_poll_failure_handling sample_runtime offline streaming_lighter
                         sample_lighter_client eq_refl eq_refl))
           "Connection refused" eq_refl).
Defined.

(** Whatever the exchange answers, every account state
    [LighterAPI._poll_data] emits has direction NONE exactly when its
    quantity is zero, and every order of an order list it emits carries the
    exchange identity the list is emitted under. *)
Theorem lighter_poll_signals_are_sound
  (rt : Runtime) (W : World) (a : Lighter.LighterAPI) :
  Forall sound_signal (snd (run (Lighter._poll_data rt W a))).
Proof. apply lighter_poll_sound. Qed.

(** An account-state update replaces the entry of its exchange and no
    other, leaves orders and prices alone, and sends the worker the pair of
    states of the two selected exchanges as the updated store has them,
    [None] standing for a side that is not selected or not known yet. *)
Theorem state_update_replaces_and_pushes
  (m : Main.MainWindow) (ex : ExchangeId) (st : ExchangeState) :
  let m' := fst (Main.on_state_update m ex st) in
  Main.exchange_states m' ex = Some st
  /\ (forall ex', ex' <> ex -> Main.exchange_states m' ex' = Main.exchange_states m ex')
  /\ Main.open_orders m' = Main.open_orders m
  /\ Main.prices m' = Main.prices m
  /\ snd (Main.on_state_update m ex st)
     = (match Main.selected_A m with Some x => Main.exchange_states m' x | None => None end,
        match Main.selected_B m with Some x => Main.exchange_states m' x | None => None end).
Proof.
  simpl. unfold Main.update. repeat split.
  - destruct ex; reflexivity.
  - intros ex' Hne. destruct ex', ex; simpl; congruence.
Qed.

(** ** One tick of the worker *)

(** A tick issues at most one order; it issues none and does nothing at all
    when a state is missing; it sleeps only in the cooldown, which follows
    a submitted order and nothing else; and no exception leaves it while
    the follower adapter is set, whether [create_order] raises or not. *)
Theorem tick_orders_and_cooldown (w : Workers.AutoBalanceWorker) (r : option exn) :
  List.length (Workers.orders_issued (fst (Workers.check_balance w r))) <= 1
  /\ (Workers._state_a w = None \/ Workers._state_b w = None ->
      Workers.check_balance w r = ([], None))
  /\ (Workers.sleeps (fst (Workers.check_balance w r)) = []
      \/ Workers.sleeps (fst (Workers.check_balance w r)) = [Workers.Sleep 3]
         /\ r = None
         /\ List.length (Workers.orders_issued (fst (Workers.check_balance w r))) = 1)
  /\ (Workers.api_b w <> None -> snd (Workers.check_balance w r) = None).
Proof.
  unfold Workers.check_balance.
  destruct (Workers._state_a w) as [sa |], (Workers._state_b w) as [sb |];
    try (repeat split; simpl; try lia; try (left; reflexivity); fail).
  destruct (Workers.epsilon <? abs _)%float;
    [| repeat split; simpl; try lia; try (left; reflexivity); intros [H | H]; discriminate H].
  destruct (Workers.api_b w) as [b |].
  - destruct r as [e |]; simpl.
    + repeat split; try lia; try (left; reflexivity). intros [H | H]; discriminate H.
    + repeat split; try lia; try (right; repeat split). intros [H | H]; discriminate H.
  - simpl. repeat split; try lia; try (left; reflexivity).
    + intros [H | H]; discriminate H.
    + intros H. exfalso. apply H. reflexivity.
Qed.

(** ** Stopping the worker *)

(** The loop of [run] ends exactly at a test of the flag that finds it
    down: a step reaches the end only from the head of the loop with
    [is_running] false (or from the end itself), and a nap never does. *)
Theorem loop_ends_only_on_stop
  (w : Workers.AutoBalanceWorker) (r : option exn) (c : Workers.pc) :
  snd (Workers.step w r c) = Workers.Finished
  <-> c = Workers.Finished \/ (c = Workers.Head /\ Workers.is_running w = false).
Proof.
  split.
  - destruct c as [ | t | ]; simpl.
    + destruct (Workers.is_running w); [| intros _; right; split; reflexivity].
      destruct (Workers.api_a w), (Workers.api_b w); simpl; try discriminate;
        destruct (Workers._state_a w), (Workers._state_b w); simpl; try discriminate;
        destruct (Workers.check_balance w r); simpl; discriminate.
    + destruct ((t <? Workers.interval w)%float && Workers.is_running w); discriminate.
    + intros _. left. reflexivity.
  - intros [-> | [-> H]]; simpl; [reflexivity |]. rewrite H. reflexivity.
Qed.

(** Once the flag is down the worker does nothing more: from any point of
    the loop it reaches the end within two tests of the flag, without a
    log, an order or a sleep. *)
Theorem stop_takes_effect_at_next_test
  (w : Workers.AutoBalanceWorker) (r : option exn) (c : Workers.pc) :
  Workers.is_running w = false ->
  fst (Workers.step w r c) = []
  /\ fst (Workers.step w r (snd (Workers.step w r c))) = []
  /\ snd (Workers.step w r (snd (Workers.step w r c))) = Workers.Finished.
Proof.
  intros H. destruct c as [ | t | ]; simpl; rewrite ?H; simpl; rewrite ?H;
    rewrite ?andb_false_r; simpl; rewrite ?H; repeat split; reflexivity.
Qed.

(** The stopped worker of scenario 1, taken in the middle of a nap. *)
Lemma stop_takes_effect_at_next_test_witness :
  fst (Workers.step stopped_worker None (Workers.Napping 1)) = []
  /\ fst (Workers.step stopped_worker None
            (snd (Workers.step stopped_worker None (Workers.Napping 1)))) = []
  /\ snd (Workers.step stopped_worker None
            (snd (Workers.step stopped_worker None (Workers.Napping 1)))) = Workers.Finished.
Proof.
  exact (stop_takes_effect_at_next_test stopped_worker None (Workers.Napping 1) eq_refl).
Defined.

(** ** Starting and stopping the stream *)

(** [start_streaming] makes no network call on either adapter.  Without a
    client it logs an error and changes nothing.  With a client it records
    the symbol and the market "<symbol>-PERP" and leaves the timer running;
    the poll it runs first finds the timer still inactive and only logs
    that polling stopped. *)
Theorem start_streaming_never_fetches
  (rt : Runtime) (W : World) (sign : signer)
  (p : Pacifica.PacificaAPI) (l : Lighter.LighterAPI) (sym : SupportedSymbol) :
  http_calls (snd (run (Pacifica.start_streaming rt W sign p sym))) = []
  /\ http_calls (snd (run (Lighter.start_streaming rt W l sym))) = []
  /\ fst (run (Pacifica.start_streaming rt W sign p sym))
     = inr (match Base.client p with
            | None => p
            | Some _ => Base.set_timer (Base.set_symbol p sym (symbol_value sym ++ "-PERP")) true
            end)
  /\ fst (run (Lighter.start_streaming rt W l sym))
     = inr (match Base.client l with
            | None => l
            | Some _ => Base.set_timer (Base.set_symbol l sym (symbol_value sym ++ "-PERP")) true
            end).
Proof.
  unfold run, Pacifica.start_streaming, Lighter.start_streaming,
    Pacifica._poll_data, Lighter._poll_data.
  destruct (Base.client p) as [cp |] eqn:Hp, (Base.client l) as [cl |] eqn:Hl; simpl;
    rewrite ?Hp, ?Hl;
    destruct (Base.poll_timer_active p) eqn:Tp, (Base.poll_timer_active l) eqn:Tl; simpl;
    repeat split; try reflexivity;
    destruct p, l; simpl in *; subst; reflexivity.
Qed.

(** A poll on an adapter that has no client, or whose timer is not active,
    makes no network call, emits no data and leaves the timer off; and
    stopping a stopped stream changes nothing. *)
Theorem poll_without_schedule_is_inert
  (rt : Runtime) (W : World) (sign : signer)
  (p : Pacifica.PacificaAPI) (l : Lighter.LighterAPI) :
  Base.client p = None \/ Base.poll_timer_active p = false ->
  Base.client l = None \/ Base.poll_timer_active l = false ->
  run (Pacifica._poll_data rt W sign p)
  = (inr (Base.set_timer p false),
     [EmitLog (Base.tag p ++ [T "Real-data polling stopped."])%list INFO])
  /\ run (Lighter._poll_data rt W l)
     = (inr (Base.set_timer l false),
        [EmitLog (Base.tag l ++ [T "Real-data polling stopped."])%list INFO])
  /\ fst (run (Lighter.stop_streaming (Base.set_timer l false)))
     = fst (run (Lighter.stop_streaming l))
  /\ fst (run (Pacifica.stop_streaming (Base.set_timer p false)))
     = fst (run (Pacifica.stop_streaming p)).
Proof.
  intros Hp Hl. unfold run, Pacifica._poll_data, Lighter._poll_data.
  repeat split.
  - destruct (Base.client p); [| reflexivity].
    destruct Hp as [Hp | Hp]; [discriminate Hp | rewrite Hp; reflexivity].
  - destruct (Base.client l); [| reflexivity].
    destruct Hl as [Hl | Hl]; [discriminate Hl | rewrite Hl; reflexivity].
Qed.

Lemma poll_without_schedule_is_inert_witness :
  run (Pacifica._poll_data sample_runtime reachable (working_signer reachable) idle_pacifica)
  = (inr idle_pacifica,
     [EmitLog [T "["; T "Pacifica"; T "] "; T "Real-data polling stopped."] INFO])
  /\ run (Lighter._poll_data sample_runtime reachable idle_lighter)
     = (inr idle_lighter,
        [EmitLog [T "["; T "Lighter"; T "] "; T "Real-data polling stopped."] INFO]).
Proof.
  destruct (poll_without_schedule_is_inert sample_runtime reachable (working_signer reachable)
              idle_pacifica idle_lighter (or_intror eq_refl) (or_intror eq_refl))
    as (Hp & Hl & _).
  split; [exact Hp | exact Hl].
Defined.

(** ** The Lighter client *)

(** [_handle_response] returns a value exactly for a success status with a
    JSON body, and the value is that body; every other response raises, and
    what it raises is never a [RequestException]. *)
Theorem handle_response_returns_the_body (r : response) :
  (forall v, Lighter._handle_response r = inr v
             <-> r = {| status_error := None; body := inr v |})
  /\ (forall e, Lighter._handle_response r = inl e
                -> is_RequestException (exn_class e) = false).
Proof.
  split.
  - intros v. split; [apply handle_response_ok |]. intros ->. reflexivity.
  - intros e He. pose proof (benign_handle_response r) as H.
    rewrite He in H. exact H.
Qed.

Lemma open_only_on_dicts (l : list pyval) :
  forallb is_dict l = true -> Lighter.open_only l = inr (filter has_open_status l).
Proof.
  induction l as [| o l IH]; simpl; [reflexivity |].
  intros H. apply andb_true_iff in H. destruct H as [Ho Hl].
  rewrite (IH Hl). destruct o; try discriminate Ho. simpl.
  destruct (dict_get d "status") as [v |]; simpl; reflexivity.
Qed.

Lemma open_only_on_other (l : list pyval) :
  forallb is_dict l = false ->
  exists e, Lighter.open_only l = inl e /\ exn_class e = AttributeError.
Proof.
  induction l as [| o l IH]; simpl; [discriminate |].
  intros H. destruct (is_dict o) eqn:Ho; simpl in H.
  - destruct (IH H) as (e & He & Hc). rewrite He.
    destruct o; try discriminate Ho. simpl. exists e. split; [reflexivity | exact Hc].
  - destruct o; try discriminate Ho; simpl; eexists; split; reflexivity.
Qed.

(** The filter of [get_orders]: on a list of JSON objects it keeps exactly
    the entries whose status is "OPEN", in their order; on a list with any
    other entry it raises [AttributeError]. *)
Theorem open_orders_filter (l : list pyval) :
  (forallb is_dict l = true -> Lighter.open_only l = inr (filter has_open_status l))
  /\ (forallb is_dict l = false ->
      exists e, Lighter.open_only l = inl e /\ exn_class e = AttributeError).
Proof. split; [apply open_only_on_dicts | apply open_only_on_other]. Qed.

(** Whatever [get_orders] returns for the status "OPEN" is a list made of
    entries whose status is "OPEN". *)
Theorem get_orders_returns_open_orders
  (rt : Runtime) (W : World) (c : Lighter.Client) (market_name : string)
  (s : mstate) (v : pyval) :
  fst (Lighter.get_orders rt W c market_name "OPEN" s) = inr v ->
  exists l, v = PList l /\ forallb has_open_status l = true.
Proof.
  unfold Lighter.get_orders, bind. 
  destruct (Lighter._get_private rt W c "/api/v2/account/orders" _ s) as [[e | all_orders] s'];
    simpl; [discriminate |].
  unfold lift, ret.
  destruct (py_iter all_orders) as [e | items] eqn:Hit; simpl; [discriminate |].
  destruct (forallb is_dict items) eqn:Hd.
  - rewrite (open_only_on_dicts items Hd). simpl. intros H. injection H as <-.
    eexists. split; [reflexivity |].
    apply forallb_forall. intros x Hx. apply filter_In in Hx. apply Hx.
  - destruct (open_only_on_other items Hd) as (e & He & _). rewrite He. discriminate.
Qed.

Lemma get_orders_returns_open_orders_witness :
  exists l,
    PList [PDict [("order_id", PInt 11); ("status", PStr "OPEN")];
           PDict [("order_id", PInt 13); ("status", PStr "OPEN")]] = PList l
    /\ forallb has_open_status l = true.
Proof.
  exact (get_orders_returns_open_orders sample_runtime (answering three_orders)
           sample_lighter_client "BTC-PERP" start _ eq_refl).
Defined.

(** ** Order-side calls on a connected Lighter adapter *)

Section LighterOrderSide.
Variables (rt : Runtime) (W : World) (a : Lighter.LighterAPI).

(** What a trace gains from one guarded request [rq]: the request, then
    either the success log and the re-poll in 500 ms, when the request went
    well, or one error log. *)
Lemma guarded_call_outcome (m : M pyval) (rq : request) (done failed : text)
    (s s1 : mstate) :
  m s = Lighter.call W rq s1 ->
  trace s1 = trace s ->
  (went_well W rq
   /\ trace (snd (Lighter.guarded a m done failed s))
      = (trace s ++ [Http rq; EmitLog (Base.tag a ++ done)%list SUCCESS; SingleShot 500])%list)
  \/ (~ went_well W rq
      /\ exists msg,
           trace (snd (Lighter.guarded a m done failed s))
           = (trace s ++ [Http rq; EmitLog msg ERROR])%list).
Proof.
  intros Hm Htr. unfold Lighter.guarded, bind, attempt. rewrite Hm.
  unfold Lighter.call, send, bind, emit, ret, raise, lift, Lighter.log; simpl.
  rewrite Htr.
  destruct (net W rq) as [detail | r] eqn:Hnet; simpl.
  - right. split.
    + intros [v Hv]. rewrite Hnet in Hv. discriminate Hv.
    + eexists. rewrite <- app_assoc. reflexivity.
  - destruct (Lighter._handle_response r) as [e | v] eqn:Hr; simpl.
    + right. split.
      * intros [v Hv]. rewrite Hnet in Hv. injection Hv as ->.
        simpl in Hr. discriminate Hr.
      * eexists. rewrite <- app_assoc. reflexivity.
    + left. split.
      * exists v. rewrite Hnet. rewrite (handle_response_ok r v Hr). reflexivity.
      * rewrite <- !app_assoc. reflexivity.
Qed.
End LighterOrderSide.

Lemma run_trace {A} (m : M A) : snd (run m) = trace (snd (m start)).
Proof. unfold run. destruct (m start); reflexivity. Qed.

Section LighterConnected.
Variables (rt : Runtime) (W : World) (a : Lighter.LighterAPI) (c : Lighter.Client).
Hypothesis connected : Base.client a = Some c.
Hypothesis key_set : Lighter.api_key c <> EmptyString.
Hypothesis secret_set : Lighter.api_secret c <> EmptyString.

Lemma logged_then_guarded (opening done failed : text) (lvl : LogLevel)
    (m : M pyval) (rq : request) :
  (forall s, clock_reads s = 0 ->
     exists s1, m s = Lighter.call W rq s1 /\ trace s1 = trace s) ->
  order_call_trace W a done rq
    (snd (run (bind (Lighter.log a opening lvl)
                 (fun _ => Lighter.guarded a m done failed)))).
Proof.
  intros Hm. rewrite (run_trace (bind (Lighter.log a opening lvl)
                 (fun _ => Lighter.guarded a m done failed))).
  unfold bind at 1. unfold Lighter.log, emit. simpl.
  match goal with
  | |- context [Lighter.guarded a m done failed ?s] =>
      destruct (Hm s eq_refl) as (s1 & Hcall & Htr);
      destruct (guarded_call_outcome W a m rq done failed s s1 Hcall Htr)
        as [[Hw H] | [Hw [msg H]]]
  end; exists (Base.tag a ++ opening)%list, lvl.
  - left. split; [exact Hw | exact H].
  - right. split; [exact Hw | exists msg; exact H].
Qed.

Lemma post_is_a_call (endpoint : string) (data : option (list (string * pyval)))
    (s : mstate) :
  clock_reads s = 0 ->
  exists s1,
    Lighter._post rt W c endpoint data s
    = Lighter.call W {| req_method := "POST"; req_url := Lighter.base_url c ++ endpoint;
                        req_headers := headers_at rt W c 0 "POST" endpoint data;
                        req_params := None; req_json := Lighter.opt_dict data |} s1
    /\ trace s1 = trace s.
Proof.
  intros H0. unfold Lighter._post, bind.
  rewrite (get_auth_headers_run rt W c key_set secret_set). rewrite H0.
  eexists. split; reflexivity.
Qed.

Lemma delete_is_a_call (endpoint : string) (data : option (list (string * pyval)))
    (s : mstate) :
  clock_reads s = 0 ->
  exists s1,
    Lighter._delete rt W c endpoint data s
    = Lighter.call W {| req_method := "DELETE"; req_url := Lighter.base_url c ++ endpoint;
                        req_headers := headers_at rt W c 0 "DELETE" endpoint data;
                        req_params := None; req_json := Lighter.opt_dict data |} s1
    /\ trace s1 = trace s.
Proof.
  intros H0. unfold Lighter._delete, bind.
  rewrite (get_auth_headers_run rt W c key_set secret_set). rewrite H0.
  eexists. split; reflexivity.
Qed.

Lemma lighter_create_order_outcome (sym : SupportedSymbol) (ty : OrderType)
    (dir : Direction) (qty : float) (px : option float) :
  exists rq,
    req_method rq = "POST"
    /\ req_url rq = Lighter.base_url c ++ "/api/v2/account/orders"
    /\ json_field rq "market" = Some (PStr (symbol_value sym ++ "-PERP"))
    /\ json_field rq "side" = Some (PStr (if Direction_eqb dir LONG then "B" else "S"))
    /\ json_field rq "type" = Some (PStr (if OrderType_eqb ty LMT then "L" else "M"))
    /\ (Lighter.price_arg rt px = None -> json_field rq "price" = None)
    /\ order_call_trace W a [T "Order submitted successfully."] rq
         (snd (run (Lighter.create_order rt W a sym ty dir qty px))).
Proof.
  unfold Lighter.create_order. rewrite connected.
  eexists. repeat apply conj.
  7: { apply logged_then_guarded. intros s H0.
       unfold Lighter.post_order. apply post_is_a_call. exact H0. }
  all: try reflexivity.
  simpl. intros ->. reflexivity.
Qed.

Lemma lighter_set_leverage_outcome (sym : SupportedSymbol) (leverage : Z) :
  exists rq,
    req_method rq = "POST"
    /\ req_url rq = Lighter.base_url c ++ "/api/v2/account/collateral"
    /\ json_field rq "leverage" = Some (PStr (str_of_int leverage))
    /\ order_call_trace W a [T "Leverage set to "; D leverage; T "x."] rq
         (snd (run (Lighter.set_leverage rt W a sym leverage))).
Proof.
  unfold Lighter.set_leverage. rewrite connected.
  eexists. repeat apply conj.
  4: { apply logged_then_guarded. intros s H0.
       unfold Lighter.update_collateral. apply post_is_a_call. exact H0. }
  all: reflexivity.
Qed.

Lemma lighter_cancel_all_outcome (sym : SupportedSymbol) :
  exists rq,
    req_method rq = "DELETE"
    /\ req_url rq = Lighter.base_url c ++ "/api/v2/account/orders/all"
    /\ json_field rq "market" = Some (PStr (symbol_value sym ++ "-PERP"))
    /\ order_call_trace W a [T "All orders cancelled."] rq
         (snd (run (Lighter.cancel_all_orders rt W a sym))).
Proof.
  unfold Lighter.cancel_all_orders. rewrite connected.
  eexists. repeat apply conj.
  4: { apply logged_then_guarded. intros s H0.
       unfold Lighter.delete_orders. apply delete_is_a_call. exact H0. }
  all: reflexivity.
Qed.

Lemma lighter_cancel_order_outcome (sym : SupportedSymbol) (order_id : string) :
  match int_of_str rt order_id with
  | Some oid =>
      exists rq,
        req_method rq = "DELETE"
        /\ req_url rq = Lighter.base_url c ++ "/api/v2/account/orders"
        /\ json_field rq "order_id" = Some (PInt oid)
        /\ order_call_trace W a [T "Order "; T order_id; T " cancelled."] rq
             (snd (run (Lighter.cancel_order rt W a sym order_id)))
  | None =>
      exists opening msg,
        snd (run (Lighter.cancel_order rt W a sym order_id))
        = [EmitLog opening INFO; EmitLog msg ERROR]
  end.
Proof.
  unfold Lighter.cancel_order. rewrite connected.
  destruct (int_of_str rt order_id) as [oid |] eqn:Hoid.
  - eexists. repeat apply conj.
    4: { apply logged_then_guarded. intros s H0.
         unfold bind at 1, lift. simpl. rewrite Hoid. simpl.
         unfold Lighter.delete_order. apply delete_is_a_call. exact H0. }
    all: reflexivity.
  - rewrite run_trace. unfold bind at 1. unfold Lighter.log, emit. simpl.
    unfold Lighter.guarded, bind, attempt, lift. simpl. rewrite Hoid. simpl.
    do 2 eexists. reflexivity.
Qed.
End LighterConnected.

(** On a connected Lighter adapter with its key and secret set,
    [create_order] sends exactly one request, a POST to the orders
    endpoint for the market "<symbol>-PERP", with side "B" for LONG and "S"
    for any other direction, type "L" for a limit order and "M" otherwise,
    and no price entry when no price is passed on.  It logs success and
    schedules a poll 500 ms later exactly when the request went well, and
    logs one error and schedules nothing otherwise. *)
Theorem lighter_create_order_sends_one_request
  (rt : Runtime) (W : World) (a : Lighter.LighterAPI) (c : Lighter.Client)
  (sym : SupportedSymbol) (ty : OrderType) (dir : Direction) (qty : float)
  (px : option float) :
  Base.client a = Some c ->
  Lighter.api_key c <> EmptyString ->
  Lighter.api_secret c <> EmptyString ->
  exists rq,
    req_method rq = "POST"
    /\ req_url rq = Lighter.base_url c ++ "/api/v2/account/orders"
    /\ json_field rq "market" = Some (PStr (symbol_value sym ++ "-PERP"))
    /\ json_field rq "side" = Some (PStr (if Direction_eqb dir LONG then "B" else "S"))
    /\ json_field rq "type" = Some (PStr (if OrderType_eqb ty LMT then "L" else "M"))
    /\ (Lighter.price_arg rt px = None -> json_field rq "price" = None)
    /\ order_call_trace W a [T "Order submitted successfully."] rq
         (snd (run (Lighter.create_order rt W a sym ty dir qty px))).
Proof. intros Hc Hk Hs. apply (lighter_create_order_outcome rt W a c Hc Hk Hs). Qed.

(** A market order SHORT 2 on the sample adapter, the exchange reachable. *)
Lemma lighter_create_order_sends_one_request_witness :
  exists rq,
    req_method rq = "POST"
    /\ req_url rq = Lighter.base_url sample_lighter_client ++ "/api/v2/account/orders"
    /\ json_field rq "market" = Some (PStr "BTC-PERP")
    /\ json_field rq "side" = Some (PStr "S")
    /\ json_field rq "type" = Some (PStr "M")
    /\ (Lighter.price_arg sample_runtime None = None -> json_field rq "price" = None)
    /\ order_call_trace reachable streaming_lighter [T "Order submitted successfully."] rq
         (snd (run (Lighter.create_order sample_runtime reachable streaming_lighter
                      BTC MKT SHORT 2 None))).
Proof.
  refine (lighter_create_order_sends_one_request sample_runtime reachable streaming_lighter
            sample_lighter_client BTC MKT SHORT 2 None eq_refl _ _); discriminate.
Defined.

(** On a connected Lighter adapter with its key and secret set,
    [set_leverage] and [cancel_all_orders] each send exactly one request,
    and [cancel_order] sends one when the order id reads as an integer and
    none, with one error log, when it does not.  After the request each
    logs success and schedules a poll 500 ms later exactly when the request
    went well, and logs one error and schedules nothing otherwise. *)
Theorem lighter_order_side_calls_repoll_on_success
  (rt : Runtime) (W : World) (a : Lighter.LighterAPI) (c : Lighter.Client)
  (sym : SupportedSymbol) (leverage : Z) (order_id : string) :
  Base.client a = Some c ->
  Lighter.api_key c <> EmptyString ->
  Lighter.api_secret c <> EmptyString ->
  (exists rq,
     req_method rq = "POST"
     /\ req_url rq = Lighter.base_url c ++ "/api/v2/account/collateral"
     /\ json_field rq "leverage" = Some (PStr (str_of_int leverage))
     /\ order_call_trace W a [T "Leverage set to "; D leverage; T "x."] rq
          (snd (run (Lighter.set_leverage rt W a sym leverage))))
  /\ (exists rq,
        req_method rq = "DELETE"
        /\ req_url rq = Lighter.base_url c ++ "/api/v2/account/orders/all"
        /\ json_field rq "market" = Some (PStr (symbol_value sym ++ "-PERP"))
        /\ order_call_trace W a [T "All orders cancelled."] rq
             (snd (run (Lighter.cancel_all_orders rt W a sym))))
  /\ match int_of_str rt order_id with
     | Some oid =>
         exists rq,
           req_method rq = "DELETE"
           /\ req_url rq = Lighter.base_url c ++ "/api/v2/account/orders"
           /\ json_field rq "order_id" = Some (PInt oid)
           /\ order_call_trace W a [T "Order "; T order_id; T " cancelled."] rq
                (snd (run (Lighter.cancel_order rt W a sym order_id)))
     | None =>
         exists opening msg,
           snd (run (Lighter.cancel_order rt W a sym order_id))
           = [EmitLog opening INFO; EmitLog msg ERROR]
     end.
Proof.
  intros Hc Hk Hs. repeat apply conj.
  - apply (lighter_set_leverage_outcome rt W a c Hc Hk Hs).
  - apply (lighter_cancel_all_outcome rt W a c Hc Hk Hs).
  - apply (lighter_cancel_order_outcome rt W a c Hc Hk Hs).
Qed.

(** Cancelling all orders on the sample adapter with no connectivity: one
    request, one error log, no scheduled poll. *)
Lemma lighter_order_side_calls_repoll_on_success_witness :
  exists rq,
    req_method rq = "DELETE"
    /\ req_url rq = Lighter.base_url sample_lighter_client ++ "/api/v2/account/orders/all"
    /\ json_field rq "market" = Some (PStr "BTC-PERP")
    /\ order_call_trace offline streaming_lighter [T "All orders cancelled."] rq
         (snd (run (Lighter.cancel_all_orders sample_runtime offline streaming_lighter BTC))).
Proof.
  refine (proj1 (proj2 (lighter_order_side_calls_repoll_on_success sample_runtime offline
                          streaming_lighter sample_lighter_client BTC 5%Z "17"
                          eq_refl _ _))); discriminate.
Defined.

(** ** The account state out of the payloads *)

(** The state [LighterAPI._poll_data] builds carries the adapter's name and
    the currency USDT, and it reports a position only when one is held:
    either the position is NONE with quantity, entry price and pnl 0, or
    the quantity is the payload's size, which is above 0, and the direction
    is LONG for side "B" and SHORT for every other side. *)
Theorem lighter_state_reports_held_positions_only
  (rt : Runtime) (a : Lighter.LighterAPI) (collateral_data position_data : pyval)
  (st : ExchangeState) :
  Lighter.translate_state rt a collateral_data position_data = inr st ->
  name st = Base.name a
  /\ currency st = "USDT"
  /\ ((position st = {| direction := NONE; quantity := 0; entryPrice := 0 |}
       /\ pnl st = 0%float)
      \/ (exists sz sd,
            py_getitem position_data "size" = inr sz
            /\ py_float rt sz = inr (quantity (position st))
            /\ (0 <? quantity (position st))%float = true
            /\ py_getitem position_data "side" = inr sd
            /\ direction (position st) = if is_str "B" sd then LONG else SHORT)).
Proof.
  unfold Lighter.translate_state. intros H.
  do 5 peel H.
  match type of H with
  | rbind ?r _ = _ => destruct r as [e | held] eqn:Eheld; simpl in H; [discriminate H |]
  end.
  destruct held.
  - destruct (py_truthy position_data); [| discriminate Eheld].
    destruct (py_getitem position_data "size") as [e | sz]; simpl in *; [discriminate |].
    destruct (py_float rt sz) as [e | x] eqn:Hsz; simpl in *; [discriminate |].
    injection Eheld as Hx.
    destruct (py_getitem position_data "side") as [e | sd]; simpl in H; [discriminate |].
    destruct (py_getitem position_data "entry_price") as [e | ep]; simpl in H; [discriminate |].
    destruct (py_float rt ep); simpl in H; [discriminate |].
    destruct (py_getitem position_data "unrealised_pnl") as [e | up]; simpl in H;
      [discriminate |].
    destruct (py_float rt up); simpl in H; [discriminate |].
    injection H as <-. simpl. repeat split.
    right. exists sz, sd. repeat split; [exact Hsz | exact Hx].
  - simpl in H. injection H as <-. simpl. repeat split. left. split; reflexivity.
Qed.

Lemma lighter_state_reports_held_positions_only_witness :
  name short_half_state = "Lighter"
  /\ currency short_half_state = "USDT"
  /\ ((position short_half_state = {| direction := NONE; quantity := 0; entryPrice := 0 |}
       /\ pnl short_half_state = 0%float)
      \/ (exists sz sd,
            py_getitem short_half "size" = inr sz
            /\ py_float sample_runtime sz = inr (quantity (position short_half_state))
            /\ (0 <? quantity (position short_half_state))%float = true
            /\ py_getitem short_half "side" = inr sd
            /\ direction (position short_half_state)
               = if is_str "B" sd then LONG else SHORT)).
Proof.
  exact (lighter_state_reports_held_positions_only sample_runtime streaming_lighter
           lighter_collateral short_half short_half_state eq_refl).
Defined.

(** When the collateral payload reads as a balance and a leverage, a
    position payload that is falsy ([None], an empty dict, an empty list)
    is not an error on the Lighter adapter, whose state is then the flat
    one.  The Pacifica adapter reads the "data" entry of its position
    payload: when the entry is present and falsy (null, an empty list) the
    state is the flat one; when the payload has no such entry, or is not a
    dict, the translation raises what the subscript raises. *)
Theorem no_position_is_flat
  (rt : Runtime) (l : Lighter.LighterAPI) (p : Pacifica.PacificaAPI)
  (collateral_data position_data b lv : pyval) (bal lf : float) (lev : Z) :
  py_getitem collateral_data "balance" = inr b ->
  py_float rt b = inr bal ->
  py_getitem collateral_data "leverage" = inr lv ->
  py_float rt lv = inr lf ->
  int_of_float lf = inr lev ->
  py_truthy position_data = false ->
  Lighter.translate_state rt l collateral_data position_data
  = inr (flat_state (Base.name l) "USDT" bal lev)
  /\ Pacifica.translate_state rt p (PDict [("data", collateral_data)])
       (PDict [("data", position_data)])
     = inr (flat_state (Base.name p) "USDC" bal lev)
  /\ (forall payload e,
        py_getitem payload "data" = inl e ->
        Pacifica.translate_state rt p (PDict [("data", collateral_data)]) payload
        = inl e).
Proof.
  intros Hb Hbal Hl Hlf Hlev Hp.
  unfold Lighter.translate_state, Pacifica.translate_state. simpl.
  rewrite Hb. simpl. rewrite Hbal. simpl. rewrite Hl. simpl. rewrite Hlf. simpl.
  rewrite Hlev. simpl. rewrite Hp. simpl.
  split; [reflexivity |]. split; [reflexivity |].
  intros payload e He. rewrite He. reflexivity.
Qed.

Lemma no_position_is_flat_witness :
  Lighter.translate_state sample_runtime streaming_lighter lighter_collateral (PList [])
  = inr (flat_state "Lighter" "USDT" 250 3)
  /\ Pacifica.translate_state sample_runtime streaming_pacifica
       (PDict [("data", lighter_collateral)]) (PDict [("data", PList [])])
     = inr (flat_state "Pacifica" "USDC" 250 3)
  /\ Pacifica.translate_state sample_runtime streaming_pacifica
       (PDict [("data", lighter_collateral)]) (PDict [])
     = Raise KeyError [T "'"; T "data"; T "'"]
  /\ Pacifica.translate_state sample_runtime streaming_pacifica
       (PDict [("data", lighter_collateral)]) PNone
     = Raise TypeError [T "'"; T "NoneType"; T "' object is not subscriptable"].
Proof.
  destruct (no_position_is_flat sample_runtime streaming_lighter streaming_pacifica
              lighter_collateral (PList []) (PFloat 250) (PFloat 3) 250 3 3
              eq_refl eq_refl eq_refl eq_refl eq_refl eq_refl)
    as (Hl & Hp & Hraise).
  split; [exact Hl |]. split; [exact Hp |].
  split; [exact (Hraise (PDict []) _ eq_refl) | exact (Hraise PNone _ eq_refl)].
Defined.

(** ** The verdict of [connect] and the client it leaves *)

(** [LighterAPI.connect] never raises.  With the account id or the L1
    address missing it returns [False] and leaves the adapter as it was,
    an earlier client included.  Otherwise it returns [True] with the
    client built from the credentials installed, or [False] with no client;
    and it returns [True] only after a request that the exchange answered
    with a success status and a JSON body holding a "balance". *)
Theorem lighter_connect_verdict
  (rt : Runtime) (W : World) (a : Lighter.LighterAPI) (creds : ApiCredentials) :
  exists a' ok,
    fst (run (Lighter.connect rt W a creds)) = inr (a', ok)
    /\ (if Lighter.no_account_id creds || Lighter.no_l1_address creds
        then a' = a /\ ok = false
        else a' = Base.set_client a
                    (if ok then Some (lighter_client_of rt creds) else None))
    /\ (ok = true ->
        exists rq v,
          In (Http rq) (snd (run (Lighter.connect rt W a creds)))
          /\ net W rq = Responded {| status_error := None; body := inr v |}
          /\ py_truthy v = true
          /\ py_contains "balance" v = inr true).
Proof.
  unfold run, Lighter.connect, bind, Lighter.log, emit; simpl.
  destruct (Lighter.no_account_id creds || Lighter.no_l1_address creds) eqn:Hv; simpl.
  - exists a, false. repeat split. discriminate.
  - unfold attempt, bind, Lighter.get_account_collateral, Lighter._get_private, bind,
      Lighter._get_auth_headers; simpl.
    destruct (String.eqb (apiKey creds) EmptyString
              || String.eqb (apiSecret creds) EmptyString); simpl.
    { eexists; exists false. repeat split. discriminate. }
    unfold Lighter.call, send, bind, emit, ret, raise, lift; simpl.
    match goal with
    | |- context [Http ?r] => set (rq := r)
    end.
    destruct (net W rq) as [detail | r] eqn:Hnet; simpl.
    { eexists; exists false. repeat split. discriminate. }
    destruct (Lighter._handle_response r) as [e | response] eqn:Hr; simpl.
    { eexists; exists false. repeat split. discriminate. }
    apply handle_response_ok in Hr. subst r.
    destruct (py_truthy response) eqn:Ht; simpl.
    + destruct (py_contains "balance" response) as [e | [ | ]] eqn:Hc; simpl.
      * eexists; exists false. repeat split. discriminate.
      * destruct (py_getitem response "balance") eqn:Hg; simpl.
        -- eexists; exists false. repeat split. discriminate.
        -- eexists; exists true. repeat split.
           intros _. exists rq, response. repeat split; try assumption.
           simpl. tauto.
      * eexists; exists false. repeat split. discriminate.
    + eexists; exists false. repeat split. discriminate.
Qed.

(** [PacificaAPI.connect] never raises, whatever the signer does: it
    returns [True] with the client built from the credentials installed, or
    [False] with no client; and it returns [True] only when the key and
    the secret are not empty and after a request whose decoded answer
    holds a "serverTime". *)
Theorem pacifica_connect_verdict
  (rt : Runtime) (W : World) (sign : signer) (a : Pacifica.PacificaAPI)
  (creds : ApiCredentials) :
  exists ok : bool,
    fst (run (Pacifica.connect rt W sign a creds))
    = inr (Base.set_client a (if ok then Some (pacifica_client_of creds) else None), ok)
    /\ (ok = true ->
        apiKey creds <> EmptyString /\ apiSecret creds <> EmptyString
        /\ exists rq,
             In (Http rq) (snd (run (Pacifica.connect rt W sign a creds)))
             /\ req_method rq = "GET"
             /\ req_url rq = Pacifica.MAINNET ++ "/utils/server_time"
             /\ py_contains "serverTime" (Pacifica.decode (net W rq)) = inr true).
Proof.
  unfold run, Pacifica.connect, bind, Pacifica.log, emit; simpl.
  unfold attempt, bind, lift, Pacifica.new_Client, Pacifica.check_api_keys.
  destruct (String.eqb (apiKey creds) EmptyString) eqn:Hk; simpl;
    [exists false; split; [reflexivity | discriminate] |].
  destruct (String.eqb (apiSecret creds) EmptyString) eqn:Hs; simpl;
    [exists false; split; [reflexivity | discriminate] |].
  apply String.eqb_neq in Hk. apply String.eqb_neq in Hs.
  unfold Pacifica.get_server_time, Pacifica._request, Pacifica._request_with, bind, attempt;
    simpl.
  match goal with
  | |- context [sign ?pk ?r ?m ?p ?s] =>
      destruct (sign pk r m p s) as [[e | [sg ts]] s']
  end; simpl.
  - destruct (is_ValueError (exn_class e)); simpl;
      exists false; (split; [reflexivity | discriminate]).
  - unfold send, bind, emit, ret; simpl.
    match goal with
    | |- context [Http ?r] => set (rq := r)
    end.
    destruct (py_contains "serverTime" (Pacifica.decode (net W rq))) as [e | [ | ]] eqn:Hc;
      simpl.
    + exists false; split; [reflexivity | discriminate].
    + destruct (py_getitem (Pacifica.decode (net W rq)) "serverTime"); simpl.
      * exists false; split; [reflexivity | discriminate].
      * exists true; split; [reflexivity |]. intros _. repeat split; try assumption.
        exists rq. repeat split; try assumption.
        apply in_or_app. left. apply in_or_app. right. left. reflexivity.
    + destruct (py_get (Pacifica.decode (net W rq)) "error" (PStr "Unknown error")); simpl;
        exists false; (split; [reflexivity | discriminate]).
Qed.

(** ** The Pacifica client *)

(** What [decode] makes of a transport failure is a dict with an "error"
    entry. *)
Lemma decode_failure (t : transport) :
  (forall v, t <> Responded {| status_error := None; body := inr v |}) ->
  py_contains "error" (Pacifica.decode t) = inr true.
Proof.
  intros H. destruct t as [detail | [[detail |] [detail' | v]]]; simpl; try reflexivity.
  exfalso. apply (H v). reflexivity.
Qed.

Section PacificaRequest.
Variables (rt : Runtime) (W : World) (sign : signer).
Hypothesis sign_sound : sound_signer sign.

Lemma request_added (c : Pacifica.Client) (method request_str : string)
    (params : list (string * pyval)) (s : mstate) :
  exists v added,
    fst (Pacifica._request rt W sign c method request_str params s) = inr v
    /\ trace (snd (Pacifica._request rt W sign c method request_str params s))
       = (trace s ++ added)%list
    /\ request_outcome W c method request_str params v added
    /\ (is_in method ["GET"; "POST"; "DELETE"] = false -> added = []).
Proof.
  unfold Pacifica._request, Pacifica._request_with, bind, attempt, request_outcome.
  destruct (sign_sound (Pacifica.private_key c) request_str method params s) as [Htr Hv].
  destruct (sign (Pacifica.private_key c) request_str method params s) as [[e | [sg ts]] s'];
    simpl in *.
  - rewrite (Hv e eq_refl). simpl. rewrite Htr.
    do 2 eexists. split; [reflexivity |]. split; [symmetry; apply app_nil_r |].
    split; [left; split; reflexivity | reflexivity].
  - unfold send, bind, emit, ret; simpl.
    destruct (String.eqb method "GET") eqn:Hg; simpl.
    { apply String.eqb_eq in Hg. subst method. rewrite Htr.
      do 2 eexists. split; [reflexivity |]. split; [reflexivity |].
      split; [| discriminate]. right. eexists. repeat split. }
    destruct (String.eqb method "POST") eqn:Hp; simpl.
    { apply String.eqb_eq in Hp. subst method. rewrite Htr.
      do 2 eexists. split; [reflexivity |]. split; [reflexivity |].
      split; [| discriminate]. right. eexists. repeat split. }
    destruct (String.eqb method "DELETE") eqn:Hd; simpl.
    { apply String.eqb_eq in Hd. subst method. rewrite Htr.
      do 2 eexists. split; [reflexivity |]. split; [reflexivity |].
      split; [| discriminate]. right. eexists. repeat split. }
    rewrite Htr.
    do 2 eexists. split; [reflexivity |]. split; [symmetry; apply app_nil_r |].
    split; [left; split; reflexivity | reflexivity].
Qed.
End PacificaRequest.

(** Under a signer that emits nothing and raises nothing but [ValueError],
    [Client._request] never raises, and what it sends is settled by the
    signer and the method.  When the signature fails it sends nothing and
    returns an "error" dict with the message of the failure.  When the
    signature is made and the method is GET, POST or DELETE it sends
    exactly one request, of that method, to the base address followed by
    the path, with the key, the signature and the timestamp in its headers
    and the parameters as the JSON body of a POST and as the query of a GET
    or DELETE, and returns the decoded answer, which is an "error" dict
    whenever the transport failed.  For any other method it sends nothing
    and returns an "error" dict naming the method. *)
Theorem pacifica_request_never_raises
  (rt : Runtime) (W : World) (sign : signer) (c : Pacifica.Client)
  (method request_str : string) (params : list (string * pyval)) (s : mstate) :
  sound_signer sign ->
  let out := Pacifica._request rt W sign c method request_str params s in
  match fst (sign (Pacifica.private_key c) request_str method params s) with
  | inl e =>
      fst out = inr (Pacifica.error_dict (render rt (exn_msg e)))
      /\ trace (snd out) = trace s
  | inr (signature, timestamp) =>
      if is_in method ["GET"; "POST"; "DELETE"]
      then fst out
           = inr (Pacifica.decode
                    (net W (signed_request c method request_str params signature timestamp)))
           /\ trace (snd out)
              = (trace s
                 ++ [Http (signed_request c method request_str params signature timestamp)])%list
      else fst out = inr (Pacifica.error_dict ("Unsupported method: " ++ method))
           /\ trace (snd out) = trace s
  end
  /\ (forall t, (forall v, t <> Responded {| status_error := None; body := inr v |}) ->
                py_contains "error" (Pacifica.decode t) = inr true).
Proof.
  intros Hs out. split; [| apply decode_failure].
  subst out.
  unfold Pacifica._request, Pacifica._request_with, bind, attempt.
  destruct (Hs (Pacifica.private_key c) request_str method params s) as [Htr Hv].
  destruct (sign (Pacifica.private_key c) request_str method params s) as [[e | [sg ts]] s'];
    simpl in *.
  - rewrite (Hv e eq_refl). simpl. split; [reflexivity | exact Htr].
  - unfold is_in, signed_request, send, bind, emit, ret; simpl.
    destruct (String.eqb method "GET") eqn:Hg; simpl.
    { apply String.eqb_eq in Hg. subst method. simpl. rewrite Htr.
      split; reflexivity. }
    destruct (String.eqb method "POST") eqn:Hp; simpl.
    { apply String.eqb_eq in Hp. subst method. simpl. rewrite Htr.
      split; reflexivity. }
    destruct (String.eqb method "DELETE") eqn:Hd; simpl.
    { apply String.eqb_eq in Hd. subst method. simpl. rewrite Htr.
      split; reflexivity. }
    split; [reflexivity | exact Htr].
Qed.

(** A POST under a signer that signs, with no connectivity: the one request
    is sent and the failure comes back as an "error" dict.  Under the
    signer as shipped nothing is sent. *)
Lemma pacifica_request_never_raises_witness :
  (fst (Pacifica._request sample_runtime offline (working_signer offline)
          sample_pacifica_client "POST" "/orders" [("market_name", PStr "BTC-PERP")] start)
   = inr (Pacifica.error_dict "Request Error: Connection refused")
   /\ trace (snd (Pacifica._request sample_runtime offline (working_signer offline)
                    sample_pacifica_client "POST" "/orders"
                    [("market_name", PStr "BTC-PERP")] start))
      = [Http {| req_method := "POST";
                 req_url := "https://api.pacifica.fi/api/v1/orders";
                 req_headers :=
                   [("Content-Type", "application/json");
                    ("X-PACIFICA-API-KEY", "pk-live-1");
                    ("X-PACIFICA-SIGNATURE", "<signature>");
                    ("X-PACIFICA-TIMESTAMP", str_of_int (clock offline 0))];
                 req_params := None;
                 req_json := Some (PDict [("market_name", PStr "BTC-PERP")]) |}])
  /\ (fst (Pacifica._request sample_runtime offline
             (Pacifica.create_signature sample_runtime offline)
             sample_pacifica_client "POST" "/orders" [("market_name", PStr "BTC-PERP")] start)
      = inr (Pacifica.error_dict "API key is not set")
      /\ trace (snd (Pacifica._request sample_runtime offline
                       (Pacifica.create_signature sample_runtime offline)
                       sample_pacifica_client "POST" "/orders"
                       [("market_name", PStr "BTC-PERP")] start))
         = []).
Proof.
  split.
  - exact (proj1 (pacifica_request_never_raises sample_runtime offline (working_signer offline)
                    sample_pacifica_client "POST" "/orders" [("market_name", PStr "BTC-PERP")]
                    start (working_signer_sound offline))).
  - exact (proj1 (pacifica_request_never_raises sample_runtime offline
                    (Pacifica.create_signature sample_runtime offline)
                    sample_pacifica_client "POST" "/orders" [("market_name", PStr "BTC-PERP")]
                    start (create_signature_sound sample_runtime offline))).
Defined.

(** ** Order-side calls on a connected Pacifica adapter *)

Section PacificaOrderSide.
Variables (rt : Runtime) (W : World) (sign : signer).
Hypothesis sign_sound : sound_signer sign.
Variables (a : Pacifica.PacificaAPI) (c : Pacifica.Client).

Lemma pacifica_guarded_outcome (method request_str : string)
    (params : list (string * pyval)) (done failed opening : text) (lvl : LogLevel) :
  pacifica_call_trace W a done c method request_str params
    (snd (run (bind (Pacifica.log a opening lvl)
                 (fun _ => Pacifica.guarded a
                             (Pacifica._request rt W sign c method request_str params)
                             done failed)))).
Proof.
  rewrite run_trace. unfold bind at 1. unfold Pacifica.log, emit. simpl.
  unfold Pacifica.guarded. unfold bind at 1. unfold attempt. unfold bind at 1.
  match goal with
  | |- context [Pacifica._request rt W sign c method request_str params ?s] =>
      destruct (request_added rt W sign sign_sound c method request_str params s)
        as (v & added & Hv & Htr & Hout & _);
      destruct (Pacifica._request rt W sign c method request_str params s) as [r s2]
  end.
  simpl in Hv, Htr. subst r.
  exists (Base.tag a ++ opening)%list, lvl.
  unfold bind, lift, raise, Pacifica.log, emit, ret. simpl.
  destruct Hout as [[-> Hc] | (rq & -> & Hrest)].
  - left. rewrite Hc. simpl.
    destruct (py_getitem v "error"); simpl; rewrite Htr; eexists; reflexivity.
  - right. exists rq, v. split; [right; exists rq; split; [reflexivity | exact Hrest] |].
    destruct (py_contains "error" v) as [e | [ | ]] eqn:Hc; simpl.
    + right. split; [discriminate |]. rewrite Htr. eexists; reflexivity.
    + right. split; [discriminate |].
      destruct (py_getitem v "error"); simpl; rewrite Htr; eexists; reflexivity.
    + left. split; [reflexivity |]. rewrite Htr. reflexivity.
Qed.
End PacificaOrderSide.

(** On a connected Pacifica adapter, under a signer that emits nothing and
    raises nothing but [ValueError], each of [create_order],
    [set_leverage] and [cancel_all_orders] logs, sends at most one request,
    and then logs success and schedules a poll 500 ms later exactly when a
    request was sent and its decoded answer holds no "error"; otherwise it
    logs one error and schedules nothing.  The order goes as a POST to
    /orders with side "LONG" for LONG and "SHORT" otherwise, type "LIMIT"
    for a limit order and "MARKET" otherwise, the quantity as the size, and
    no price entry when no price is passed on.  [cancel_order] does the
    same when the order id reads as an integer, and logs one error without
    a request when it does not. *)
Theorem pacifica_order_side_calls
  (rt : Runtime) (W : World) (sign : signer) (a : Pacifica.PacificaAPI)
  (c : Pacifica.Client) (sym : SupportedSymbol) (ty : OrderType) (dir : Direction)
  (qty : float) (px : option float) (leverage : Z) (order_id : string) :
  sound_signer sign ->
  Base.client a = Some c ->
  (exists params,
     dict_get params "market_name" = Some (PStr (symbol_value sym ++ "-PERP"))
     /\ dict_get params "side"
        = Some (PStr (if Direction_eqb dir LONG then "LONG" else "SHORT"))
     /\ dict_get params "type"
        = Some (PStr (if OrderType_eqb ty LMT then "LIMIT" else "MARKET"))
     /\ dict_get params "size" = Some (PFloat qty)
     /\ (Pacifica.price_arg rt px = None -> dict_get params "price" = None)
     /\ pacifica_call_trace W a [T "Order submitted successfully."] c "POST" "/orders" params
          (snd (run (Pacifica.create_order rt W sign a sym ty dir qty px))))
  /\ pacifica_call_trace W a [T "Leverage set to "; D leverage; T "x."] c "POST" "/collateral"
       [("token_name", PStr "USDC"); ("account_address", opt_str (Pacifica.account_address c));
        ("leverage", PInt leverage)]
       (snd (run (Pacifica.set_leverage rt W sign a sym leverage)))
  /\ pacifica_call_trace W a [T "All orders cancelled."] c "DELETE" "/orders/all"
       [("market_name", PStr (symbol_value sym ++ "-PERP"));
        ("account_address", opt_str (Pacifica.account_address c))]
       (snd (run (Pacifica.cancel_all_orders rt W sign a sym)))
  /\ match int_of_str rt order_id with
     | Some oid =>
         pacifica_call_trace W a [T "Order "; T order_id; T " cancelled."] c "DELETE" "/orders"
           [("market_name", PStr (symbol_value sym ++ "-PERP")); ("order_id", PInt oid);
            ("account_address", opt_str (Pacifica.account_address c))]
           (snd (run (Pacifica.cancel_order rt W sign a sym order_id)))
     | None =>
         exists opening msg,
           snd (run (Pacifica.cancel_order rt W sign a sym order_id))
           = [EmitLog opening INFO; EmitLog msg ERROR]
     end.
Proof.
  intros Hs Hc. repeat apply conj.
  - unfold Pacifica.create_order. rewrite Hc. unfold Pacifica.post_order.
    eexists. repeat apply conj.
    6: { apply (pacifica_guarded_outcome rt W sign Hs a c). }
    all: try reflexivity.
    simpl. intros ->. reflexivity.
  - unfold Pacifica.set_leverage. rewrite Hc. unfold Pacifica.update_collateral.
    apply (pacifica_guarded_outcome rt W sign Hs a c).
  - unfold Pacifica.cancel_all_orders. rewrite Hc. unfold Pacifica.delete_orders.
    apply (pacifica_guarded_outcome rt W sign Hs a c).
  - unfold Pacifica.cancel_order. rewrite Hc. unfold py_int.
    destruct (int_of_str rt order_id) as [oid |] eqn:Hoid.
    + unfold Pacifica.delete_order.
      exact (pacifica_guarded_outcome rt W sign Hs a c "DELETE" "/orders" _
               [T "Order "; T order_id; T " cancelled."] [T "Cancel order failed: "]
               [T "Cancelling order: "; T order_id] INFO).
    + unfold run, bind, attempt, lift, Raise, Pacifica.log, emit. simpl.
      do 2 eexists. reflexivity.
Qed.

(** An order on the sample adapter, under a signer that signs, with the
    exchange reachable. *)
Lemma pacifica_order_side_calls_witness :
  pacifica_call_trace reachable streaming_pacifica [T "All orders cancelled."]
    sample_pacifica_client "DELETE" "/orders/all"
    [("market_name", PStr "BTC-PERP"); ("account_address", PStr "7Ywallet")]
    (snd (run (Pacifica.cancel_all_orders sample_runtime reachable (working_signer reachable)
                 streaming_pacifica BTC))).
Proof.
  exact (proj1 (proj2 (proj2
           (pacifica_order_side_calls sample_runtime reachable (working_signer reachable)
              streaming_pacifica sample_pacifica_client BTC MKT SHORT 2 None 5%Z "17"
              (working_signer_sound reachable) eq_refl)))).
Defined.

(** ** The order of the signals of a poll *)

Lemma signals_snoc (tr : list event) (e : event) :
  signals (tr ++ [e]) = (signals tr ++ signal_of e)%list.
Proof. unfold signals. rewrite flat_map_app. simpl. rewrite app_nil_r. reflexivity. Qed.

Lemma adds_ret {A} (a : A) : adds (ret a) [].
Proof.
  intros s. exists [], []. repeat split. simpl. symmetry. apply app_nil_r.
Qed.

Lemma adds_lift {A} (r : result A) : adds (lift r) [].
Proof.
  intros s. exists [], []. repeat split. simpl. symmetry. apply app_nil_r.
Qed.

Lemma adds_emit (e : event) : adds (emit e) (signal_of e).
Proof.
  intros s. exists (signal_of e), []. simpl. rewrite signals_snoc.
  repeat split. symmetry. apply app_nil_r.
Qed.

Lemma adds_bind {A B} (m : M A) (k : A -> M B) (k1 k2 : list (signal_kind * ExchangeId)) :
  adds m k1 -> (forall a, adds (k a) k2) -> adds (bind m k) (k1 ++ k2)%list.
Proof.
  intros Hm Hk s. unfold bind.
  destruct (Hm s) as (d1 & r1 & E1 & S1 & F1).
  destruct (m s) as [[e | a] s'] eqn:Em; simpl in *.
  - exists d1, (r1 ++ k2)%list. subst k1. rewrite <- app_assoc.
    repeat split; [exact S1 | discriminate].
  - pose proof (F1 a eq_refl) as ->. rewrite app_nil_r in E1. subst d1.
    destruct (Hk a s') as (d2 & r2 & E2 & S2 & F2).
    exists (k1 ++ d2)%list, r2. subst k2. rewrite <- app_assoc.
    repeat split; [| exact F2].
    rewrite S2, S1. rewrite <- app_assoc. reflexivity.
Qed.

Lemma adds_then {A B} (m : M A) (k : A -> M B) (ks : list (signal_kind * ExchangeId)) :
  adds m [] -> (forall a, adds (k a) ks) -> adds (bind m k) ks.
Proof. intros Hm Hk. apply (adds_bind m k [] ks Hm Hk). Qed.

Lemma adds_first {A B} (m : M A) (k : A -> M B) (x : signal_kind * ExchangeId)
    (ks : list (signal_kind * ExchangeId)) :
  adds m [x] -> (forall a, adds (k a) ks) -> adds (bind m k) (x :: ks).
Proof. intros Hm Hk. apply (adds_bind m k [x] ks Hm Hk). Qed.

Lemma adds_attempt {A} (m : M A) : adds m [] -> adds (attempt m) [].
Proof.
  intros Hm s. destruct (Hm s) as (d & r & E & S & _).
  symmetry in E. apply app_eq_nil in E. destruct E as [-> ->].
  exists [], []. unfold attempt. destruct (m s) as [x s']. simpl in *.
  repeat split. exact S.
Qed.

Lemma adds_send (W : World) (rq : request) : adds (send W rq) [].
Proof.
  unfold send. apply adds_then; [apply (adds_emit (Http rq)) | intros _; apply adds_ret].
Qed.

Lemma adds_read_clock (W : World) : adds (read_clock W) [].
Proof.
  intros s. exists [], []. repeat split. simpl. symmetry. apply app_nil_r.
Qed.

Lemma adds_log (msg : text) (lvl : LogLevel) : adds (emit (EmitLog msg lvl)) [].
Proof. apply (adds_emit (EmitLog msg lvl)). Qed.

(** Steps that emit no data signal, recognised by their shape. *)
Ltac quiet :=
  repeat match goal with
         | |- adds (bind _ _) [] => apply adds_then; [| intros ?]
         | |- adds (ret _) [] => apply adds_ret
         | |- adds (lift _) [] => apply adds_lift
         | |- adds (raise _ _) [] => apply adds_lift
         | |- adds (send _ _) [] => apply adds_send
         | |- adds (read_clock _) [] => apply adds_read_clock
         | |- adds (emit (EmitLog _ _)) [] => apply adds_log
         | |- adds (if ?b then _ else _) [] => destruct b
         | |- adds (match ?t with Unreachable _ => _ | Responded _ => _ end) [] => destruct t
         end.

Lemma adds_lighter_call (W : World) (rq : request) : adds (Lighter.call W rq) [].
Proof. unfold Lighter.call. quiet. Qed.

Lemma adds_lighter_headers (rt : Runtime) (W : World) (c : Lighter.Client)
    (method endpoint : string) (data : option (list (string * pyval))) :
  adds (Lighter._get_auth_headers rt W c method endpoint data) [].
Proof. unfold Lighter._get_auth_headers. quiet. Qed.

Lemma adds_lighter_get_private (rt : Runtime) (W : World) (c : Lighter.Client)
    (endpoint : string) (params : list (string * pyval)) :
  adds (Lighter._get_private rt W c endpoint params) [].
Proof.
  unfold Lighter._get_private.
  apply adds_then; [apply adds_lighter_headers | intros ?; apply adds_lighter_call].
Qed.

Lemma adds_lighter_poll_body (rt : Runtime) (W : World) (a : Lighter.LighterAPI)
    (c : Lighter.Client) :
  adds (Lighter.poll_body rt W a c) (whole_poll (Base.ex_id a)).
Proof.
  unfold Lighter.poll_body, whole_poll.
  apply adds_then.
  { unfold Lighter.get_market_price, Lighter._get.
    apply adds_then; [apply adds_lighter_call | intros ?]. quiet. }
  intros price_data. apply adds_then; [apply adds_lift | intros price].
  apply adds_first; [apply (adds_emit (EmitPrice _ _)) | intros _].
  apply adds_then; [apply adds_lighter_get_private | intros collateral_data].
  apply adds_then; [apply adds_lighter_get_private | intros position_data].
  apply adds_then; [apply adds_lift | intros state].
  apply adds_first; [apply (adds_emit (EmitState _ _)) | intros _].
  apply adds_then.
  { unfold Lighter.get_orders.
    apply adds_then; [apply adds_lighter_get_private | intros ?]. quiet. }
  intros orders_data. apply adds_then; [apply adds_lift | intros py_orders].
  apply (adds_emit (EmitOrders _ _)).
Qed.

Section PacificaSignals.
Variables (rt : Runtime) (W : World) (sign : signer).
Hypothesis sign_sound : sound_signer sign.

Lemma adds_sign (pk r m : string) (p : list (string * pyval)) : adds (sign pk r m p) [].
Proof.
  intros s. destruct (sign_sound pk r m p s) as [Htr _].
  exists [], []. rewrite Htr. repeat split. symmetry. apply app_nil_r.
Qed.

Lemma adds_pacifica_request (c : Pacifica.Client) (method request_str : string)
    (params : list (string * pyval)) :
  adds (Pacifica._request rt W sign c method request_str params) [].
Proof.
  unfold Pacifica._request, Pacifica._request_with.
  apply adds_then; [apply adds_attempt, adds_sign | intros r].
  destruct r as [e | [signature timestamp]]; quiet.
Qed.

Lemma adds_fail_on_error (what : string) (data : pyval) :
  adds (Pacifica.fail_on_error what data) [].
Proof. unfold Pacifica.fail_on_error. quiet. Qed.

Lemma adds_pacifica_poll_body (a : Pacifica.PacificaAPI) (c : Pacifica.Client) :
  adds (Pacifica.poll_body rt W sign a c) (whole_poll (Base.ex_id a)).
Proof.
  unfold Pacifica.poll_body, whole_poll, Pacifica.get_market_summary,
    Pacifica.get_collateral, Pacifica.get_positions, Pacifica.get_orders.
  apply adds_then; [apply adds_pacifica_request | intros summary_data].
  apply adds_then; [apply adds_fail_on_error | intros _].
  apply adds_then; [apply adds_lift | intros price].
  apply adds_first; [apply (adds_emit (EmitPrice _ _)) | intros _].
  apply adds_then; [apply adds_pacifica_request | intros collateral_data].
  apply adds_then; [apply adds_fail_on_error | intros _].
  apply adds_then; [apply adds_pacifica_request | intros position_data].
  apply adds_then; [apply adds_fail_on_error | intros _].
  apply adds_then; [apply adds_lift | intros state].
  apply adds_first; [apply (adds_emit (EmitState _ _)) | intros _].
  apply adds_then; [apply adds_pacifica_request | intros orders_data].
  apply adds_then; [apply adds_fail_on_error | intros _].
  apply adds_then; [apply adds_lift | intros py_orders].
  apply (adds_emit (EmitOrders _ _)).
Qed.
End PacificaSignals.

(** What a poll emits, given what its [try] block emits: a prefix of the
    three signals, and all three unless it logged an error. *)
Lemma poll_outcome {C} (a : Base.BaseExchangeAPI C) (body : M unit)
    (on_network on_other : Base.BaseExchangeAPI C -> exn -> M (Base.BaseExchangeAPI C)) :
  adds body (whole_poll (Base.ex_id a)) ->
  (forall e s, exists msg r s',
      on_network a e s = (r, s') /\ trace s' = (trace s ++ msg)%list
      /\ signals msg = [] /\ existsb is_error_log msg = true) ->
  (forall e s, exists msg r s',
      on_other a e s = (r, s') /\ trace s' = (trace s ++ msg)%list
      /\ signals msg = [] /\ existsb is_error_log msg = true) ->
  let m := bind (attempt body)
             (fun r => match r with
                       | inr _ => ret a
                       | inl e => if is_RequestException (exn_class e)
                                  then on_network a e else on_other a e
                       end) in
  exists done rest,
    whole_poll (Base.ex_id a) = (done ++ rest)%list
    /\ signals (snd (run m)) = done
    /\ (rest = [] \/ existsb is_error_log (snd (run m)) = true).
Proof.
  intros Hb Hn Ho m. subst m. rewrite run_trace.
  unfold bind, attempt.
  destruct (Hb start) as (done & rest & E & S & F).
  destruct (body start) as [[e | u] s1]; simpl in *.
  - exists done, rest. split; [exact E |].
    destruct (is_RequestException (exn_class e)).
    + destruct (Hn e s1) as (msg & r & s' & -> & Htr & Hs & Hl). simpl. rewrite Htr.
      unfold signals in *. rewrite flat_map_app, S, Hs, app_nil_r.
      split; [reflexivity | right]. rewrite existsb_app, Hl. apply orb_true_r.
    + destruct (Ho e s1) as (msg & r & s' & -> & Htr & Hs & Hl). simpl. rewrite Htr.
      unfold signals in *. rewrite flat_map_app, S, Hs, app_nil_r.
      split; [reflexivity | right]. rewrite existsb_app, Hl. apply orb_true_r.
  - exists done, rest. repeat split; [exact E | exact S | left; apply (F u eq_refl)].
Qed.

(** A poll emits its data signals in a fixed order and at most once each:
    the price, then the state, then the orders, all for the adapter's own
    exchange.  What a poll emits is a prefix of these three; a poll of a
    connected, streaming adapter emits all three unless it logs an error;
    and a poll of an adapter that has no client or is not streaming emits
    none.  For the Pacifica adapter this holds under a signer that emits
    nothing and raises nothing but [ValueError]. *)
Theorem poll_signals_in_order
  (rt : Runtime) (W : World) (sign : signer)
  (p : Pacifica.PacificaAPI) (l : Lighter.LighterAPI) :
  sound_signer sign ->
  (exists done rest,
     whole_poll (Base.ex_id l) = (done ++ rest)%list
     /\ signals (snd (run (Lighter._poll_data rt W l))) = done
     /\ (rest = []
         \/ existsb is_error_log (snd (run (Lighter._poll_data rt W l))) = true
         \/ Base.client l = None \/ Base.poll_timer_active l = false))
  /\ (exists done rest,
        whole_poll (Base.ex_id p) = (done ++ rest)%list
        /\ signals (snd (run (Pacifica._poll_data rt W sign p))) = done
        /\ (rest = []
            \/ existsb is_error_log (snd (run (Pacifica._poll_data rt W sign p))) = true
            \/ Base.client p = None \/ Base.poll_timer_active p = false)).
Proof.
  intros Hs. split.
  - unfold Lighter._poll_data.
    destruct (Base.client l) as [c |];
      [| exists [], (whole_poll (Base.ex_id l)); repeat split; tauto].
    destruct (Base.poll_timer_active l);
      [| exists [], (whole_poll (Base.ex_id l)); repeat split; tauto].
    destruct (poll_outcome l (Lighter.poll_body rt W l c)
                (fun a e => bind (Lighter.log a (T "Network error during poll: " :: exn_msg e) ERROR)
                              (fun _ => Lighter.stop_streaming a))
                (fun a e => bind (Lighter.log a (T "Data poll failed: " :: exn_msg e) ERROR)
                              (fun _ => ret a)))
      as (done & rest & E & S & F).
    + apply adds_lighter_poll_body.
    + intros e s. do 3 eexists. split; [reflexivity |]. simpl.
      split; [rewrite <- app_assoc; reflexivity | split; reflexivity].
    + intros e s. do 3 eexists. split; [reflexivity |]. simpl.
      split; [reflexivity | split; reflexivity].
    + exists done, rest. repeat split; [exact E | exact S | tauto].
  - unfold Pacifica._poll_data.
    destruct (Base.client p) as [c |];
      [| exists [], (whole_poll (Base.ex_id p)); repeat split; tauto].
    destruct (Base.poll_timer_active p);
      [| exists [], (whole_poll (Base.ex_id p)); repeat split; tauto].
    destruct (poll_outcome p (Pacifica.poll_body rt W sign p c)
                (fun a e => bind (Pacifica.log a (T "Network error during poll: " :: exn_msg e) ERROR)
                              (fun _ => Pacifica.stop_streaming a))
                (fun a e => bind (Pacifica.log a (T "Data poll failed: " :: exn_msg e) ERROR)
                              (fun _ => ret a)))
      as (done & rest & E & S & F).
    + apply (adds_pacifica_poll_body rt W sign Hs).
    + intros e s. do 3 eexists. split; [reflexivity |]. simpl.
      split; [rewrite <- app_assoc; reflexivity | split; reflexivity].
    + intros e s. do 3 eexists. split; [reflexivity |]. simpl.
      split; [reflexivity | split; reflexivity].
    + exists done, rest. repeat split; [exact E | exact S | tauto].
Qed.

(** The Pacifica poll of the flat account, under a signer that signs. *)
Lemma poll_signals_in_order_witness :
  exists done rest,
    whole_poll PACIFICA = (done ++ rest)%list
    /\ signals (snd (run (Pacifica._poll_data sample_runtime flat_account
                            (working_signer flat_account) streaming_pacifica))) = done
    /\ (rest = []
        \/ existsb is_error_log
             (snd (run (Pacifica._poll_data sample_runtime flat_account
                          (working_signer flat_account) streaming_pacifica))) = true
        \/ Base.client streaming_pacifica = None
        \/ Base.poll_timer_active streaming_pacifica = false).
Proof.
  exact (proj2 (poll_signals_in_order sample_runtime flat_account
                  (working_signer flat_account) streaming_pacifica streaming_lighter
                  (working_signer_sound flat_account))).
Defined.

(** A Lighter poll that goes through emits the three signals. *)
Example lighter_poll_goes_through :
  signals (snd (run (Lighter._poll_data sample_runtime quiet_lighter_account
                       streaming_lighter)))
  = whole_poll LIGHTER
  /\ existsb is_error_log (snd (run (Lighter._poll_data sample_runtime quiet_lighter_account
                                       streaming_lighter))) = false.
Proof. vm_compute. split; reflexivity. Qed.

(** ** The order handlers of the main window *)

(** An individual order reaches an adapter only after every check passed:
    when the handler calls [create_order], it calls it once, the
    exchange is the one of the panel and has an adapter, the symbol is the
    order symbol, the quantity is the one of the spin box and is not
    [<= 0], the direction is the one of the long button, and the order is
    either a market order without a price or a limit order at the stored
    price of that exchange minus the offset for LONG and plus the offset
    for SHORT. *)
Theorem individual_order_is_validated
  (m : Main.MainWindow) (api_clients : ExchangeId -> bool) (order_symbol : SupportedSymbol)
  (form : ExchangeId -> Handlers.IndividualForm) (ex_id : option ExchangeId)
  (raises : option exn)
  (ex : ExchangeId) (sym : SupportedSymbol) (ty : OrderType) (dir : Direction)
  (qty : float) (px : option float) :
  In (Handlers.CreateOrder ex sym ty dir qty px)
     (Handlers._execute_individual_order m api_clients order_symbol form ex_id raises) ->
  List.length (filter Handlers.is_create
                 (Handlers._execute_individual_order m api_clients order_symbol form ex_id
                    raises)) = 1
  /\ ex_id = Some ex
  /\ api_clients ex = true
  /\ sym = order_symbol
  /\ qty = Handlers.ind_quantity (form ex)
  /\ (qty <=? 0)%float = false
  /\ dir = (if Handlers.is_long (form ex) then LONG else SHORT)
  /\ (if Handlers.is_mkt (form ex)
      then ty = MKT /\ px = None
      else ty = LMT
           /\ exists cp,
                Main.prices m ex = Some cp
                /\ px = Some (cp + (if Handlers.is_long (form ex)
                                    then - Handlers.ind_offset (form ex)
                                    else Handlers.ind_offset (form ex)))%float).
Proof.
  unfold Handlers._execute_individual_order.
  destruct ex_id as [ex' |]; [| simpl; intros [H | []]; discriminate H].
  destruct (api_clients ex') eqn:Hc; simpl; [| intros [H | []]; discriminate H].
  destruct (Handlers.ind_quantity (form ex') <=? 0)%float eqn:Hq;
    [simpl; intros [H | []]; discriminate H |].
  destruct (Handlers.is_mkt (form ex')) eqn:Hm; simpl.
  - intros [H | [H | H]]; [discriminate H | |
      destruct raises; simpl in H; [destruct H as [H | []]; discriminate H | destruct H]].
    injection H as <- <- <- <- <- <-. rewrite Hc, Hq, Hm.
    repeat split. destruct raises; reflexivity.
  - destruct (Main.prices m ex') as [cp |] eqn:Hp; [| intros [H | []]; discriminate H].
    intros [H | [H | H]]; [discriminate H | |
      destruct raises; simpl in H; [destruct H as [H | []]; discriminate H | destruct H]].
    injection H as <- <- <- <- <- <-. rewrite Hc, Hq, Hm, Hp.
    repeat split; [destruct raises; reflexivity |].
    exists cp. split; [reflexivity |].
    destruct (Handlers.is_long (form ex')); reflexivity.
Qed.

(** A limit order LONG 2 on Lighter at the stored price 64000 less the
    offset 0.5. *)
Lemma individual_order_is_validated_witness :
  List.length (filter Handlers.is_create
                 (Handlers._execute_individual_order priced_store all_connected BTC
                    (fun _ => limit_long 2) (Some LIGHTER) None)) = 1
  /\ Some LIGHTER = Some LIGHTER
  /\ all_connected LIGHTER = true
  /\ BTC = BTC
  /\ 2%float = Handlers.ind_quantity (limit_long 2)
  /\ (2 <=? 0)%float = false
  /\ LONG = (if Handlers.is_long (limit_long 2) then LONG else SHORT)
  /\ (if Handlers.is_mkt (limit_long 2)
      then LMT = MKT /\ Some 63999.5%float = None
      else LMT = LMT
           /\ exists cp,
                Main.prices priced_store LIGHTER = Some cp
                /\ Some 63999.5%float
                   = Some (cp + (if Handlers.is_long (limit_long 2)
                                 then - Handlers.ind_offset (limit_long 2)
                                 else Handlers.ind_offset (limit_long 2)))%float).
Proof.
  exact (individual_order_is_validated priced_store all_connected BTC
           (fun _ => limit_long 2) (Some LIGHTER) None
           LIGHTER BTC LMT LONG 2 (Some 63999.5%float)
           (or_intror (or_introl eq_refl))).
Defined.

(** A strategy order reaches the adapter of exchange A only after every
    check passed: when the handler calls [create_order], it calls it once,
    both strategy exchanges are selected, the order goes to A,
    which has an adapter and a stored price, for the order symbol; it is a
    limit order for the quantity of the panel, which is not [<= 0]; LONG
    when the long button is checked and SHORT otherwise, at the price of A
    minus the offset for LONG and plus the offset for SHORT. *)
Theorem strategy_order_is_a_limit_order_on_A
  (m : Main.MainWindow) (api_clients : ExchangeId -> bool) (order_symbol : SupportedSymbol)
  (f : Handlers.StrategyForm) (raises : option exn)
  (ex : ExchangeId) (sym : SupportedSymbol) (ty : OrderType) (dir : Direction)
  (qty : float) (px : option float) :
  In (Handlers.CreateOrder ex sym ty dir qty px)
     (Handlers.on_execute_strategy_order m api_clients order_symbol f raises) ->
  List.length (filter Handlers.is_create
                 (Handlers.on_execute_strategy_order m api_clients order_symbol f raises)) = 1
  /\ Main.selected_A m = Some ex
  /\ Main.selected_B m <> None
  /\ api_clients ex = true
  /\ sym = order_symbol
  /\ ty = LMT
  /\ qty = Handlers.strategy_qty f
  /\ (qty <=? 0)%float = false
  /\ (Handlers.A_Long_checked f = true \/ Handlers.A_Short_checked f = true)
  /\ dir = (if Handlers.A_Long_checked f then LONG else SHORT)
  /\ exists price_a,
       Main.prices m ex = Some price_a
       /\ px = Some (price_a + (if Handlers.A_Long_checked f
                                then - Handlers.strategy_offset f
                                else Handlers.strategy_offset f))%float.
Proof.
  unfold Handlers.on_execute_strategy_order.
  destruct (Main.selected_A m) as [sa |]; [| simpl; intros [H | []]; discriminate H].
  destruct (Main.selected_B m) as [sb |]; [| simpl; intros [H | []]; discriminate H].
  destruct (api_clients sa) eqn:Hc; [| simpl; intros [H | []]; discriminate H].
  destruct (Main.prices m sa) as [price_a |] eqn:Hp;
    [| simpl; intros [H | []]; discriminate H].
  destruct (Handlers.strategy_qty f <=? 0)%float eqn:Hq;
    [simpl; intros [H | []]; discriminate H |].
  destruct (Handlers.A_Long_checked f) eqn:Hl; simpl.
  - intros [H | [H | H]]; [discriminate H | |
      destruct raises; simpl in H; [destruct H as [H | []]; discriminate H | destruct H]].
    injection H as <- <- <- <- <- <-. rewrite Hc, Hq, Hp.
    repeat split; try discriminate; try (destruct raises; reflexivity).
    + left. reflexivity.
    + exists price_a. split; reflexivity.
  - destruct (Handlers.A_Short_checked f) eqn:Hs; simpl;
      [| intros [H | []]; discriminate H].
    intros [H | [H | H]]; [discriminate H | |
      destruct raises; simpl in H; [destruct H as [H | []]; discriminate H | destruct H]].
    injection H as <- <- <- <- <- <-. rewrite Hc, Hq, Hp.
    repeat split; try discriminate; try (destruct raises; reflexivity).
    + right. reflexivity.
    + exists price_a. split; reflexivity.
Qed.

(** A strategy order SHORT 2 on Lighter at the stored price 64000 plus the
    offset 0.5, the call of the adapter raising. *)
Lemma strategy_order_is_a_limit_order_on_A_witness :
  List.length (filter Handlers.is_create
                 (Handlers.on_execute_strategy_order priced_store all_connected BTC
                    (strategy_short 2)
                    (Some {| exn_class := Exception_; exn_msg := [T "boom"] |}))) = 1
  /\ Main.selected_A priced_store = Some LIGHTER
  /\ Main.selected_B priced_store <> None
  /\ all_connected LIGHTER = true
  /\ BTC = BTC
  /\ LMT = LMT
  /\ 2%float = Handlers.strategy_qty (strategy_short 2)
  /\ (2 <=? 0)%float = false
  /\ (Handlers.A_Long_checked (strategy_short 2) = true
      \/ Handlers.A_Short_checked (strategy_short 2) = true)
  /\ SHORT = (if Handlers.A_Long_checked (strategy_short 2) then LONG else SHORT)
  /\ exists price_a,
       Main.prices priced_store LIGHTER = Some price_a
       /\ Some 64000.5%float
          = Some (price_a + (if Handlers.A_Long_checked (strategy_short 2)
                             then - Handlers.strategy_offset (strategy_short 2)
                             else Handlers.strategy_offset (strategy_short 2)))%float.
Proof.
  exact (strategy_order_is_a_limit_order_on_A priced_store all_connected BTC
           (strategy_short 2) (Some {| exn_class := Exception_; exn_msg := [T "boom"] |})
           LIGHTER BTC LMT SHORT 2 (Some 64000.5%float)
           (or_intror (or_introl eq_refl))).
Defined.

Section CancelAll.
Variables (api_clients : ExchangeId -> bool) (order_symbol : SupportedSymbol).

Lemma cancel_each_calls (ids : list ExchangeId) (raises : ExchangeId -> option exn)
    (ex : ExchangeId) :
  NoDup ids ->
  List.length (filter (Handlers.is_cancel_all ex)
                 (fst (Handlers.cancel_each api_clients order_symbol ids raises))) <= 1
  /\ (List.length (filter (Handlers.is_cancel_all ex)
                     (fst (Handlers.cancel_each api_clients order_symbol ids raises))) = 1
      -> In ex ids /\ api_clients ex = true).
Proof.
  induction ids as [| i ids IH]; intros Hnd; simpl.
  - split; [lia | discriminate].
  - inversion Hnd as [| ? ? Hni Hnd']; subst.
    specialize (IH Hnd'). destruct IH as [IH1 IH2].
    destruct (api_clients i) eqn:Hi.
    + destruct (raises i) as [e |].
      * simpl. destruct (ExchangeId_eqb i ex) eqn:Hie; simpl; [| split; [lia | discriminate]].
        split; [lia |]. intros _. destruct i, ex; try discriminate Hie; tauto.
      * destruct (Handlers.cancel_each api_clients order_symbol ids raises) as [acts e'].
        simpl in *. destruct (ExchangeId_eqb i ex) eqn:Hie; simpl.
        -- assert (i = ex) by (destruct i, ex; try discriminate Hie; reflexivity). subst i.
           assert (List.length (filter (Handlers.is_cancel_all ex) acts) = 0) as ->.
           { destruct (List.length (filter (Handlers.is_cancel_all ex) acts)) as [| [| n]];
               [reflexivity | | lia].
             exfalso. apply Hni. apply IH2. reflexivity. }
           split; [lia | tauto].
        -- split; [exact IH1 |]. intros H. destruct (IH2 H). tauto.
    + split; [exact IH1 |]. intros H. destruct (IH2 H). tauto.
Qed.

Lemma cancel_each_all (ids : list ExchangeId) (ex : ExchangeId) :
  NoDup ids -> In ex ids -> api_clients ex = true ->
  List.length (filter (Handlers.is_cancel_all ex)
                 (fst (Handlers.cancel_each api_clients order_symbol ids (fun _ => None)))) = 1
  /\ snd (Handlers.cancel_each api_clients order_symbol ids (fun _ => None)) = None.
Proof.
  intros Hnd Hin Hc. split.
  - induction ids as [| i ids IH]; [destruct Hin |].
    inversion Hnd as [| ? ? Hni Hnd']; subst. simpl.
    destruct (cancel_each_calls ids (fun _ => None) ex Hnd') as [Hle Hone].
    destruct Hin as [-> | Hin].
    + rewrite Hc.
      destruct (Handlers.cancel_each api_clients order_symbol ids (fun _ => None))
        as [acts e']. simpl in *.
      assert (ExchangeId_eqb ex ex = true) as -> by (destruct ex; reflexivity). simpl.
      destruct (List.length (filter (Handlers.is_cancel_all ex) acts)) as [| [| n]];
        [reflexivity | | lia].
      exfalso. apply Hni. apply Hone. reflexivity.
    + specialize (IH Hnd' Hin).
      destruct (api_clients i); [| exact IH].
      destruct (Handlers.cancel_each api_clients order_symbol ids (fun _ => None))
        as [acts e']. simpl in *.
      destruct (ExchangeId_eqb i ex) eqn:Hie; [| exact IH].
      exfalso. apply Hni.
      assert (i = ex) as -> by (destruct i, ex; try discriminate Hie; reflexivity).
      exact Hin.
  - clear Hnd Hin Hc. induction ids as [| i ids IH]; [reflexivity |]. simpl.
    destruct (api_clients i); [| exact IH].
    destruct (Handlers.cancel_each api_clients order_symbol ids (fun _ => None)).
    exact IH.
Qed.
End CancelAll.

(** "Cancel all" reaches every exchange at most once, and only an exchange
    that has a stored order and an adapter; when no call raises, it reaches
    each such exchange exactly once and ends on the success line, which it
    also writes when no exchange had an adapter; with no stored order it
    only writes that there is nothing to cancel. *)
Theorem cancel_all_reaches_each_exchange_once
  (m : Main.MainWindow) (api_clients : ExchangeId -> bool) (order_symbol : SupportedSymbol)
  (ids : list ExchangeId) (raises : ExchangeId -> option exn) (ex : ExchangeId) :
  Handlers.enumerates ids (Main.open_orders m) ->
  let calls r :=
    List.length (filter (Handlers.is_cancel_all ex)
                   (Handlers.on_cancel_all_orders api_clients order_symbol ids r)) in
  calls raises <= 1
  /\ (calls raises = 1 ->
      api_clients ex = true
      /\ exists o, In o (Main.open_orders m) /\ exchangeId o = ex)
  /\ (api_clients ex = true ->
      (exists o, In o (Main.open_orders m) /\ exchangeId o = ex) ->
      calls (fun _ => None) = 1)
  /\ (Main.open_orders m = [] ->
      Handlers.on_cancel_all_orders api_clients order_symbol ids raises
      = [Handlers.AddLog 1479 INFO])
  /\ (Main.open_orders m <> [] ->
      last (Handlers.on_cancel_all_orders api_clients order_symbol ids (fun _ => None))
           (Handlers.AddLog 0 INFO)
      = Handlers.AddLog 1488 SUCCESS).
Proof.
  intros [Hnd Hen] calls. subst calls. cbv beta.
  assert (Hshape : forall r,
            Handlers.on_cancel_all_orders api_clients order_symbol ids r
            = match ids with
              | [] => [Handlers.AddLog 1479 INFO]
              | _ => (Handlers.AddLog 1482 WARN
                        :: fst (Handlers.cancel_each api_clients order_symbol ids r)
                        ++ [match snd (Handlers.cancel_each api_clients order_symbol ids r) with
                            | None => Handlers.AddLog 1488 SUCCESS
                            | Some _ => Handlers.AddLog 1491 ERROR
                            end])%list
              end).
  { intros r. unfold Handlers.on_cancel_all_orders.
    destruct ids; [reflexivity |].
    destruct (Handlers.cancel_each api_clients order_symbol (e :: ids) r); reflexivity. }
  assert (Hcount : forall r,
            List.length (filter (Handlers.is_cancel_all ex)
                           (Handlers.on_cancel_all_orders api_clients order_symbol ids r))
            = List.length (filter (Handlers.is_cancel_all ex)
                             (fst (Handlers.cancel_each api_clients order_symbol ids r)))).
  { intros r. rewrite Hshape. destruct ids as [| i ids']; [reflexivity |].
    cbn [filter Handlers.is_cancel_all]. rewrite filter_app, length_app.
    destruct (snd (Handlers.cancel_each api_clients order_symbol (i :: ids') r));
      simpl; lia. }
  destruct (cancel_each_calls api_clients order_symbol ids raises ex Hnd) as [Hle Hone].
  repeat apply conj.
  - rewrite Hcount. exact Hle.
  - rewrite Hcount. intros H. destruct (Hone H) as [Hin Hc].
    split; [exact Hc | apply Hen; exact Hin].
  - intros Hc Ho. rewrite Hcount.
    apply (cancel_each_all api_clients order_symbol ids ex Hnd); [apply Hen; exact Ho | exact Hc].
  - intros Hempty. rewrite Hshape. destruct ids as [| i ids']; [reflexivity |].
    exfalso. destruct (proj1 (Hen i) (or_introl eq_refl)) as (o & Ho & _).
    rewrite Hempty in Ho. destruct Ho.
  - intros Hne. rewrite Hshape. destruct ids as [| i ids'].
    + exfalso. destruct (Main.open_orders m) as [| o l] eqn:Hoo; [apply Hne; reflexivity |].
      apply (proj2 (Hen (exchangeId o))). exists o. split; [left; reflexivity | reflexivity].
    + assert (Hs : snd (Handlers.cancel_each api_clients order_symbol (i :: ids')
                          (fun _ => None)) = None).
      { clear. induction (i :: ids') as [| j l IH]; [reflexivity |]. simpl.
        destruct (api_clients j); [| exact IH].
        destruct (Handlers.cancel_each api_clients order_symbol l (fun _ => None)).
        exact IH. }
      rewrite Hs.
      change (Handlers.AddLog 1482 WARN
                :: fst (Handlers.cancel_each api_clients order_symbol (i :: ids')
                          (fun _ => None)) ++ [Handlers.AddLog 1488 SUCCESS])%list
        with ((Handlers.AddLog 1482 WARN
                 :: fst (Handlers.cancel_each api_clients order_symbol (i :: ids')
                           (fun _ => None))) ++ [Handlers.AddLog 1488 SUCCESS])%list.
      apply last_last.
Qed.

Lemma priced_store_exchanges :
  Handlers.enumerates [LIGHTER; PACIFICA] (Main.open_orders priced_store).
Proof.
  split.
  - repeat constructor; simpl; intuition discriminate.
  - intros ex. split.
    + intros _. destruct ex.
      * exists (sample_order 1 PACIFICA). split; [left; reflexivity | reflexivity].
      * exists (sample_order 2 LIGHTER). split; [right; left; reflexivity | reflexivity].
    + intros _. destruct ex; simpl; tauto.
Qed.

(** The store with two orders on Pacifica and one on Lighter: one call per
    exchange. *)
Lemma cancel_all_reaches_each_exchange_once_witness :
  let calls r :=
    List.length (filter (Handlers.is_cancel_all PACIFICA)
                   (Handlers.on_cancel_all_orders all_connected BTC [LIGHTER; PACIFICA] r)) in
  calls (fun _ => None) <= 1
  /\ (calls (fun _ => None) = 1 ->
      all_connected PACIFICA = true
      /\ exists o, In o (Main.open_orders priced_store) /\ exchangeId o = PACIFICA)
  /\ (all_connected PACIFICA = true ->
      (exists o, In o (Main.open_orders priced_store) /\ exchangeId o = PACIFICA) ->
      calls (fun _ => None) = 1)
  /\ (Main.open_orders priced_store = [] ->
      Handlers.on_cancel_all_orders all_connected BTC [LIGHTER; PACIFICA] (fun _ => None)
      = [Handlers.AddLog 1479 INFO])
  /\ (Main.open_orders priced_store <> [] ->
      last (Handlers.on_cancel_all_orders all_connected BTC [LIGHTER; PACIFICA]
              (fun _ => None))
           (Handlers.AddLog 0 INFO)
      = Handlers.AddLog 1488 SUCCESS).
Proof.
  exact (cancel_all_reaches_each_exchange_once priced_store all_connected BTC
           [LIGHTER; PACIFICA] (fun _ => None) PACIFICA priced_store_exchanges).
Defined.

(** ** A poll and the store *)

Lemma keeps_ret {A} (ex : ExchangeId) (a : A) : keeps ex (ret a).
Proof. intros s H. exact H. Qed.

Lemma keeps_lift {A} (ex : ExchangeId) (r : result A) : keeps ex (lift r).
Proof. intros s H. exact H. Qed.

Lemma keeps_emit (ex : ExchangeId) (e : event) : own ex e -> keeps ex (emit e).
Proof.
  intros He s H. simpl. apply Forall_app. split; [exact H | constructor; [exact He | constructor]].
Qed.

Lemma keeps_bind {A B} (ex : ExchangeId) (m : M A) (k : A -> M B) :
  keeps ex m -> (forall a, keeps ex (k a)) -> keeps ex (bind m k).
Proof.
  intros Hm Hk s H. unfold bind. specialize (Hm s H).
  destruct (m s) as [[e | a] s']; simpl in *; [exact Hm | apply Hk; exact Hm].
Qed.

Lemma keeps_attempt {A} (ex : ExchangeId) (m : M A) : keeps ex m -> keeps ex (attempt m).
Proof.
  intros Hm s H. unfold attempt. specialize (Hm s H).
  destruct (m s) as [r s']. exact Hm.
Qed.

Lemma keeps_read_clock (ex : ExchangeId) (W : World) : keeps ex (read_clock W).
Proof. intros s H. exact H. Qed.

(** The last step of a poll: the order list, once translated, is emitted. *)
Lemma keeps_emit_orders (ex : ExchangeId) (r : result (list Order)) :
  (forall os, r = inr os -> Forall (fun o => exchangeId o = ex) os) ->
  keeps ex (bind (lift r) (fun py_orders => emit (EmitOrders ex py_orders))).
Proof.
  intros Hr s H. unfold bind, lift. destruct r as [e | os]; simpl; [exact H |].
  apply Forall_app. split; [exact H |].
  constructor; [| constructor]. split; [reflexivity | apply Hr; reflexivity].
Qed.

(** Steps that only log, call the network or compute. *)
Ltac kept :=
  repeat match goal with
         | |- keeps _ (bind _ _) => apply keeps_bind; [| intros ?]
         | |- keeps _ (ret _) => apply keeps_ret
         | |- keeps _ (lift _) => apply keeps_lift
         | |- keeps _ (raise _ _) => apply keeps_lift
         | |- keeps _ (send _ _) => unfold send
         | |- keeps _ (read_clock _) => apply keeps_read_clock
         | |- keeps _ (emit (EmitLog _ _)) => apply keeps_emit; exact Logic.I
         | |- keeps _ (emit (Http _)) => apply keeps_emit; exact Logic.I
         | |- keeps _ (emit (EmitPrice _ _)) => apply keeps_emit; reflexivity
         | |- keeps _ (emit (EmitState _ _)) => apply keeps_emit; reflexivity
         | |- keeps _ (if ?b then _ else _) => destruct b
         | |- keeps _ (match ?t with Unreachable _ => _ | Responded _ => _ end) => destruct t
         end.

Lemma keeps_lighter_get_private (ex : ExchangeId) (rt : Runtime) (W : World)
    (c : Lighter.Client) (endpoint : string) (params : list (string * pyval)) :
  keeps ex (Lighter._get_private rt W c endpoint params).
Proof.
  unfold Lighter._get_private, Lighter._get_auth_headers, Lighter.call. kept.
Qed.

Lemma keeps_lighter_poll (rt : Runtime) (W : World) (a : Lighter.LighterAPI) :
  keeps (Base.ex_id a) (Lighter._poll_data rt W a).
Proof.
  unfold Lighter._poll_data, Lighter.stop_streaming, Lighter.log.
  destruct (Base.client a) as [c |]; [| kept].
  destruct (Base.poll_timer_active a); [| kept].
  apply keeps_bind.
  - apply keeps_attempt. unfold Lighter.poll_body.
    apply keeps_bind.
    { unfold Lighter.get_market_price, Lighter._get, Lighter.call. kept. }
    intros price_data. apply keeps_bind; [apply keeps_lift | intros price].
    apply keeps_bind; [apply keeps_emit; reflexivity | intros _].
    apply keeps_bind; [apply keeps_lighter_get_private | intros collateral_data].
    apply keeps_bind; [apply keeps_lighter_get_private | intros position_data].
    apply keeps_bind; [apply keeps_lift | intros state].
    apply keeps_bind; [apply keeps_emit; reflexivity | intros _].
    apply keeps_bind.
    { unfold Lighter.get_orders.
      apply keeps_bind; [apply keeps_lighter_get_private | intros ?]. kept. }
    intros orders_data. apply keeps_emit_orders.
    intros os Hos. destruct (py_iter orders_data) as [e | l]; simpl in Hos;
      [discriminate Hos |].
    apply (lighter_orders_tagged rt a l os Hos).
  - intros [e | u]; kept.
Qed.

Section PacificaKeeps.
Variables (rt : Runtime) (W : World) (sign : signer).
Hypothesis sign_sound : sound_signer sign.

Lemma keeps_pacifica_request (ex : ExchangeId) (c : Pacifica.Client)
    (method request_str : string) (params : list (string * pyval)) :
  keeps ex (Pacifica._request rt W sign c method request_str params).
Proof.
  unfold Pacifica._request, Pacifica._request_with.
  apply keeps_bind.
  - apply keeps_attempt. intros s H.
    destruct (sign_sound (Pacifica.private_key c) request_str method params s) as [Htr _].
    rewrite Htr. exact H.
  - intros [e | [signature timestamp]]; kept.
Qed.

Lemma keeps_pacifica_poll (a : Pacifica.PacificaAPI) :
  keeps (Base.ex_id a) (Pacifica._poll_data rt W sign a).
Proof.
  unfold Pacifica._poll_data, Pacifica.stop_streaming, Pacifica.log.
  destruct (Base.client a) as [c |]; [| kept].
  destruct (Base.poll_timer_active a); [| kept].
  apply keeps_bind.
  - apply keeps_attempt.
    unfold Pacifica.poll_body, Pacifica.get_market_summary, Pacifica.get_collateral,
      Pacifica.get_positions, Pacifica.get_orders, Pacifica.fail_on_error.
    apply keeps_bind; [apply keeps_pacifica_request | intros summary_data].
    apply keeps_bind; [kept | intros _].
    apply keeps_bind; [apply keeps_lift | intros price].
    apply keeps_bind; [apply keeps_emit; reflexivity | intros _].
    apply keeps_bind; [apply keeps_pacifica_request | intros collateral_data].
    apply keeps_bind; [kept | intros _].
    apply keeps_bind; [apply keeps_pacifica_request | intros position_data].
    apply keeps_bind; [kept | intros _].
    apply keeps_bind; [apply keeps_lift | intros state].
    apply keeps_bind; [apply keeps_emit; reflexivity | intros _].
    apply keeps_bind; [apply keeps_pacifica_request | intros orders_data].
    apply keeps_bind; [kept | intros _].
    apply keeps_emit_orders.
    intros os Hos. destruct (py_getitem orders_data "data") as [e | d]; simpl in Hos;
      [discriminate Hos |].
    destruct (py_iter d) as [e | l]; simpl in Hos; [discriminate Hos |].
    apply (pacifica_orders_tagged rt a l os Hos).
  - intros [e | u]; kept.
Qed.
End PacificaKeeps.

(** Delivering events that concern one exchange leaves the entries of every
    other exchange, and the selection, as they were. *)
Lemma deliver_all_isolated (ex Y : ExchangeId) (tr : list event) :
  Forall (own ex) tr -> Y <> ex ->
  forall m,
    Main.orders_of Y (Main.open_orders (deliver_all m tr))
    = Main.orders_of Y (Main.open_orders m)
    /\ Main.exchange_states (deliver_all m tr) Y = Main.exchange_states m Y
    /\ Main.prices (deliver_all m tr) Y = Main.prices m Y
    /\ Main.selected_A (deliver_all m tr) = Main.selected_A m
    /\ Main.selected_B (deliver_all m tr) = Main.selected_B m.
Proof.
  intros Htr HY. induction Htr as [| e tr He _ IH]; intros m; [repeat split |].
  unfold deliver_all in *. simpl.
  destruct (IH (deliver m e)) as (Ho & Hs & Hp & HA & HB).
  rewrite Ho, Hs, Hp, HA, HB. clear IH Ho Hs Hp HA HB.
  destruct e as [msg lvl | ex' p | ex' st | ex' l | rq | ms]; simpl in *;
    try (repeat split; fail).
  - subst ex'. repeat split. unfold Main.update.
    destruct Y, ex; simpl; congruence.
  - subst ex'. repeat split. unfold Main.update.
    destruct Y, ex; simpl; congruence.
  - destruct He as [-> Hl]. repeat split.
    unfold Main.orders_of at 1. rewrite filter_app.
    fold (Main.orders_of Y l). rewrite (orders_of_foreign ex Y l HY Hl), app_nil_r.
    apply (orders_of_others_kept ex Y _ HY).
Qed.

(** A poll of one adapter, with its signals delivered to the main window,
    changes nothing that the store holds for another exchange: the orders,
    the account state and the price of every other exchange, and the
    strategy selection, are as before the poll.  For the Pacifica adapter
    this holds under a signer that emits nothing and raises nothing but
    [ValueError]. *)
Theorem poll_updates_own_exchange_only
  (rt : Runtime) (W : World) (sign : signer)
  (p : Pacifica.PacificaAPI) (l : Lighter.LighterAPI) (m : Main.MainWindow)
  (Y : ExchangeId) :
  sound_signer sign ->
  (Y <> Base.ex_id l ->
   let m' := deliver_all m (snd (run (Lighter._poll_data rt W l))) in
   Main.orders_of Y (Main.open_orders m') = Main.orders_of Y (Main.open_orders m)
   /\ Main.exchange_states m' Y = Main.exchange_states m Y
   /\ Main.prices m' Y = Main.prices m Y
   /\ Main.selected_A m' = Main.selected_A m
   /\ Main.selected_B m' = Main.selected_B m)
  /\ (Y <> Base.ex_id p ->
      let m' := deliver_all m (snd (run (Pacifica._poll_data rt W sign p))) in
      Main.orders_of Y (Main.open_orders m') = Main.orders_of Y (Main.open_orders m)
      /\ Main.exchange_states m' Y = Main.exchange_states m Y
      /\ Main.prices m' Y = Main.prices m Y
      /\ Main.selected_A m' = Main.selected_A m
      /\ Main.selected_B m' = Main.selected_B m).
Proof.
  intros Hs. split; intros HY m'; subst m'.
  - apply (deliver_all_isolated (Base.ex_id l) Y); [| exact HY].
    rewrite run_trace. apply keeps_lighter_poll. constructor.
  - apply (deliver_all_isolated (Base.ex_id p) Y); [| exact HY].
    rewrite run_trace. apply (keeps_pacifica_poll rt W sign Hs). constructor.
Qed.

(** A Lighter poll that goes through, delivered to the store that holds
    Pacifica orders: the Pacifica entries stay. *)
Lemma poll_updates_own_exchange_only_witness :
  let m' := deliver_all priced_store
              (snd (run (Lighter._poll_data sample_runtime quiet_lighter_account
                           streaming_lighter))) in
  Main.orders_of PACIFICA (Main.open_orders m')
  = Main.orders_of PACIFICA (Main.open_orders priced_store)
  /\ Main.exchange_states m' PACIFICA = Main.exchange_states priced_store PACIFICA
  /\ Main.prices m' PACIFICA = Main.prices priced_store PACIFICA
  /\ Main.selected_A m' = Main.selected_A priced_store
  /\ Main.selected_B m' = Main.selected_B priced_store.
Proof.
  refine (proj1 (poll_updates_own_exchange_only sample_runtime quiet_lighter_account
                   (working_signer quiet_lighter_account) streaming_pacifica
                   streaming_lighter priced_store PACIFICA
                   (working_signer_sound quiet_lighter_account)) _).
  discriminate.
Defined.

(** ** The form and [connect] *)

(** Credentials that the form of the main window accepts have a key and a
    secret.  For Lighter, [connect] then turns them down for a missing
    field exactly when the account id is 0; for Pacifica, the client can
    be built and the wallet address is there. *)
Theorem accepted_form_and_connect (ex : ExchangeId) (creds : ApiCredentials) :
  Main.save_accepts ex creds = true ->
  apiKey creds <> EmptyString
  /\ apiSecret creds <> EmptyString
  /\ match ex with
     | LIGHTER =>
         Lighter.no_account_id creds || Lighter.no_l1_address creds = true
         <-> accountId creds = Some 0%Z
     | PACIFICA =>
         Pacifica.new_Client (apiKey creds) (apiSecret creds) (accountAddress creds)
         = inr (pacifica_client_of creds)
         /\ exists addr, accountAddress creds = Some addr /\ addr <> EmptyString
     end.
Proof.
  unfold Main.save_accepts.
  destruct (String.eqb (apiKey creds) EmptyString) eqn:Hk; simpl; [discriminate |].
  destruct (String.eqb (apiSecret creds) EmptyString) eqn:Hs; simpl; [discriminate |].
  pose proof Hk as Hk'. pose proof Hs as Hs'.
  apply String.eqb_neq in Hk'. apply String.eqb_neq in Hs'.
  destruct ex; simpl.
  - destruct (accountAddress creds) as [addr |] eqn:Ha; [| discriminate].
    destruct (String.eqb addr EmptyString) eqn:Hae; [discriminate |].
    intros _. repeat split; try assumption.
    + unfold Pacifica.new_Client, Pacifica.check_api_keys, pacifica_client_of.
      rewrite Hk, Hs, Ha. reflexivity.
    + exists addr. split; [reflexivity | apply String.eqb_neq; exact Hae].
  - unfold Lighter.no_account_id, Lighter.no_l1_address.
    destruct (accountId creds) as [z |]; simpl; [| discriminate].
    destruct (l1Address creds) as [s |]; simpl; [| discriminate].
    destruct (String.eqb s EmptyString); [discriminate |].
    intros _. repeat split; try assumption.
    + rewrite orb_false_r. intros H. apply Z.eqb_eq in H. subst z. reflexivity.
    + intros H. injection H as ->. reflexivity.
Qed.

Lemma accepted_form_and_connect_witness :
  apiKey sample_lighter_creds <> EmptyString
  /\ apiSecret sample_lighter_creds <> EmptyString
  /\ (Lighter.no_account_id sample_lighter_creds
      || Lighter.no_l1_address sample_lighter_creds = true
      <-> accountId sample_lighter_creds = Some 0%Z).
Proof.
  exact (accepted_form_and_connect LIGHTER sample_lighter_creds eq_refl).
Defined.

(** ** The order list of a poll *)

Lemma lighter_orders_pointwise (rt : Runtime) (a : Lighter.LighterAPI)
    (payload : list pyval) (os : list Order) :
  Lighter.translate_orders rt a payload = inr os
  <-> Forall2 (fun e o => Lighter.translate_order rt a e = inr o) payload os.
Proof.
  revert os. induction payload as [| e l IH]; intros os; simpl.
  - split.
    + intros H. injection H as <-. constructor.
    + intros H. inversion H. reflexivity.
  - split.
    + intros H. destruct (Lighter.translate_order rt a e) as [x | o] eqn:Eo; simpl in H;
        [discriminate H |].
      destruct (Lighter.translate_orders rt a l) as [x | rest]; simpl in H; [discriminate H |].
      injection H as <-. constructor; [exact Eo | apply IH; reflexivity].
    + intros H. inversion H as [| ? o ? rest Ho Hrest]; subst.
      rewrite Ho. simpl. rewrite (proj2 (IH rest) Hrest). reflexivity.
Qed.

Lemma pacifica_orders_pointwise (rt : Runtime) (a : Pacifica.PacificaAPI)
    (payload : list pyval) (os : list Order) :
  Pacifica.translate_orders rt a payload = inr os
  <-> Forall2 (fun e o => Pacifica.translate_order rt a e = inr o) payload os.
Proof.
  revert os. induction payload as [| e l IH]; intros os; simpl.
  - split.
    + intros H. injection H as <-. constructor.
    + intros H. inversion H. reflexivity.
  - split.
    + intros H. destruct (Pacifica.translate_order rt a e) as [x | o] eqn:Eo; simpl in H;
        [discriminate H |].
      destruct (Pacifica.translate_orders rt a l) as [x | rest]; simpl in H; [discriminate H |].
      injection H as <-. constructor; [exact Eo | apply IH; reflexivity].
    + intros H. inversion H as [| ? o ? rest Ho Hrest]; subst.
      rewrite Ho. simpl. rewrite (proj2 (IH rest) Hrest). reflexivity.
Qed.

(** The order list a poll emits has one order per entry of the payload, in
    the order of the payload, and it exists only when every entry can be
    read: one entry that cannot be read leaves no list at all.  Each order
    carries the id of its entry and the exchange of the adapter; on Lighter
    it is a limit order exactly for type "L" and LONG exactly for side
    "B", on Pacifica a limit order exactly for type "LIMIT" and LONG
    exactly for side "LONG"; every other side reads as SHORT, never as
    NONE. *)
Theorem orders_translate_one_to_one
  (rt : Runtime) (l : Lighter.LighterAPI) (p : Pacifica.PacificaAPI)
  (payload : list pyval) (os : list Order) :
  (Lighter.translate_orders rt l payload = inr os
   <-> Forall2 (fun e o => Lighter.translate_order rt l e = inr o) payload os)
  /\ (Pacifica.translate_orders rt p payload = inr os
      <-> Forall2 (fun e o => Pacifica.translate_order rt p e = inr o) payload os)
  /\ (forall e o, Lighter.translate_order rt l e = inr o ->
        exists ty sd,
          py_getitem e "order_id" = inr (id o)
          /\ py_getitem e "type" = inr ty
          /\ py_getitem e "side" = inr sd
          /\ exchangeId o = Base.ex_id l
          /\ order_type o = (if is_str "L" ty then LMT else MKT)
          /\ order_direction o = (if is_str "B" sd then LONG else SHORT))
  /\ (forall e o, Pacifica.translate_order rt p e = inr o ->
        exists ty sd,
          py_getitem e "orderId" = inr (id o)
          /\ py_getitem e "type" = inr ty
          /\ py_getitem e "side" = inr sd
          /\ exchangeId o = Base.ex_id p
          /\ order_type o = (if is_str "LIMIT" ty then LMT else MKT)
          /\ order_direction o = (if is_str "LONG" sd then LONG else SHORT)).
Proof.
  split; [apply lighter_orders_pointwise |].
  split; [apply pacifica_orders_pointwise |].
  split.
  - intros e o H. unfold Lighter.translate_order in H.
    destruct (py_getitem e "order_id") as [x | oid]; simpl in H; [discriminate H |].
    destruct (py_getitem e "type") as [x | ty]; simpl in H; [discriminate H |].
    destruct (py_getitem e "side") as [x | sd]; simpl in H; [discriminate H |].
    do 8 peel H. injection H as <-. exists ty, sd. repeat split.
  - intros e o H. unfold Pacifica.translate_order in H.
    destruct (py_getitem e "orderId") as [x | oid]; simpl in H; [discriminate H |].
    destruct (py_getitem e "type") as [x | ty]; simpl in H; [discriminate H |].
    destruct (py_getitem e "side") as [x | sd]; simpl in H; [discriminate H |].
    do 8 peel H. injection H as <-. exists ty, sd. repeat split.
Qed.

(** ** The query string of the signed message *)

Lemma leb_trans (a b c : string) :
  String.leb a b = true -> String.leb b c = true -> String.leb a c = true.
Proof.
  unfold String.leb. intros Hab Hbc.
  destruct (String.compare a b) eqn:Eab; try discriminate Hab.
  - apply String.compare_eq_iff in Eab. subst b. exact Hbc.
  - destruct (String.compare b c) eqn:Ebc; try discriminate Hbc.
    + apply String.compare_eq_iff in Ebc. subst c. rewrite Eab. reflexivity.
    + apply String_as_OT.cmp_lt in Eab. apply String_as_OT.cmp_lt in Ebc.
      pose proof (String_as_OT.lt_trans _ _ _ Eab Ebc) as Hac.
      apply String_as_OT.cmp_lt in Hac. unfold String_as_OT.cmp in Hac.
      rewrite Hac. reflexivity.
Qed.

Lemma insert_item_perm (kv : string * pyval) (l : list (string * pyval)) :
  Permutation (insert_item kv l) (kv :: l).
Proof.
  induction l as [| x l IH]; simpl; [apply Permutation_refl |].
  destruct (String.leb (fst kv) (fst x)); [apply Permutation_refl |].
  apply Permutation_trans with (x :: kv :: l); [apply perm_skip; exact IH | apply perm_swap].
Qed.

Lemma sorted_items_perm (d : list (string * pyval)) : Permutation (sorted_items d) d.
Proof.
  induction d as [| kv d IH]; simpl; [apply perm_nil |].
  apply Permutation_trans with (kv :: sorted_items d);
    [apply insert_item_perm | apply perm_skip; exact IH].
Qed.

Lemma insert_item_sorted (kv : string * pyval) (l : list (string * pyval)) :
  StronglySorted key_le l -> StronglySorted key_le (insert_item kv l).
Proof.
  induction 1 as [| x l Hl IH Hx]; simpl.
  - constructor; constructor.
  - destruct (String.leb (fst kv) (fst x)) eqn:E.
    + constructor; [constructor; assumption |].
      constructor; [exact E |].
      apply Forall_forall. intros y Hy. unfold key_le.
      apply (leb_trans _ (fst x)); [exact E |].
      apply (proj1 (Forall_forall _ _) Hx y Hy).
    + constructor; [exact IH |].
      apply Forall_forall. intros y Hy.
      apply (Permutation_in _ (insert_item_perm kv l)) in Hy.
      destruct Hy as [<- | Hy].
      * unfold key_le. destruct (String.leb_total (fst x) (fst kv)) as [H | H];
          [exact H | rewrite H in E; discriminate E].
      * apply (proj1 (Forall_forall _ _) Hx y Hy).
Qed.

Lemma sorted_items_sorted (d : list (string * pyval)) :
  StronglySorted key_le (sorted_items d).
Proof.
  induction d as [| kv d IH]; simpl; [constructor | apply insert_item_sorted; exact IH].
Qed.

(** Two sorted lists with the same items, whose keys are distinct, are the
    same list. *)
Lemma sorted_unique (l1 l2 : list (string * pyval)) :
  StronglySorted key_le l1 -> StronglySorted key_le l2 ->
  Permutation l1 l2 -> NoDup (map fst l1) -> l1 = l2.
Proof.
  revert l2. induction l1 as [| x l1 IH]; intros l2 H1 H2 Hp Hnd.
  - apply Permutation_nil in Hp. subst. reflexivity.
  - destruct l2 as [| y l2]; [apply Permutation_sym, Permutation_nil in Hp; discriminate |].
    apply StronglySorted_inv in H1. destruct H1 as [H1 Hx].
    apply StronglySorted_inv in H2. destruct H2 as [H2 Hy].
    inversion Hnd as [| ? ? Hni Hnd']; subst.
    assert (Hxy : x = y).
    { assert (Hxin : In x (y :: l2)) by (apply (Permutation_in _ Hp); left; reflexivity).
      assert (Hyin : In y (x :: l1))
        by (apply (Permutation_in _ (Permutation_sym Hp)); left; reflexivity).
      destruct Hxin as [-> | Hxin]; [reflexivity |].
      destruct Hyin as [-> | Hyin]; [reflexivity |].
      pose proof (proj1 (Forall_forall _ _) Hy x Hxin) as Hle1.
      pose proof (proj1 (Forall_forall _ _) Hx y Hyin) as Hle2.
      exfalso. apply Hni.
      rewrite (String.leb_antisym _ _ Hle2 Hle1).
      apply in_map. exact Hyin. }
    subst y. f_equal.
    apply IH; [exact H1 | exact H2 | apply (Permutation_cons_inv Hp) | exact Hnd'].
Qed.

Lemma sorted_items_canonical (d1 d2 : list (string * pyval)) :
  NoDup (map fst d1) -> Permutation d1 d2 -> sorted_items d1 = sorted_items d2.
Proof.
  intros Hnd Hp. apply sorted_unique.
  - apply sorted_items_sorted.
  - apply sorted_items_sorted.
  - apply Permutation_trans with d1; [apply sorted_items_perm |].
    apply Permutation_trans with d2; [exact Hp | apply Permutation_sym, sorted_items_perm].
  - apply (Permutation_NoDup (l := map fst d1)); [| exact Hnd].
    apply Permutation_map, Permutation_sym, sorted_items_perm.
Qed.

(** The message signed for a GET or a DELETE does not depend on the order
    in which the parameters were put in the dict: the query string lists
    every parameter once, by ascending key, so two dicts with the same
    items give the same message. *)
Theorem signed_query_ignores_insertion_order
  (rt : Runtime) (timestamp request_str method : string)
  (params params' : list (string * pyval)) :
  NoDup (map fst params) ->
  Permutation params params' ->
  is_in method ["GET"; "DELETE"] = true ->
  Pacifica.signed_message rt timestamp request_str method params
  = Pacifica.signed_message rt timestamp request_str method params'
  /\ Permutation (sorted_items params) params
  /\ StronglySorted key_le (sorted_items params).
Proof.
  intros Hnd Hp Hm. split; [| split; [apply sorted_items_perm | apply sorted_items_sorted]].
  unfold Pacifica.signed_message. rewrite Hm.
  assert (Hpost : is_in method ["POST"; "PUT"] = false).
  { unfold is_in in *. simpl in *.
    destruct (String.eqb method "GET") eqn:Hg.
    - apply String.eqb_eq in Hg. subst method. reflexivity.
    - destruct (String.eqb method "DELETE") eqn:Hd; [| discriminate Hm].
      apply String.eqb_eq in Hd. subst method. reflexivity. }
  rewrite Hpost. simpl.
  assert (Hne : nonempty params = nonempty params').
  { destruct params as [| x l].
    - apply Permutation_nil in Hp. subst. reflexivity.
    - destruct params' as [| y l']; [| reflexivity].
      apply Permutation_sym, Permutation_nil in Hp. discriminate Hp. }
  rewrite <- Hne. rewrite (sorted_items_canonical params params' Hnd Hp). reflexivity.
Qed.

Lemma positions_query_keys : NoDup (map fst positions_query).
Proof.
  repeat constructor; simpl; intuition discriminate.
Qed.

(** The positions query with its two parameters in either order. *)
Lemma signed_query_ignores_insertion_order_witness :
  Pacifica.signed_message sample_runtime "1700000000000" "/positions" "GET" positions_query
  = Pacifica.signed_message sample_runtime "1700000000000" "/positions" "GET" positions_query'
  /\ Permutation (sorted_items positions_query) positions_query
  /\ StronglySorted key_le (sorted_items positions_query).
Proof.
  exact (signed_query_ignores_insertion_order sample_runtime "1700000000000" "/positions"
           "GET" positions_query positions_query' positions_query_keys
           (perm_swap _ _ _) eq_refl).
Defined.

(** ** A change of the trading symbol *)

Lemma logs_are_inert (logs : list event) :
  forallb is_log logs = true ->
  http_calls logs = [] /\ signals logs = [] /\ forall m, deliver_all m logs = m.
Proof.
  induction logs as [| e logs IH]; simpl; [repeat split |].
  intros H. apply andb_true_iff in H. destruct H as [He Hl].
  destruct (IH Hl) as (Hh & Hs & Hd).
  destruct e; try discriminate He. simpl.
  repeat split; [exact Hh | exact Hs | exact Hd].
Qed.

Section Restart.
Variables (rt : Runtime) (W : World) (sign : signer) (sym : SupportedSymbol).

Lemma restart_one (c : Window.adapter) (s : mstate) :
  exists c' s' logs,
    Window.restart rt W sign c sym s = (inr c', s')
    /\ trace s' = (trace s ++ logs)%list
    /\ forallb is_log logs = true
    /\ Window.restarted sym c c'.
Proof.
  destruct c as [a | a]; unfold Window.restart, Window.restarted, Window.restarted_as.
  - unfold Pacifica.stop_streaming, Pacifica.start_streaming, Pacifica._poll_data,
      Pacifica.stop_streaming, Pacifica.log, bind, emit, ret. simpl.
    destruct (Base.client a) as [cl |] eqn:Hc; simpl.
    + do 3 eexists. split; [reflexivity |]. simpl.
      split; [rewrite <- !app_assoc; reflexivity |].
      split; [reflexivity |]. destruct a; simpl in *. reflexivity.
    + do 3 eexists. split; [reflexivity |]. simpl.
      split; [rewrite <- !app_assoc; reflexivity |].
      split; reflexivity.
  - unfold Lighter.stop_streaming, Lighter.start_streaming, Lighter._poll_data,
      Lighter.stop_streaming, Lighter.log, bind, emit, ret. simpl.
    destruct (Base.client a) as [cl |] eqn:Hc; simpl.
    + do 3 eexists. split; [reflexivity |]. simpl.
      split; [rewrite <- !app_assoc; reflexivity |].
      split; [reflexivity |]. destruct a; simpl in *. reflexivity.
    + do 3 eexists. split; [reflexivity |]. simpl.
      split; [rewrite <- !app_assoc; reflexivity |].
      split; reflexivity.
Qed.

Lemma restart_every (l : list Window.adapter) (s : mstate) :
  exists l' s' logs,
    Window.restart_all rt W sign l sym s = (inr l', s')
    /\ trace s' = (trace s ++ logs)%list
    /\ forallb is_log logs = true
    /\ Forall2 (Window.restarted sym) l l'.
Proof.
  revert s. induction l as [| c l IH]; intros s; simpl.
  - exists [], s, []. repeat split; [symmetry; apply app_nil_r | constructor].
  - unfold bind.
    destruct (restart_one c s) as (c' & s1 & logs1 & E1 & T1 & L1 & R1). rewrite E1.
    destruct (IH s1) as (l' & s2 & logs2 & E2 & T2 & L2 & R2). rewrite E2.
    exists (c' :: l'), s2, (logs1 ++ logs2)%list. repeat split.
    + rewrite T2, T1, app_assoc. reflexivity.
    + rewrite forallb_app, L1, L2. reflexivity.
    + constructor; assumption.
Qed.
End Restart.

(** A change of the trading symbol restarts every adapter without a
    request and without a data signal: an adapter with a client ends up
    streaming the market of the new symbol, one without a client ends up
    not streaming.  The handler empties the stored orders and account
    states but keeps the stored prices, which are those of the old symbol
    until a poll replaces them; an individual order placed on the new
    symbol before that is priced from them. *)
Theorem symbol_change_keeps_the_old_prices
  (rt : Runtime) (W : World) (sign : signer) (m : Main.MainWindow)
  (order_symbol new_symbol : SupportedSymbol) (api_clients : list Window.adapter) :
  new_symbol <> order_symbol ->
  exists m' clients' tr,
    Window.on_symbol_changed rt W sign m order_symbol api_clients new_symbol
    = (inr (m', new_symbol, clients'), [Handlers.AddLog 1143 INFO], tr)
    /\ Main.open_orders m' = []
    /\ (forall ex, Main.exchange_states m' ex = None)
    /\ Main.prices m' = Main.prices m
    /\ Main.selected_A m' = Main.selected_A m
    /\ Main.selected_B m' = Main.selected_B m
    /\ http_calls tr = []
    /\ signals tr = []
    /\ Forall2 (Window.restarted new_symbol) api_clients clients'
    /\ (forall connected form ex_id raises,
          Handlers._execute_individual_order m' connected new_symbol form ex_id raises
          = Handlers._execute_individual_order m connected new_symbol form ex_id raises).
Proof.
  intros Hne. unfold Window.on_symbol_changed.
  assert (SupportedSymbol_eqb new_symbol order_symbol = false) as ->
    by (destruct new_symbol, order_symbol; try reflexivity; exfalso; apply Hne; reflexivity).
  unfold run.
  destruct (restart_every rt W sign new_symbol api_clients start)
    as (l' & s' & logs & E & Htr & Hl & HR).
  rewrite E. simpl in Htr. rewrite Htr.
  destruct (logs_are_inert logs Hl) as (Hh & Hs & Hd).
  rewrite Hd.
  do 3 eexists. split; [reflexivity |]. simpl.
  repeat split; try assumption.
Qed.

(** Lighter connected, Pacifica not: a change from BTC to ETH. *)
Lemma symbol_change_keeps_the_old_prices_witness :
  exists m' clients' tr,
    Window.on_symbol_changed sample_runtime reachable (working_signer reachable)
      priced_store BTC
      [Window.OfLighter streaming_lighter; Window.OfPacifica (Pacifica.new "Pacifica")] ETH
    = (inr (m', ETH, clients'), [Handlers.AddLog 1143 INFO], tr)
    /\ Main.open_orders m' = []
    /\ (forall ex, Main.exchange_states m' ex = None)
    /\ Main.prices m' = Main.prices priced_store
    /\ Main.selected_A m' = Main.selected_A priced_store
    /\ Main.selected_B m' = Main.selected_B priced_store
    /\ http_calls tr = []
    /\ signals tr = []
    /\ Forall2 (Window.restarted ETH)
         [Window.OfLighter streaming_lighter; Window.OfPacifica (Pacifica.new "Pacifica")]
         clients'
    /\ (forall connected form ex_id raises,
          Handlers._execute_individual_order m' connected ETH form ex_id raises
          = Handlers._execute_individual_order priced_store connected ETH form ex_id raises).
Proof.
  refine (symbol_change_keeps_the_old_prices sample_runtime reachable
            (working_signer reachable) priced_store BTC ETH
            [Window.OfLighter streaming_lighter; Window.OfPacifica (Pacifica.new "Pacifica")]
            _).
  discriminate.
Defined.

(** ** Private endpoints without a key *)

Section Keyless.
Variables (rt : Runtime) (W : World) (c : Lighter.Client).
Hypothesis no_key : Lighter.api_key c = EmptyString \/ Lighter.api_secret c = EmptyString.

Lemma headers_refused (method endpoint : string) (data : option (list (string * pyval)))
    (s : mstate) :
  refused (Lighter._get_auth_headers rt W c method endpoint data) s.
Proof.
  unfold refused, Lighter._get_auth_headers.
  assert (String.eqb (Lighter.api_key c) EmptyString
          || String.eqb (Lighter.api_secret c) EmptyString = true) as ->.
  { destruct no_key as [-> | ->]; simpl; [reflexivity | apply orb_true_r]. }
  eexists. split; reflexivity.
Qed.

Lemma refused_bind {A B} (m : M A) (k : A -> M B) (s : mstate) :
  refused m s -> refused (bind m k) s.
Proof.
  intros (e & Hm & He). exists e. unfold bind. rewrite Hm. split; [reflexivity | exact He].
Qed.
End Keyless.

(** With the key or the secret of the Lighter client empty, every private
    call raises [ValueError] before anything is sent and before the clock
    is read: the collateral, the positions and the orders cannot be read,
    and no order or leverage change goes out.  The public price request
    does not depend on them: it sends one request without headers. *)
Theorem lighter_private_calls_need_key_and_secret
  (rt : Runtime) (W : World) (c : Lighter.Client) (s : mstate)
  (token market status side ty size leverage : string) (price : option string)
  (order_id : Z) :
  Lighter.api_key c = EmptyString \/ Lighter.api_secret c = EmptyString ->
  refused (Lighter.get_account_collateral rt W c token) s
  /\ refused (Lighter.get_positions rt W c market) s
  /\ refused (Lighter.get_orders rt W c market status) s
  /\ refused (Lighter.update_collateral rt W c token leverage) s
  /\ refused (Lighter.post_order rt W c market side ty size price) s
  /\ refused (Lighter.delete_order rt W c market order_id) s
  /\ refused (Lighter.delete_orders rt W c market) s
  /\ trace (snd (Lighter.get_market_price W c market s))
     = (trace s ++ [Http (price_request c market)])%list.
Proof.
  intros Hk. repeat apply conj.
  - unfold Lighter.get_account_collateral, Lighter._get_private.
    apply refused_bind, headers_refused, Hk.
  - unfold Lighter.get_positions, Lighter._get_private.
    apply refused_bind, headers_refused, Hk.
  - unfold Lighter.get_orders, Lighter._get_private.
    apply refused_bind, refused_bind, headers_refused, Hk.
  - unfold Lighter.update_collateral, Lighter._post.
    apply refused_bind, headers_refused, Hk.
  - unfold Lighter.post_order, Lighter._post.
    apply refused_bind, headers_refused, Hk.
  - unfold Lighter.delete_order, Lighter._delete.
    apply refused_bind, headers_refused, Hk.
  - unfold Lighter.delete_orders, Lighter._delete.
    apply refused_bind, headers_refused, Hk.
  - unfold Lighter.get_market_price, Lighter._get, price_request.
    unfold bind at 1.
    match goal with
    | |- context [Lighter.call W ?rq s] =>
        pose proof (call_trace W rq s) as Hc;
        destruct (Lighter.call W rq s) as [[e | data] s1]
    end; simpl in *; [exact Hc |].
    unfold bind, lift, ret, raise.
    destruct (if py_truthy data then py_contains "mark_price" data else inr false)
      as [e | [ | ]]; simpl; try exact Hc.
    destruct (py_getitem data "mark_price"); simpl; exact Hc.
Qed.

Lemma lighter_private_calls_need_key_and_secret_witness :
  refused (Lighter.get_account_collateral sample_runtime reachable keyless_lighter_client
             "USDT") start
  /\ refused (Lighter.post_order sample_runtime reachable keyless_lighter_client
                "BTC-PERP" "B" "M" "2.0" None) start.
Proof.
  destruct (lighter_private_calls_need_key_and_secret sample_runtime reachable
              keyless_lighter_client start "USDT" "BTC-PERP" "OPEN" "B" "M" "2.0" "5" None 17%Z
              (or_intror eq_refl)) as (H1 & _ & _ & _ & H5 & _).
  split; [exact H1 | exact H5].
Defined.

(** ** The order book *)

Lemma levels_pointwise (rt : Runtime) (l : list pyval)
    (ls : list OrderBook.LighterPriceLevel) :
  OrderBook.levels rt l = inr ls
  <-> Forall2 (fun e lv => OrderBook.new_LighterPriceLevel rt e = inr lv) l ls.
Proof.
  revert ls. induction l as [| e l IH]; intros ls; simpl.
  - split.
    + intros H. injection H as <-. constructor.
    + intros H. inversion H. reflexivity.
  - split.
    + intros H.
      destruct (OrderBook.new_LighterPriceLevel rt e) as [x | lv] eqn:Ee; simpl in H;
        [discriminate H |].
      destruct (OrderBook.levels rt l) as [x | rest]; simpl in H; [discriminate H |].
      injection H as <-. constructor; [exact Ee | apply IH; reflexivity].
    + intros H. inversion H as [| ? lv ? rest Hlv Hrest]; subst.
      rewrite Hlv. simpl. rewrite (proj2 (IH rest) Hrest). reflexivity.
Qed.

(** [get_orderbook] sends one request, a GET without headers.  When it
    returns a book, the exchange answered that request with a success
    status and a JSON body, and the book has one level per entry of "bids"
    and of "asks", in their order, each made of the first two items of its
    entry read as floats; an entry that cannot be read leaves no book at
    all. *)
Theorem orderbook_levels_follow_the_payload
  (rt : Runtime) (W : World) (c : Lighter.Client) (market_name : string) (s : mstate)
  (book : OrderBook.LighterOrderBook) :
  fst (OrderBook.get_orderbook rt W c market_name s) = inr book ->
  trace (snd (OrderBook.get_orderbook rt W c market_name s))
  = (trace s ++ [Http (orderbook_request c market_name)])%list
  /\ exists data b a bl al,
       net W (orderbook_request c market_name)
       = Responded {| status_error := None; body := inr data |}
       /\ py_getitem data "bids" = inr b /\ py_iter b = inr bl
       /\ py_getitem data "asks" = inr a /\ py_iter a = inr al
       /\ Forall2 (fun e lv => OrderBook.new_LighterPriceLevel rt e = inr lv)
            bl (OrderBook.bids book)
       /\ Forall2 (fun e lv => OrderBook.new_LighterPriceLevel rt e = inr lv)
            al (OrderBook.asks book)
       /\ forall e lv, OrderBook.new_LighterPriceLevel rt e = inr lv ->
            exists p q,
              py_first e = inr p /\ py_float rt p = inr (OrderBook.level_price lv)
              /\ py_second e = inr q /\ py_float rt q = inr (OrderBook.level_size lv).
Proof.
  unfold OrderBook.get_orderbook, Lighter._get.
  change (Lighter.opt_dict None) with (@None pyval).
  change {| req_method := "GET";
            req_url := Lighter.base_url c ++ "/api/v2/market/orderbook?market=" ++ market_name;
            req_headers := []; req_params := None; req_json := None |}
    with (orderbook_request c market_name).
  remember (orderbook_request c market_name) as rq eqn:Erq. clear Erq.
  unfold bind at 1.
  pose proof (call_trace W rq s) as Hc.
  unfold Lighter.call, send, bind, emit, ret, raise, lift in *. simpl in *.
  destruct (net W rq) as [detail | r] eqn:Hnet; simpl in *; [discriminate |].
  destruct (Lighter._handle_response r) as [e | data] eqn:Hr; simpl in *; [discriminate |].
  apply handle_response_ok in Hr. subst r.
  intros H. split; [exact Hc |].
  unfold OrderBook.new_LighterOrderBook in H.
  destruct (py_getitem data "bids") as [x | b] eqn:Hb; simpl in H; [discriminate H |].
  destruct (py_iter b) as [x | bl] eqn:Hbl; simpl in H; [discriminate H |].
  destruct (OrderBook.levels rt bl) as [x | bids] eqn:Hbids; simpl in H; [discriminate H |].
  destruct (py_getitem data "asks") as [x | a] eqn:Ha; simpl in H; [discriminate H |].
  destruct (py_iter a) as [x | al] eqn:Hal; simpl in H; [discriminate H |].
  destruct (OrderBook.levels rt al) as [x | asks] eqn:Hasks; simpl in H; [discriminate H |].
  injection H as <-. simpl.
  exists data, b, a, bl, al. repeat split; try assumption; try reflexivity.
  - apply levels_pointwise. exact Hbids.
  - apply levels_pointwise. exact Hasks.
  - intros e lv Hlv. unfold OrderBook.new_LighterPriceLevel in Hlv.
    destruct (py_first e) as [x | p]; simpl in Hlv; [discriminate Hlv |].
    destruct (py_float rt p) as [x | price] eqn:Hp; simpl in Hlv; [discriminate Hlv |].
    destruct (py_second e) as [x | q]; simpl in Hlv; [discriminate Hlv |].
    destruct (py_float rt q) as [x | size] eqn:Hq; simpl in Hlv; [discriminate Hlv |].
    injection Hlv as <-. exists p, q. repeat split; assumption.
Qed.

(** The sample book: two bids, one ask, the third item of a level left
    out. *)
Lemma orderbook_levels_follow_the_payload_witness :
  trace (snd (OrderBook.get_orderbook sample_runtime (answering sample_book)
                sample_lighter_client "BTC-PERP" start))
  = (trace start ++ [Http (orderbook_request sample_lighter_client "BTC-PERP")])%list.
Proof.
  exact (proj1 (orderbook_levels_follow_the_payload sample_runtime (answering sample_book)
                  sample_lighter_client "BTC-PERP" start
                  {| OrderBook.bids := [{| OrderBook.level_price := 63999.5;
                                           OrderBook.level_size := 0.25 |};
                                        {| OrderBook.level_price := 63999;
                                           OrderBook.level_size := 1 |}];
                     OrderBook.asks := [{| OrderBook.level_price := 64000.5;
                                           OrderBook.level_size := 0.5 |}] |}
                  eq_refl)).
Defined.

(** ** The polls of the program as shipped *)





